(** * Auto Accept Agent: lease, polling, bounded retry and entitlement

    A shallow embedding of [src/extension/extension.js] (the extension
    module) and of its [./payment-handler] module
    ([src/unnamed/part_000]), followed by the properties of the
    coordination and polling engine.

    JavaScript values that the two modules keep in module variables or in
    the host's [globalState] memento are kept as [value]s, so that the
    truthiness tests of the source ([!x], [a && b], [a || b]) are the ones
    the model performs.  Module variables become fields of one [state]
    record, threaded through a state-and-exception monad [M]; a property
    access on [null]/[undefined] is the only way the modelled code can
    throw.

    What the host does for the extension is recorded in a trace of
    [effect]s (messages shown, requests sent, calls into the CDP handler
    and the relauncher); what the host answers (the clock, the reachability
    of the debugging port, the reply of the licence backend, the button the
    user picks, whether the settings panel loads) comes with each event
    as an [env].  An [await] is modelled as settling before the handler
    goes on, so a handler runs to its end within one event; the interval
    callback of the bounded retry is also given split at its
    [await verifyLicense ()], for a backend that answers after the timer
    has fired again.  Writes to the output channel and the status bar are
    left out: no property below reads them. *)

From Stdlib Require Import ZArith Lia Bool Ascii String.
From stdpp Require Import gmap strings list fin_maps.

Open Scope string_scope.
Open Scope list_scope.
Open Scope Z_scope.

(** ** JavaScript values *)

Inductive value :=
| VUndef
| VNull
| VNaN
| VBool (b : bool)
| VNum (n : Z)
| VStr (s : string)
| VArr (l : list string).

#[global] Instance value_eq_dec : EqDecision value.
Proof. solve_decision. Defined.

(** [ToBoolean]. *)
Definition truthy (v : value) : bool :=
  match v with
  | VUndef | VNull | VNaN => false
  | VBool b => b
  | VNum n => negb (n =? 0)
  | VStr s => negb (String.eqb s "")
  | VArr _ => true
  end.

(** [!v], [a && b], [a || b], [a === b], [a !== b]. *)
Definition js_not (v : value) : value := VBool (negb (truthy v)).
Definition js_and (a b : value) : value := if truthy a then b else a.
Definition js_or (a b : value) : value := if truthy a then a else b.
Definition strict_eq (a b : value) : bool :=
  match a, b with
  | VNaN, _ | _, VNaN => false
  | _, _ => bool_decide (a = b)
  end.
Definition strict_ne (a b : value) : bool := negb (strict_eq a b).

(** [ToNumber], exact on numbers, booleans, [null] and [undefined]; strings
    and arrays are never stored under a timestamp key and count as not
    numeric. Timestamps are integral milliseconds, hence [Z]. *)
Definition to_num (v : value) : option Z :=
  match v with
  | VNum n => Some n
  | VNull => Some 0
  | VBool b => Some (if b then 1 else 0)
  | _ => None
  end.

Definition js_sub (a b : value) : value :=
  match to_num a, to_num b with
  | Some x, Some y => VNum (x - y)
  | _, _ => VNaN
  end.

Definition js_lt (a b : value) : bool :=
  match to_num a, to_num b with
  | Some x, Some y => x <? y
  | _, _ => false
  end.

Definition js_gt (a b : value) : bool := js_lt b a.

(** [Math.ceil (a / d)] for an integral [a] and a positive integral [d],
    and [Math.max (0, v)]. *)
Definition js_ceil_div (a : value) (d : Z) : value :=
  match to_num a with
  | Some x => VNum (- ((- x) / d))
  | None => VNaN
  end.

Definition js_max0 (v : value) : value :=
  match to_num v with
  | Some x => VNum (Z.max 0 x)
  | None => VNaN
  end.

(** [String.prototype.toLowerCase] on the ASCII letters, which is all the
    comparison with the plan names can observe. *)
Definition lower_ascii (c : ascii) : ascii :=
  let n := nat_of_ascii c in
  if (Nat.leb 65 n && Nat.leb n 90)%bool then ascii_of_nat (n + 32) else c.

Fixpoint toLowerCase (s : string) : string :=
  match s with
  | EmptyString => EmptyString
  | String c r => String (lower_ascii c) (toLowerCase r)
  end.

(** ** The host: memento, timers, user interface, collaborators *)

(** [vscode.Memento]: [get (key)], [get (key, defaultValue)] and
    [update (key, value)]; storing [undefined] removes the key. *)
Definition memento_get (m : gmap string value) (k : string) : value :=
  match m !! k with
  | Some v => v
  | None => VUndef
  end.

Definition memento_get_or (m : gmap string value) (k : string) (d : value) : value :=
  match m !! k with
  | Some VUndef | None => d
  | Some v => v
  end.

Definition memento_update (m : gmap string value) (k : string) (v : value)
  : gmap string value :=
  match v with
  | VUndef => delete k m
  | _ => <[k := v]> m
  end.

(** The part of [vscode.ExtensionContext] the code reads besides
    [globalState]: [context.extension.id]. *)
Record ExtensionContext := { extension_id : string }.

Inductive task := FastTick | MaintenanceTick | ProPollingTick | TrialCheckTick.

#[global] Instance task_eq_dec : EqDecision task.
Proof. solve_decision. Defined.

(** A live [setInterval] registration. *)
Record timer := { timer_id : nat; timer_task : task; timer_interval : value }.

Inductive message :=
| MsgTrialEnded
| MsgTrialActivated
| MsgProActivated
| MsgPaymentReceived
| MsgVerificationSlow
| MsgBackgroundIsPro
| MsgUpgradeToUnlock
| MsgRelauncherMissing
| MsgTurnOnBackground.

(** The argument of [cdpHandler.start]. *)
Record cdp_config := {
  cfg_isPro : value;
  cfg_isBackgroundMode : value;
  cfg_pollInterval : value;
  cfg_ide : string;
  cfg_bannedCommands : list string
}.

(** What the code asks of its collaborators, in order.
    [VerifyLicenseCalled] records an entry into [verifyLicense]; it is the
    only entry that is not a call out of the two modules. *)
Inductive effect :=
| ShowInformation (m : message)
| ShowWarning (m : message)
| ShowError (m : message)
| UpdateStatusBar
| CdpStart (cfg : cdp_config)
| CdpStop
| CdpSetProStatus (v : value)
| CdpHideBackgroundOverlay
| EnsureCDPAndRelaunch
| ExecuteCommands (cmds : list string)
| ShowUpgradePrompt
| HttpsGet (endpoint : string) (userId : value)
| VerifyLicenseCalled.

#[global] Instance message_eq_dec : EqDecision message.
Proof. solve_decision. Defined.
#[global] Instance cdp_config_eq_dec : EqDecision cdp_config.
Proof. solve_decision. Defined.
#[global] Instance effect_eq_dec : EqDecision effect.
Proof. solve_decision. Defined.

(** ** Constants of the two modules *)

Definition PRO_STATE_KEY := "auto-accept-isPro".
Definition TRIAL_START_KEY := "auto-accept-trial-start".
Definition TRIAL_NOTIFIED_KEY := "auto-accept-trial-notified".
Definition FREQ_STATE_KEY := "auto-accept-frequency".
Definition USER_ID_KEY := "auto-accept-userId".
Definition PLAN_KEY := "auto-accept-plan".
Definition DAY_MS : Z := 24 * 60 * 60 * 1000.
Definition TRIAL_DURATION_MS : Z := 3 * 24 * 60 * 60 * 1000.
Definition MAX_PRO_POLLING_ATTEMPTS : Z := 24.

Definition GLOBAL_STATE_KEY := "auto-accept-enabled-global".
Definition BANNED_COMMANDS_KEY := "auto-accept-banned-commands".
Definition LOCK_KEY := "auto-accept-instance-lock".
Definition HEARTBEAT_KEY := "auto-accept-instance-heartbeat".
Definition BACKGROUND_DONT_SHOW_KEY := "auto-accept-background-dont-show".
Definition BACKGROUND_MODE_KEY := "auto-accept-background-mode".

(** ** Module state *)

Record state := {
  (* host *)
  globalState : gmap string value;
  timers : list timer;
  next_timer : nat;
  effects : list effect;
  (* payment-handler *)
  _context : option ExtensionContext;
  _isPro : value;
  _proPollingTimer : option nat;
  _proPollingAttempts : Z;
  (* extension *)
  INSTANCE_ID : string;
  isEnabled : value;
  isLockedOut : bool;
  pollFrequency : value;
  bannedCommands : list string;
  backgroundModeEnabled : value;
  pollTimer : option nat;
  commandPollTimer : option nat;
  currentIDE : string;
  globalContext : option ExtensionContext;
  cdpHandler : bool;
  relauncher : bool
}.

Definition set_globalState f s :=
  {| globalState := f (globalState s); timers := timers s; next_timer := next_timer s;
     effects := effects s; _context := _context s; _isPro := _isPro s;
     _proPollingTimer := _proPollingTimer s; _proPollingAttempts := _proPollingAttempts s;
     INSTANCE_ID := INSTANCE_ID s; isEnabled := isEnabled s; isLockedOut := isLockedOut s;
     pollFrequency := pollFrequency s; bannedCommands := bannedCommands s;
     backgroundModeEnabled := backgroundModeEnabled s; pollTimer := pollTimer s;
     commandPollTimer := commandPollTimer s; currentIDE := currentIDE s;
     globalContext := globalContext s; cdpHandler := cdpHandler s; relauncher := relauncher s |}.

Definition set_timers f s :=
  {| globalState := globalState s; timers := f (timers s); next_timer := next_timer s;
     effects := effects s; _context := _context s; _isPro := _isPro s;
     _proPollingTimer := _proPollingTimer s; _proPollingAttempts := _proPollingAttempts s;
     INSTANCE_ID := INSTANCE_ID s; isEnabled := isEnabled s; isLockedOut := isLockedOut s;
     pollFrequency := pollFrequency s; bannedCommands := bannedCommands s;
     backgroundModeEnabled := backgroundModeEnabled s; pollTimer := pollTimer s;
     commandPollTimer := commandPollTimer s; currentIDE := currentIDE s;
     globalContext := globalContext s; cdpHandler := cdpHandler s; relauncher := relauncher s |}.

Definition set_next_timer v s :=
  {| globalState := globalState s; timers := timers s; next_timer := v;
     effects := effects s; _context := _context s; _isPro := _isPro s;
     _proPollingTimer := _proPollingTimer s; _proPollingAttempts := _proPollingAttempts s;
     INSTANCE_ID := INSTANCE_ID s; isEnabled := isEnabled s; isLockedOut := isLockedOut s;
     pollFrequency := pollFrequency s; bannedCommands := bannedCommands s;
     backgroundModeEnabled := backgroundModeEnabled s; pollTimer := pollTimer s;
     commandPollTimer := commandPollTimer s; currentIDE := currentIDE s;
     globalContext := globalContext s; cdpHandler := cdpHandler s; relauncher := relauncher s |}.

Definition set_effects f s :=
  {| globalState := globalState s; timers := timers s; next_timer := next_timer s;
     effects := f (effects s); _context := _context s; _isPro := _isPro s;
     _proPollingTimer := _proPollingTimer s; _proPollingAttempts := _proPollingAttempts s;
     INSTANCE_ID := INSTANCE_ID s; isEnabled := isEnabled s; isLockedOut := isLockedOut s;
     pollFrequency := pollFrequency s; bannedCommands := bannedCommands s;
     backgroundModeEnabled := backgroundModeEnabled s; pollTimer := pollTimer s;
     commandPollTimer := commandPollTimer s; currentIDE := currentIDE s;
     globalContext := globalContext s; cdpHandler := cdpHandler s; relauncher := relauncher s |}.

Definition set__context v s :=
  {| globalState := globalState s; timers := timers s; next_timer := next_timer s;
     effects := effects s; _context := v; _isPro := _isPro s;
     _proPollingTimer := _proPollingTimer s; _proPollingAttempts := _proPollingAttempts s;
     INSTANCE_ID := INSTANCE_ID s; isEnabled := isEnabled s; isLockedOut := isLockedOut s;
     pollFrequency := pollFrequency s; bannedCommands := bannedCommands s;
     backgroundModeEnabled := backgroundModeEnabled s; pollTimer := pollTimer s;
     commandPollTimer := commandPollTimer s; currentIDE := currentIDE s;
     globalContext := globalContext s; cdpHandler := cdpHandler s; relauncher := relauncher s |}.

Definition set__isPro v s :=
  {| globalState := globalState s; timers := timers s; next_timer := next_timer s;
     effects := effects s; _context := _context s; _isPro := v;
     _proPollingTimer := _proPollingTimer s; _proPollingAttempts := _proPollingAttempts s;
     INSTANCE_ID := INSTANCE_ID s; isEnabled := isEnabled s; isLockedOut := isLockedOut s;
     pollFrequency := pollFrequency s; bannedCommands := bannedCommands s;
     backgroundModeEnabled := backgroundModeEnabled s; pollTimer := pollTimer s;
     commandPollTimer := commandPollTimer s; currentIDE := currentIDE s;
     globalContext := globalContext s; cdpHandler := cdpHandler s; relauncher := relauncher s |}.

Definition set__proPollingTimer v s :=
  {| globalState := globalState s; timers := timers s; next_timer := next_timer s;
     effects := effects s; _context := _context s; _isPro := _isPro s;
     _proPollingTimer := v; _proPollingAttempts := _proPollingAttempts s;
     INSTANCE_ID := INSTANCE_ID s; isEnabled := isEnabled s; isLockedOut := isLockedOut s;
     pollFrequency := pollFrequency s; bannedCommands := bannedCommands s;
     backgroundModeEnabled := backgroundModeEnabled s; pollTimer := pollTimer s;
     commandPollTimer := commandPollTimer s; currentIDE := currentIDE s;
     globalContext := globalContext s; cdpHandler := cdpHandler s; relauncher := relauncher s |}.

Definition set__proPollingAttempts v s :=
  {| globalState := globalState s; timers := timers s; next_timer := next_timer s;
     effects := effects s; _context := _context s; _isPro := _isPro s;
     _proPollingTimer := _proPollingTimer s; _proPollingAttempts := v;
     INSTANCE_ID := INSTANCE_ID s; isEnabled := isEnabled s; isLockedOut := isLockedOut s;
     pollFrequency := pollFrequency s; bannedCommands := bannedCommands s;
     backgroundModeEnabled := backgroundModeEnabled s; pollTimer := pollTimer s;
     commandPollTimer := commandPollTimer s; currentIDE := currentIDE s;
     globalContext := globalContext s; cdpHandler := cdpHandler s; relauncher := relauncher s |}.

Definition set_isEnabled v s :=
  {| globalState := globalState s; timers := timers s; next_timer := next_timer s;
     effects := effects s; _context := _context s; _isPro := _isPro s;
     _proPollingTimer := _proPollingTimer s; _proPollingAttempts := _proPollingAttempts s;
     INSTANCE_ID := INSTANCE_ID s; isEnabled := v; isLockedOut := isLockedOut s;
     pollFrequency := pollFrequency s; bannedCommands := bannedCommands s;
     backgroundModeEnabled := backgroundModeEnabled s; pollTimer := pollTimer s;
     commandPollTimer := commandPollTimer s; currentIDE := currentIDE s;
     globalContext := globalContext s; cdpHandler := cdpHandler s; relauncher := relauncher s |}.

Definition set_isLockedOut v s :=
  {| globalState := globalState s; timers := timers s; next_timer := next_timer s;
     effects := effects s; _context := _context s; _isPro := _isPro s;
     _proPollingTimer := _proPollingTimer s; _proPollingAttempts := _proPollingAttempts s;
     INSTANCE_ID := INSTANCE_ID s; isEnabled := isEnabled s; isLockedOut := v;
     pollFrequency := pollFrequency s; bannedCommands := bannedCommands s;
     backgroundModeEnabled := backgroundModeEnabled s; pollTimer := pollTimer s;
     commandPollTimer := commandPollTimer s; currentIDE := currentIDE s;
     globalContext := globalContext s; cdpHandler := cdpHandler s; relauncher := relauncher s |}.

Definition set_pollFrequency v s :=
  {| globalState := globalState s; timers := timers s; next_timer := next_timer s;
     effects := effects s; _context := _context s; _isPro := _isPro s;
     _proPollingTimer := _proPollingTimer s; _proPollingAttempts := _proPollingAttempts s;
     INSTANCE_ID := INSTANCE_ID s; isEnabled := isEnabled s; isLockedOut := isLockedOut s;
     pollFrequency := v; bannedCommands := bannedCommands s;
     backgroundModeEnabled := backgroundModeEnabled s; pollTimer := pollTimer s;
     commandPollTimer := commandPollTimer s; currentIDE := currentIDE s;
     globalContext := globalContext s; cdpHandler := cdpHandler s; relauncher := relauncher s |}.

Definition set_bannedCommands v s :=
  {| globalState := globalState s; timers := timers s; next_timer := next_timer s;
     effects := effects s; _context := _context s; _isPro := _isPro s;
     _proPollingTimer := _proPollingTimer s; _proPollingAttempts := _proPollingAttempts s;
     INSTANCE_ID := INSTANCE_ID s; isEnabled := isEnabled s; isLockedOut := isLockedOut s;
     pollFrequency := pollFrequency s; bannedCommands := v;
     backgroundModeEnabled := backgroundModeEnabled s; pollTimer := pollTimer s;
     commandPollTimer := commandPollTimer s; currentIDE := currentIDE s;
     globalContext := globalContext s; cdpHandler := cdpHandler s; relauncher := relauncher s |}.

Definition set_backgroundModeEnabled v s :=
  {| globalState := globalState s; timers := timers s; next_timer := next_timer s;
     effects := effects s; _context := _context s; _isPro := _isPro s;
     _proPollingTimer := _proPollingTimer s; _proPollingAttempts := _proPollingAttempts s;
     INSTANCE_ID := INSTANCE_ID s; isEnabled := isEnabled s; isLockedOut := isLockedOut s;
     pollFrequency := pollFrequency s; bannedCommands := bannedCommands s;
     backgroundModeEnabled := v; pollTimer := pollTimer s;
     commandPollTimer := commandPollTimer s; currentIDE := currentIDE s;
     globalContext := globalContext s; cdpHandler := cdpHandler s; relauncher := relauncher s |}.

Definition set_pollTimer v s :=
  {| globalState := globalState s; timers := timers s; next_timer := next_timer s;
     effects := effects s; _context := _context s; _isPro := _isPro s;
     _proPollingTimer := _proPollingTimer s; _proPollingAttempts := _proPollingAttempts s;
     INSTANCE_ID := INSTANCE_ID s; isEnabled := isEnabled s; isLockedOut := isLockedOut s;
     pollFrequency := pollFrequency s; bannedCommands := bannedCommands s;
     backgroundModeEnabled := backgroundModeEnabled s; pollTimer := v;
     commandPollTimer := commandPollTimer s; currentIDE := currentIDE s;
     globalContext := globalContext s; cdpHandler := cdpHandler s; relauncher := relauncher s |}.

Definition set_commandPollTimer v s :=
  {| globalState := globalState s; timers := timers s; next_timer := next_timer s;
     effects := effects s; _context := _context s; _isPro := _isPro s;
     _proPollingTimer := _proPollingTimer s; _proPollingAttempts := _proPollingAttempts s;
     INSTANCE_ID := INSTANCE_ID s; isEnabled := isEnabled s; isLockedOut := isLockedOut s;
     pollFrequency := pollFrequency s; bannedCommands := bannedCommands s;
     backgroundModeEnabled := backgroundModeEnabled s; pollTimer := pollTimer s;
     commandPollTimer := v; currentIDE := currentIDE s;
     globalContext := globalContext s; cdpHandler := cdpHandler s; relauncher := relauncher s |}.

(** ** The state-and-exception monad *)

Inductive result (A : Type) :=
| Ret (a : A)
| Thrown.
Arguments Ret {A} a.
Arguments Thrown {A}.

Definition M (A : Type) : Type := state -> result A * state.

Definition ret {A} (a : A) : M A := fun s => (Ret a, s).
Definition throw {A} : M A := fun s => (Thrown, s).
Definition bind {A B} (m : M A) (k : A -> M B) : M B :=
  fun s => match m s with
           | (Ret a, s') => k a s'
           | (Thrown, s') => (Thrown, s')
           end.
Definition gets {A} (f : state -> A) : M A := fun s => (Ret (f s), s).
Definition modify (f : state -> state) : M unit := fun s => (Ret tt, f s).

(** [try { m } catch (e) { h }]. *)
Definition try_catch {A} (m : M A) (h : M A) : M A :=
  fun s => match m s with
           | (Thrown, s') => h s'
           | r => r
           end.

#[global] Instance M_ret : MRet M := @ret.
#[global] Instance M_bind : MBind M := fun A B k m => bind m k.

Definition when (b : bool) (m : M unit) : M unit := if b then m else ret tt.

Definition exec {A} (m : M A) (s : state) : state := snd (m s).
Definition eval {A} (m : M A) (s : state) : result A := fst (m s).

Definition emit (e : effect) : M unit := modify (set_effects (fun l => l ++ [e])).

(** [c.globalState.get (k)], [c.globalState.get (k, d)] and
    [c.globalState.update (k, v)] for a variable [c] that may hold [null]. *)
Definition gs_get (c : option ExtensionContext) (k : string) : M value :=
  match c with
  | None => throw
  | Some _ => gets (fun s => memento_get (globalState s) k)
  end.

Definition gs_get_or (c : option ExtensionContext) (k : string) (d : value) : M value :=
  match c with
  | None => throw
  | Some _ => gets (fun s => memento_get_or (globalState s) k d)
  end.

Definition gs_update (c : option ExtensionContext) (k : string) (v : value) : M unit :=
  match c with
  | None => throw
  | Some _ => modify (set_globalState (fun m => memento_update m k v))
  end.

(** [setInterval] and [clearInterval]. *)
Definition setInterval (t : task) (interval : value) : M nat :=
  fun s =>
    let id := next_timer s in
    (Ret id,
     set_next_timer (S id)
       (set_timers (fun l => l ++ [{| timer_id := id; timer_task := t;
                                      timer_interval := interval |}]) s)).

Definition clearInterval (h : option nat) : M unit :=
  match h with
  | None => ret tt
  | Some id =>
      modify (set_timers (filter (fun t => timer_id t <> id)))
  end.

(** ** payment-handler: state queries *)

Definition is_null {A} (c : option A) : bool :=
  match c with None => true | Some _ => false end.

Definition isPro : M value := gets _isPro.

Definition isTrialActive (now : Z) : M value :=
  c ← gets _context;
  if is_null c then ret (VBool false) else
  trialStart ← gs_get c TRIAL_START_KEY;
  if negb (truthy trialStart) then ret (VBool false) else
  ret (VBool (js_lt (js_sub (VNum now) trialStart) (VNum TRIAL_DURATION_MS))).

Definition hasTrialStarted : M value :=
  c ← gets _context;
  if is_null c then ret (VBool false) else
  v ← gs_get c TRIAL_START_KEY;
  ret (VBool (strict_ne v VUndef)).

Definition hasProAccess (now : Z) : M value :=
  p ← gets _isPro;
  if truthy p then ret p else isTrialActive now.

Definition getTrialDaysLeft (now : Z) : M value :=
  c ← gets _context;
  if is_null c then ret (VNum 0) else
  trialStart ← gs_get c TRIAL_START_KEY;
  if negb (truthy trialStart) then ret (VNum 0) else
  let remaining := js_sub (VNum TRIAL_DURATION_MS) (js_sub (VNum now) trialStart) in
  ret (js_max0 (js_ceil_div remaining DAY_MS)).

Definition isPlanRecurring : M value :=
  c ← gets _context;
  if is_null c then ret (VBool false) else
  plan ← gs_get_or c PLAN_KEY (VStr "lifetime");
  ret (VBool (strict_eq plan (VStr "monthly") || strict_eq plan (VStr "pro"))).

Definition getPollFrequency (now : Z) : M value :=
  c ← gets _context;
  if is_null c then ret (VNum 300) else
  a ← hasProAccess now;
  if truthy a then gs_get_or c FREQ_STATE_KEY (VNum 1000) else ret (VNum 300).

(** ** extension: polling, lease and session synchronisation *)

Definition ACCEPT_COMMANDS_ANTIGRAVITY : list string :=
  [ "antigravity.agent.acceptAgentStep";
    "antigravity.command.accept";
    "antigravity.prioritized.agentAcceptAllInFile";
    "antigravity.prioritized.agentAcceptFocusedHunk";
    "antigravity.prioritized.supercompleteAccept";
    "antigravity.terminalCommand.accept";
    "antigravity.acceptCompletion";
    "antigravity.prioritized.terminalSuggestion.accept" ].

Definition ACCEPT_COMMANDS_CURSOR : list string :=
  [ "cursorai.action.acceptAndRunGenerateInTerminal";
    "cursorai.action.acceptGenerateInTerminal" ].

Definition getAcceptCommandsForIDE : M (list string) :=
  cur ← gets currentIDE;
  let ide := toLowerCase cur in
  if String.eqb ide "antigravity" then ret ACCEPT_COMMANDS_ANTIGRAVITY
  else if String.eqb ide "cursor" then ret ACCEPT_COMMANDS_CURSOR
  else ret [].

Definition executeAcceptCommandsForIDE : M unit :=
  commands ← getAcceptCommandsForIDE;
  match commands with
  | [] => ret tt
  | _ => emit (ExecuteCommands commands)
  end.

(** [updateStatusBar] only redraws the status items from the state. *)
Definition updateStatusBar : M unit := emit UpdateStatusBar.

(** [cdpHandler.start] may reject; the [catch] only logs. *)
Definition syncSessions (now : Z) : M unit :=
  h ← gets cdpHandler;
  l ← gets isLockedOut;
  if h && negb l then
    try_catch
      (a ← hasProAccess now;
       bg ← gets backgroundModeEnabled;
       pf ← gets pollFrequency;
       ide ← gets currentIDE;
       bc ← gets bannedCommands;
       emit (CdpStart {| cfg_isPro := a; cfg_isBackgroundMode := bg;
                         cfg_pollInterval := pf; cfg_ide := ide;
                         cfg_bannedCommands := bc |}))
      (ret tt)
  else ret tt.

(** The two timers are registered by [startPolling]; their callbacks are
    [fastTick] and [maintenanceTick] below. *)
Definition startPolling (now : Z) : M unit :=
  pt ← gets pollTimer;
  clearInterval pt;;
  ct ← gets commandPollTimer;
  clearInterval ct;;
  syncSessions now;;
  executeAcceptCommandsForIDE;;
  pf ← gets pollFrequency;
  id ← setInterval FastTick pf;
  modify (set_commandPollTimer (Some id));;
  id' ← setInterval MaintenanceTick (VNum 5000);
  modify (set_pollTimer (Some id')).

Definition fastTick : M unit :=
  e ← gets isEnabled;
  if negb (truthy e) then ret tt else executeAcceptCommandsForIDE.

Definition extension_of (c : option ExtensionContext) : M value :=
  match c with
  | None => throw
  | Some c => ret (VStr (extension_id c))
  end.

(** The two lease keys of the maintenance tick, named after the IDE. *)
Definition lock_key (ide : string) : string := toLowerCase ide +:+ "-instance-lock".
Definition ping_key (ide : string) : string := lock_key ide +:+ "-ping".

Definition maintenanceTick (now : Z) : M unit :=
  e ← gets isEnabled;
  if negb (truthy e) then ret tt else
  cur ← gets currentIDE;
  let lockKey := lock_key cur in
  gc ← gets globalContext;
  activeInstance ← gs_get gc lockKey;
  myId ← extension_of gc;
  locked ←
    (if truthy activeInstance && strict_ne activeInstance myId then
       lastPing ← gs_get gc (ping_key cur);
       ret (truthy lastPing && js_lt (js_sub (VNum now) lastPing) (VNum 15000))
     else ret false);
  if (locked : bool) then
    l ← gets isLockedOut;
    if negb l then
      modify (set_isLockedOut true);;
      updateStatusBar
    else ret tt
  else
    gs_update gc lockKey myId;;
    gs_update gc (ping_key cur) (VNum now);;
    l ← gets isLockedOut;
    when l (modify (set_isLockedOut false);; updateStatusBar);;
    syncSessions now.

Definition stopPolling : M unit :=
  pt ← gets pollTimer;
  when (negb (is_null pt)) (clearInterval pt;; modify (set_pollTimer None));;
  ct ← gets commandPollTimer;
  when (negb (is_null ct)) (clearInterval ct;; modify (set_commandPollTimer None));;
  h ← gets cdpHandler;
  when h (emit CdpStop).

Definition checkInstanceLock (now : Z) : M bool :=
  p ← isPro;
  if truthy p then ret true else
  gc ← gets globalContext;
  if is_null gc then ret true else
  lockId ← gs_get gc LOCK_KEY;
  lastHeartbeat ← gs_get_or gc HEARTBEAT_KEY (VNum 0);
  me ← gets INSTANCE_ID;
  if negb (truthy lockId) || js_gt (js_sub (VNum now) lastHeartbeat) (VNum 10000) then
    gs_update gc LOCK_KEY (VStr me);;
    gs_update gc HEARTBEAT_KEY (VNum now);;
    ret true
  else if strict_eq lockId (VStr me) then
    gs_update gc HEARTBEAT_KEY (VNum now);;
    ret true
  else ret false.

(** [cdpAvailable] is what [cdpHandler.isCDPAvailable ()] resolves to. *)
Definition ensureCDPOrPrompt (showPrompt : bool) (cdpAvailable : bool) : M bool :=
  h ← gets cdpHandler;
  if negb h then ret false else
  if cdpAvailable then ret true else
  r ← gets relauncher;
  when (showPrompt && r) (emit EnsureCDPAndRelaunch);;
  ret false.

Definition handlePaidActivation (now : Z) (cdpAvailable : bool) : M unit :=
  p ← isPro;
  if negb (truthy p) then ret tt else
  ensureCDPOrPrompt true cdpAvailable;;
  e ← gets isEnabled;
  if truthy e then startPolling now else ret tt.

(** The [onProActivated] callback that [activate] registers with the
    payment handler. *)
Definition onProActivated (now : Z) (cdpAvailable : bool) : M unit :=
  h ← gets cdpHandler;
  when h (emit (CdpSetProStatus (VBool true)));;
  f ← getPollFrequency now;
  modify (set_pollFrequency f);;
  e ← gets isEnabled;
  when (truthy e) (syncSessions now);;
  updateStatusBar;;
  handlePaidActivation now cdpAvailable.

(** ** payment-handler: trial expiry, setters, licence verification *)

Definition checkTrialExpiration (now : Z) : M unit :=
  c ← gets _context;
  p ← gets _isPro;
  if is_null c || truthy p then ret tt else
  trialStart ← gs_get c TRIAL_START_KEY;
  hasNotified ← gs_get_or c TRIAL_NOTIFIED_KEY (VBool false);
  if negb (truthy trialStart) then ret tt else
  active ← isTrialActive now;
  if negb (truthy active) && negb (truthy hasNotified) then
    gs_update c TRIAL_NOTIFIED_KEY (VBool true);;
    emit (ShowInformation MsgTrialEnded)
  else ret tt.

Definition init (context : ExtensionContext) (now : Z) : M unit :=
  modify (set__context (Some context));;
  p ← gs_get_or (Some context) PRO_STATE_KEY (VBool false);
  modify (set__isPro p);;
  checkTrialExpiration now.

Definition setProStatus (val : value) : M unit :=
  modify (set__isPro val);;
  c ← gets _context;
  if is_null c then ret tt else
  gs_update c PRO_STATE_KEY val;;
  when (strict_eq val (VBool true)) (gs_update c TRIAL_NOTIFIED_KEY (VBool false)).

Definition startTrial (now : Z) : M unit :=
  c ← gets _context;
  if is_null c then ret tt else gs_update c TRIAL_START_KEY (VNum now).

(** [fresh] is the identifier the random generator produces when none is
    stored yet. *)
Definition getUserId (fresh : string) : M value :=
  c ← gets _context;
  if is_null c then ret VNull else
  userId ← gs_get c USER_ID_KEY;
  if negb (truthy userId) then
    gs_update c USER_ID_KEY (VStr fresh);;
    ret (VStr fresh)
  else ret userId.

(** What comes back from the licensing backend: a transport error, a body
    that [JSON.parse] (or the field access on its result) rejects, or an
    object whose fields [plan] and [isPro] are read ([VUndef] when
    absent). *)
Inductive response :=
| NetworkError
| Malformed
| Json (plan isPro : value).

Definition validPlans_includes (s : string) : bool :=
  String.eqb s "lifetime" || String.eqb s "monthly".

(** The body of the [end] listener shared by [verifyLicense] and
    [checkProStatus]; a [plan] that is truthy and not a string has no
    [toLowerCase], and the [catch] resolves [false]. *)
Definition resolveLicense (r : response) : M value :=
  match r with
  | NetworkError | Malformed => ret (VBool false)
  | Json plan isPro =>
      c ← gets _context;
      when (truthy plan && negb (is_null c)) (gs_update c PLAN_KEY plan);;
      if negb (truthy plan) then
        ret (js_and (VBool (strict_eq isPro (VBool true))) plan)
      else
        match plan with
        | VStr p =>
            ret (js_and (VBool (strict_eq isPro (VBool true)))
                        (VBool (validPlans_includes (toLowerCase p))))
        | _ => ret (VBool false)
        end
  end.

Definition verifyLicense (r : response) : M value :=
  emit VerifyLicenseCalled;;
  c ← gets _context;
  if is_null c then ret (VBool false) else
  userId ← gs_get c USER_ID_KEY;
  if negb (truthy userId) then ret (VBool false) else
  emit (HttpsGet "check-license" userId);;
  resolveLicense r.

Definition checkProStatus (fresh : string) (r : response) : M value :=
  userId ← getUserId fresh;
  if negb (truthy userId) then ret (VBool false) else
  emit (HttpsGet "verify" userId);;
  resolveLicense r.

(** ** payment-handler: activation and bounded polling

    [callback] is [_callbacks.onProActivated], when one is registered.
    In [proPollingTick] and [activatePro] the answer [r] of the backend is
    awaited inside the handler that sent the request: these cover the
    schedules in which [verifyLicense] settles before anything else
    happens, the 5 s timer included.  The section after this one gives
    the interval callback in its two halves, for a backend that answers
    later than that. *)

Section Activation.

Variable callback : option (M unit).

Definition run_callback : M unit :=
    match callback with
    | Some k => k
    | None => ret tt
    end.

Definition startProPolling : M unit :=
    t ← gets _proPollingTimer;
    clearInterval t;;
    modify (set__proPollingAttempts 0);;
    emit (ShowInformation MsgPaymentReceived);;
    id ← setInterval ProPollingTick (VNum 5000);
    modify (set__proPollingTimer (Some id)).

Definition proPollingTick (r : response) : M unit :=
    modify (fun s => set__proPollingAttempts (_proPollingAttempts s + 1) s);;
    a ← gets _proPollingAttempts;
    if a >? MAX_PRO_POLLING_ATTEMPTS then
      t ← gets _proPollingTimer;
      clearInterval t;;
      modify (set__proPollingTimer None);;
      emit (ShowWarning MsgVerificationSlow)
    else
      isProNow ← verifyLicense r;
      if truthy isProNow then
        t ← gets _proPollingTimer;
        clearInterval t;;
        modify (set__proPollingTimer None);;
        modify (set__isPro (VBool true));;
        c ← gets _context;
        gs_update c PRO_STATE_KEY (VBool true);;
        run_callback;;
        emit (ShowInformation MsgProActivated)
      else ret tt.

Definition activatePro (r : response) : M unit :=
    isProNow ← verifyLicense r;
    if truthy isProNow then
      modify (set__isPro (VBool true));;
      c ← gets _context;
      gs_update c PRO_STATE_KEY (VBool true);;
      f ← gs_get_or c FREQ_STATE_KEY (VNum 1000);
      gs_update c FREQ_STATE_KEY f;;
      run_callback;;
      emit (ShowInformation MsgProActivated)
    else startProPolling.

End Activation.

(** ** payment-handler: a probe that outlives its tick

    The promise of [verifyLicense] is resolved at the call when there is
    no context or no user id; otherwise by the [end] listener of the
    response or the [error] listener of the request, and no timeout is
    set.  The interval callback of [startProPolling] is suspended at
    [await verifyLicense ()] until then, while the interval keeps firing.
    Both are split here at that point. *)

(** [verifyLicense] up to the request: [Some v] when the promise is
    resolved at the call, [None] when the request is out and the promise
    pending.  [resolveLicense] is what runs on the answer. *)
Definition verifyLicense_request : M (option value) :=
  emit VerifyLicenseCalled;;
  c ← gets _context;
  if is_null c then ret (Some (VBool false)) else
  userId ← gs_get c USER_ID_KEY;
  if negb (truthy userId) then ret (Some (VBool false)) else
  emit (HttpsGet "check-license" userId);;
  ret None.

Section Suspension.

Variable callback : option (M unit).

(** The interval callback from its [await] on, with the value the promise
    was resolved with. *)
Definition proPollingTick_resume (isProNow : value) : M unit :=
    if truthy isProNow then
      t ← gets _proPollingTimer;
      clearInterval t;;
      modify (set__proPollingTimer None);;
      modify (set__isPro (VBool true));;
      c ← gets _context;
      gs_update c PRO_STATE_KEY (VBool true);;
      run_callback callback;;
      emit (ShowInformation MsgProActivated)
    else ret tt.

(** The interval callback up to its [await]: [true] when it is left
    suspended on a request.  On a promise that is already resolved the
    callback resumes before any other event. *)
Definition proPollingTick_request : M bool :=
    modify (fun s => set__proPollingAttempts (_proPollingAttempts s + 1) s);;
    a ← gets _proPollingAttempts;
    if a >? MAX_PRO_POLLING_ATTEMPTS then
      t ← gets _proPollingTimer;
      clearInterval t;;
      modify (set__proPollingTimer None);;
      emit (ShowWarning MsgVerificationSlow);;
      ret false
    else
      p ← verifyLicense_request;
      match p with
      | Some isProNow => proPollingTick_resume isProNow;; ret false
      | None => ret true
      end.

(** The backend answers [r] to the request of a suspended callback: the
    listener resolves the promise and the callback resumes. *)
Definition proPollingTick_answer (r : response) : M unit :=
    isProNow ← resolveLicense r;
    proPollingTick_resume isProNow.

End Suspension.

(** ** extension: command handlers *)

Inductive choice :=
| ChooseEnable
| ChooseDontShowAgain
| ChooseCancel
| Dismissed.

#[global] Instance choice_eq_dec : EqDecision choice.
Proof. solve_decision. Defined.

(** What the outside world answers while a handler runs: the clock, the
    reachability of the debugging session, the licensing backend, the
    user in front of a modal dialog, and whether [getSettingsPanel] can
    load the settings panel (it returns [null] when the module fails to
    load). *)
Record env := {
  now : Z;
  cdpAvailable : bool;
  license : response;
  answer : choice;
  settingsPanel : bool
}.

Definition handleToggle (context : ExtensionContext) (e : env) : M unit :=
  try_catch
    (en ← gets isEnabled;
     p ← isPro;
     started ← hasTrialStarted;
     when (negb (truthy en) && negb (truthy p) && negb (truthy started))
       (startTrial (now e);; emit (ShowInformation MsgTrialActivated));;
     modify (fun s => set_isEnabled (js_not (isEnabled s)) s);;
     en' ← gets isEnabled;
     gs_update (Some context) GLOBAL_STATE_KEY en';;
     updateStatusBar;;
     if truthy en' then
       try_catch (startPolling (now e)) (ret tt);;
       try_catch (ensureCDPOrPrompt false (cdpAvailable e);; ret tt) (ret tt)
     else
       try_catch stopPolling (ret tt))
    (ret tt).

Definition handleRelaunch (e : env) : M unit :=
  r ← gets relauncher;
  if negb r then emit (ShowError MsgRelauncherMissing) else
  a ← hasProAccess (now e);
  if negb (truthy a) then
    if settingsPanel e then emit ShowUpgradePrompt
    else emit (ShowInformation MsgUpgradeToUnlock)
  else
  emit EnsureCDPAndRelaunch.

Definition handleFrequencyUpdate (context : ExtensionContext) (freq : value) (e : env)
  : M unit :=
  a ← hasProAccess (now e);
  if negb (truthy a) then ret tt else
  modify (set_pollFrequency freq);;
  gs_update (Some context) FREQ_STATE_KEY freq;;
  en ← gets isEnabled;
  if truthy en then
    syncSessions (now e);;
    ct ← gets commandPollTimer;
    clearInterval ct;;
    pf ← gets pollFrequency;
    id ← setInterval FastTick pf;
    modify (set_commandPollTimer (Some id))
  else ret tt.

(** [Array.isArray (commands) ? commands : []]. *)
Definition as_array (v : value) : list string :=
  match v with
  | VArr l => l
  | _ => []
  end.

Definition handleBannedCommandsUpdate (context : ExtensionContext) (commands : value)
    (e : env) : M unit :=
  a ← hasProAccess (now e);
  if negb (truthy a) then ret tt else
  modify (set_bannedCommands (as_array commands));;
  bc ← gets bannedCommands;
  gs_update (Some context) BANNED_COMMANDS_KEY (VArr bc);;
  en ← gets isEnabled;
  when (truthy en) (syncSessions (now e)).

Definition handleBackgroundToggle (context : ExtensionContext) (e : env) : M unit :=
  a ← hasProAccess (now e);
  if negb (truthy a) then emit (ShowInformation MsgBackgroundIsPro) else
  bg ← gets backgroundModeEnabled;
  h ← gets cdpHandler;
  r ← gets relauncher;
  let available := if (h : bool) then cdpAvailable e else false in
  if negb (truthy bg) && (negb available && r) then
    emit EnsureCDPAndRelaunch
  else
  dontShowAgain ← gs_get_or (Some context) BACKGROUND_DONT_SHOW_KEY (VBool false);
  if negb (truthy dontShowAgain) && negb (truthy bg) then
    emit (ShowInformation MsgTurnOnBackground);;
    match answer e with
    | ChooseCancel | Dismissed => ret tt
    | c =>
        when (bool_decide (c = ChooseDontShowAgain))
          (gs_update (Some context) BACKGROUND_DONT_SHOW_KEY (VBool true));;
        modify (set_backgroundModeEnabled (VBool true));;
        gs_update (Some context) BACKGROUND_MODE_KEY (VBool true);;
        updateStatusBar
    end
  else
    modify (fun s => set_backgroundModeEnabled (js_not (backgroundModeEnabled s)) s);;
    bg' ← gets backgroundModeEnabled;
    gs_update (Some context) BACKGROUND_MODE_KEY bg';;
    en ← gets isEnabled;
    (if negb (truthy bg') && h && truthy en then
       emit CdpStop;;
       syncSessions (now e)
     else if truthy bg' && h && truthy en then
       syncSessions (now e)
     else ret tt);;
    when (negb (truthy bg') && h) (emit CdpHideBackgroundOverlay);;
    updateStatusBar.

(** The continuation of the licence re-verification that [activate] starts
    ([payment.verifyLicense ().then (isValid => ...)]). *)
Definition licenseReverified (isValid : value) (e : env) : M unit :=
  p ← isPro;
  if strict_ne p isValid then
    setProStatus isValid;;
    h ← gets cdpHandler;
    when h (emit (CdpSetProStatus isValid));;
    when (negb (truthy isValid))
      (active ← isTrialActive (now e);
       when (negb (truthy active)) (modify (set_pollFrequency (VNum 300))));;
    updateStatusBar
  else ret tt.

(** ** The command surface, the timers and the runs *)

(** The commands registered by [activate].  [auto-accept.openSettings]
    hands over to the settings panel, whose module is not part of the two
    files, and has no effect on the state kept here; the URI handler runs
    the same [activatePro] as [auto-accept.activatePro]. *)
Inductive command :=
| CmdToggle
| CmdRelaunch
| CmdUpdateFrequency (freq : value)
| CmdToggleBackground
| CmdUpdateBannedCommands (commands : value)
| CmdGetBannedCommands
| CmdActivatePro
| CmdOnPaid.

(** [payment.setCallbacks ({ log, onProActivated })] in [activate]. *)
Definition callbacks (e : env) : option (M unit) :=
  Some (onProActivated (now e) (cdpAvailable e)).

Definition runCommand (context : ExtensionContext) (c : command) (e : env) : M unit :=
  match c with
  | CmdToggle => handleToggle context e
  | CmdRelaunch => handleRelaunch e
  | CmdUpdateFrequency freq => handleFrequencyUpdate context freq e
  | CmdToggleBackground => handleBackgroundToggle context e
  | CmdUpdateBannedCommands commands => handleBannedCommandsUpdate context commands e
  | CmdGetBannedCommands => ret tt
  | CmdActivatePro => activatePro (callbacks e) (license e)
  | CmdOnPaid => handlePaidActivation (now e) (cdpAvailable e)
  end.

Definition find_timer (id : nat) (s : state) : option timer :=
  List.find (fun t => bool_decide (timer_id t = id)) (timers s).

(** A cleared interval never fires; a live one runs the callback it was
    registered with. *)
Definition fire (id : nat) (e : env) : M unit :=
  t ← gets (find_timer id);
  match t with
  | None => ret tt
  | Some t =>
      match timer_task t with
      | FastTick => fastTick
      | MaintenanceTick => maintenanceTick (now e)
      | ProPollingTick => proPollingTick (callbacks e) (license e)
      | TrialCheckTick => checkTrialExpiration (now e)
      end
  end.

Inductive event :=
| Command (c : command)
| TimerFired (id : nat)
| LicenseReverified (isValid : value).

(** An exception that leaves a handler is reported by the host and the
    event loop goes on. *)
Definition step (context : ExtensionContext) (ev : event) (e : env) : M unit :=
  try_catch
    match ev with
    | Command c => runCommand context c e
    | TimerFired id => fire id e
    | LicenseReverified isValid => licenseReverified isValid e
    end
    (ret tt).

Fixpoint run (context : ExtensionContext) (evs : list (event * env)) (s : state) : state :=
  match evs with
  | [] => s
  | (ev, e) :: rest => run context rest (exec (step context ev e) s)
  end.

(** The state of a freshly loaded extension host process over a durable
    store: the initial values of the module variables of both files. *)
Definition loaded (store : gmap string value) (instance : string) : state :=
  {| globalState := store; timers := []; next_timer := 0%nat; effects := [];
     _context := None; _isPro := VBool false;
     _proPollingTimer := None; _proPollingAttempts := 0;
     INSTANCE_ID := instance; isEnabled := VBool false; isLockedOut := false;
     pollFrequency := VNum 2000; bannedCommands := [];
     backgroundModeEnabled := VBool false; pollTimer := None;
     commandPollTimer := None; currentIDE := "unknown";
     globalContext := None; cdpHandler := false; relauncher := false |}.

(** ** extension: the detected IDE, activation and deactivation *)

(** [haystack.includes (needle)]. *)
Fixpoint includes (needle haystack : string) : bool :=
  String.prefix needle haystack
  || match haystack with
     | EmptyString => false
     | String _ rest => includes needle rest
     end.

(** [appName] is [vscode.env.appName], [None] when the host leaves it
    undefined.  Lower-casing the ASCII letters is all that the search for
    the two ASCII needles can observe. *)
Definition detectIDE (appName : option string) : string :=
  let name := default "" appName in
  if includes "cursor" (toLowerCase name) then "Cursor"
  else if includes "antigravity" (toLowerCase name) then "Antigravity"
  else "Code".

(** [ensureCDPOrPrompt (false)] is started and not awaited; it shows no
    prompt and its answer is dropped. *)
Definition checkEnvironmentAndStart (e : env) : M unit :=
  en ← gets isEnabled;
  when (truthy en)
    (startPolling (now e);;
     ensureCDPOrPrompt false (cdpAvailable e);;
     ret tt);;
  updateStatusBar.

(** [stopPolling ()] is started and not awaited: it runs up to its call of
    [cdpHandler.stop ()], and [deactivate] calls [cdpHandler.stop ()]
    again. *)
Definition deactivate : M unit :=
  stopPolling;;
  h ← gets cdpHandler;
  when h (emit CdpStop).

(** ** extension: notices and their flags *)

Definition VERSION_7_0_KEY := "auto-accept-version-7.0-notification-shown".
Definition VERSION_8_6_0_KEY := "auto-accept-version-8.6-notification-shown".
Definition RELEASY_PROMO_KEY := "auto-accept-releasy-promo-shown".
Definition UPSELL_COOLDOWN_KEY := "auto-accept-bg-upsell-last".
Definition UPSELL_COOLDOWN_MS : Z := 1000 * 60 * 30.

Inductive release_notes := WhatsNew_8_6_0 | WhatsNew_7_0.

#[global] Instance release_notes_eq_dec : EqDecision release_notes.
Proof. solve_decision. Defined.

(** The three functions below put up a dialog and, on one of its buttons,
    open the settings panel or a web page; neither touches the state kept
    here.  The result tells which dialog the call put up, if any. *)
Definition showVersionNotification (context : ExtensionContext)
  : M (option release_notes) :=
  hasShown8_6 ← gs_get_or (Some context) VERSION_8_6_0_KEY (VBool false);
  if negb (truthy hasShown8_6) then
    gs_update (Some context) VERSION_8_6_0_KEY (VBool true);;
    ret (Some WhatsNew_8_6_0)
  else
    hasShown7_0 ← gs_get_or (Some context) VERSION_7_0_KEY (VBool false);
    if truthy hasShown7_0 then ret None else
    gs_update (Some context) VERSION_7_0_KEY (VBool true);;
    ret (Some WhatsNew_7_0).

Definition showReleasyCrossPromo (context : ExtensionContext) : M bool :=
  hasShown ← gs_get_or (Some context) RELEASY_PROMO_KEY (VBool false);
  if truthy hasShown then ret false else
  gs_update (Some context) RELEASY_PROMO_KEY (VBool true);;
  ret true.

Definition showBackgroundModeUpsell (context : ExtensionContext) (now : Z) : M bool :=
  p ← isPro;
  if truthy p then ret false else
  lastUpsell ← gs_get_or (Some context) UPSELL_COOLDOWN_KEY (VNum 0);
  if js_lt (js_sub (VNum now) lastUpsell) (VNum UPSELL_COOLDOWN_MS) then ret false else
  gs_update (Some context) UPSELL_COOLDOWN_KEY (VNum now);;
  ret true.

(** The handlers are unfolded by name, one at a time. *)
Arguments isTrialActive : simpl never.
Arguments hasTrialStarted : simpl never.
Arguments hasProAccess : simpl never.
Arguments getTrialDaysLeft : simpl never.
Arguments getPollFrequency : simpl never.
Arguments executeAcceptCommandsForIDE : simpl never.
Arguments syncSessions : simpl never.
Arguments startPolling : simpl never.
Arguments stopPolling : simpl never.
Arguments fastTick : simpl never.
Arguments maintenanceTick : simpl never.
Arguments checkInstanceLock : simpl never.
Arguments ensureCDPOrPrompt : simpl never.
Arguments handlePaidActivation : simpl never.
Arguments onProActivated : simpl never.
Arguments checkTrialExpiration : simpl never.
Arguments init : simpl never.
Arguments setProStatus : simpl never.
Arguments startTrial : simpl never.
Arguments resolveLicense : simpl never.
Arguments verifyLicense : simpl never.
Arguments startProPolling : simpl never.
Arguments proPollingTick : simpl never.
Arguments activatePro : simpl never.
Arguments handleToggle : simpl never.
Arguments handleRelaunch : simpl never.
Arguments handleFrequencyUpdate : simpl never.
Arguments handleBannedCommandsUpdate : simpl never.
Arguments handleBackgroundToggle : simpl never.
Arguments licenseReverified : simpl never.
Arguments fire : simpl never.
Arguments step : simpl never.
Arguments setInterval : simpl never.
Arguments clearInterval : simpl never.
Arguments lock_key : simpl never.
Arguments ping_key : simpl never.
Arguments detectIDE : simpl never.
Arguments checkEnvironmentAndStart : simpl never.
Arguments deactivate : simpl never.
Arguments showVersionNotification : simpl never.
Arguments showReleasyCrossPromo : simpl never.
Arguments showBackgroundModeUpsell : simpl never.

(** * Vocabulary of the statements *)

(** A computation that reads but never writes. *)
Definition pure {A} (m : M A) : Prop := forall s, snd (m s) = s.

(** A computation that keeps a state invariant, whether it returns or
    throws. *)
Definition preserves {A} (P : state -> Prop) (m : M A) : Prop :=
  forall s, P s -> P (snd (m s)).

Fixpoint last_char (s : string) : option ascii :=
  match s with
  | EmptyString => None
  | String c EmptyString => Some c
  | String _ r => last_char r
  end.

(** A key that ends neither in [k] nor in [g] is not a lease key. *)
Definition not_lease_key (k : string) : Prop :=
  last_char k <> Some "k"%char /\ last_char k <> Some "g"%char.

(** A computation that never throws. *)
Definition returns {A} (m : M A) : Prop := forall s, exists a, fst (m s) = Ret a.

(** The durable store holds [x] under key [k]. *)
Definition keeps (k : string) (x : option value) : state -> Prop :=
  fun s => globalState s !! k = x.

(** The value [hasProAccess] returns, and the configuration
    [syncSessions] sends with it. *)
Definition access (now : Z) (s : state) : value :=
  match fst (hasProAccess now s) with
  | Ret a => a
  | Thrown => VUndef
  end.

Definition sync_config (now : Z) (s : state) : cdp_config :=
  {| cfg_isPro := access now s; cfg_isBackgroundMode := backgroundModeEnabled s;
     cfg_pollInterval := pollFrequency s; cfg_ide := currentIDE s;
     cfg_bannedCommands := bannedCommands s |}.

Definition log_effect (e : effect) : state -> state :=
  set_effects (fun l => l ++ [e]).

(** The lease check of the maintenance tick as the specification words it,
    with a ten-second time to live: a tick that finds no holder, or a
    heartbeat older than ten seconds, takes the lease; a tick that finds
    itself holder renews it; any other tick stands by and writes
    nothing. *)
Definition LEASE_TTL : Z := 10000.

Definition lease_check_as_specified : Prop :=
  forall (s : state) (c : ExtensionContext) (now lastHeartbeat : Z) (holder : value),
    truthy (isEnabled s) = true ->
    globalContext s = Some c ->
    memento_get (globalState s) (lock_key (currentIDE s)) = holder ->
    memento_get (globalState s) (ping_key (currentIDE s)) = VNum lastHeartbeat ->
    let self := VStr (extension_id c) in
    let s' := exec (maintenanceTick now) s in
    let taken :=
      <[ping_key (currentIDE s) := VNum now]>
        (<[lock_key (currentIDE s) := self]> (globalState s)) in
    (holder = VUndef \/ now - lastHeartbeat > LEASE_TTL ->
     globalState s' = taken /\ isLockedOut s' = false) /\
    (holder = self -> globalState s' = taken /\ isLockedOut s' = false) /\
    (holder <> VUndef /\ now - lastHeartbeat <= LEASE_TTL /\ holder <> self ->
     globalState s' = globalState s /\ isLockedOut s' = true).

Definition sample_context : ExtensionContext := {| extension_id := "pub.auto-accept" |}.

(** Two windows: the store says that window B holds the lease with a
    heartbeat at time 1000, and window A is enabled. *)
Definition window_A : ExtensionContext := {| extension_id := "window-A" |}.
Definition window_B : ExtensionContext := {| extension_id := "window-B" |}.

Definition held_by_B : gmap string value :=
  {[ lock_key "Cursor" := VStr "window-B"; ping_key "Cursor" := VNum 1000 ]}.

Definition enabled_window (c : ExtensionContext) (instance : string)
    (store : gmap string value) : state :=
  {| globalState := store; timers := []; next_timer := 0%nat; effects := [];
     _context := Some c; _isPro := VBool false;
     _proPollingTimer := None; _proPollingAttempts := 0;
     INSTANCE_ID := instance; isEnabled := VBool true; isLockedOut := false;
     pollFrequency := VNum 300; bannedCommands := [];
     backgroundModeEnabled := VBool false; pollTimer := None;
     commandPollTimer := None; currentIDE := "Cursor";
     globalContext := Some c; cdpHandler := true; relauncher := true |}.

(** Several extension hosts (windows) over one durable store.  A window
    runs its maintenance tick on the shared store and leaves its writes
    there; the tick has no suspension point between its reads and its
    writes of the lease keys. *)
Record system := { durable : gmap string value; windows : list state }.

Definition tick_window (i : nat) (now : Z) (sys : system) : system :=
  match windows sys !! i with
  | None => sys
  | Some w =>
      let w' := exec (maintenanceTick now) (set_globalState (fun _ => durable sys) w) in
      {| durable := globalState w'; windows := <[i := w']> (windows sys) |}
  end.

(** Window [i] reports itself leader: it is not in standby. *)
Definition leads (i : nat) (sys : system) : bool :=
  match windows sys !! i with
  | Some w => negb (isLockedOut w)
  | None => false
  end.

(** The report of every tick of a schedule: window, time, leader or not. *)
Fixpoint reports (sched : list (nat * Z)) (sys : system) : list (nat * Z * bool) :=
  match sched with
  | [] => []
  | (i, t) :: rest =>
      let sys' := tick_window i t sys in
      (i, t, leads i sys') :: reports rest sys'
  end.

(** Two windows of the same extension, each with its own random
    [INSTANCE_ID], both enabled, over an empty store; each ticks every
    five seconds, one second apart. *)
Definition two_windows : system :=
  {| durable := ∅;
     windows := [ enabled_window sample_context "k3x9f2" ∅;
                  enabled_window sample_context "q7w1zc" ∅ ] |}.

Definition alternating : list (nat * Z) :=
  [ (0%nat, 1000); (1%nat, 2000); (0%nat, 6000); (1%nat, 7000);
    (0%nat, 11000); (1%nat, 12000); (0%nat, 16000); (1%nat, 17000) ].

(** Counting in the trace of effects. *)
Definition count_effect (e : effect) (s : state) : nat :=
  length (filter (fun x => x = e) (effects s)).

Definition probes : state -> nat := count_effect VerifyLicenseCalled.
Definition exhausted : state -> nat := count_effect (ShowWarning MsgVerificationSlow).
Definition succeeded : state -> nat := count_effect (ShowInformation MsgProActivated).

(** Whether a probe issued in state [s] and answered by [r] succeeds. *)
Definition probe_succeeds (s : state) (r : response) : bool :=
  match fst (verifyLicense r s) with
  | Ret v => truthy v
  | Thrown => false
  end.

(** Every live timer and the polling handle were handed out by
    [setInterval]. *)
Definition handles_allocated (s : state) : Prop :=
  (forall t, t ∈ timers s -> (timer_id t < next_timer s)%nat) /\
  (forall old, _proPollingTimer s = Some old -> (old < next_timer s)%nat).

(** The timer fires of a polling session, one per answer of the backend. *)
Definition session_fires (context : ExtensionContext) (id : nat) (envs : list env)
  : state -> state :=
  run context (map (fun e => (TimerFired id, e)) envs).

(** What the [end] listener resolves for an answer [r]. *)
Definition license_value (r : response) : value :=
  match r with
  | NetworkError | Malformed => VBool false
  | Json plan isPro =>
      if negb (truthy plan) then js_and (VBool (strict_eq isPro (VBool true))) plan
      else match plan with
           | VStr p => js_and (VBool (strict_eq isPro (VBool true)))
                         (VBool (validPlans_includes (toLowerCase p)))
           | _ => VBool false
           end
  end.

Definition max_attempts : nat := Z.to_nat MAX_PRO_POLLING_ATTEMPTS.

(** A polling session with timer [id], started in [s1], after [a]
    unsuccessful attempts; and the same session once it has stopped. *)
Definition polling (s1 : state) (id : nat) (a : nat) (s : state) : Prop :=
  _proPollingTimer s = Some id /\
  (exists tm, find_timer id s = Some tm /\ timer_task tm = ProPollingTick) /\
  (id < next_timer s)%nat /\
  _proPollingAttempts s = Z.of_nat a /\
  _context s = _context s1 /\
  globalState s !! USER_ID_KEY = globalState s1 !! USER_ID_KEY /\
  probes s = (probes s1 + a)%nat /\
  exhausted s = exhausted s1 /\
  succeeded s = succeeded s1.

Definition stopped (id : nat) (s : state) : Prop :=
  find_timer id s = None /\ _proPollingTimer s = None.

(** Timer [id] is dead and will not be handed out again. *)
Definition retired (id : nat) (s : state) : Prop :=
  find_timer id s = None /\ (id < next_timer s)%nat.

(** A paying user's window, polling every second: the stored pro flag is
    set, no trial was ever started, and [startPolling] has registered the
    two timers. *)
Definition paid_store : gmap string value :=
  {[ PRO_STATE_KEY := VBool true; FREQ_STATE_KEY := VNum 1000;
     USER_ID_KEY := VStr "0f8c2d1e" ]}.

Definition paid_window : state :=
  {| globalState := paid_store; timers := []; next_timer := 0%nat; effects := [];
     _context := Some sample_context; _isPro := VBool true;
     _proPollingTimer := None; _proPollingAttempts := 0;
     INSTANCE_ID := "k3x9f2"; isEnabled := VBool true; isLockedOut := false;
     pollFrequency := VNum 1000; bannedCommands := [];
     backgroundModeEnabled := VBool false; pollTimer := None;
     commandPollTimer := None; currentIDE := "Cursor";
     globalContext := Some sample_context; cdpHandler := true; relauncher := true |}.

Definition paid_polling : state := exec (startPolling 5000) paid_window.

Definition at_time (t : Z) : env :=
  {| now := t; cdpAvailable := true; license := NetworkError; answer := Dismissed;
     settingsPanel := true |}.

(** A polling session whose backend may answer late: the state of the
    two modules and the number of interval callbacks suspended on a
    request.  The timer fires while it is live; an answer resumes one
    suspended callback.  An exception leaves the callback where it is
    raised. *)
Record session := {
  module_state : state;
  suspended : nat
}.

Inductive session_event :=
| Fires
| Answers (r : response).

Definition session_step (id : nat) (ev : session_event) (e : env) (x : session)
  : session :=
  match ev with
  | Fires =>
      match find_timer id (module_state x) with
      | Some t =>
          match timer_task t with
          | ProPollingTick =>
              match proPollingTick_request (callbacks e) (module_state x) with
              | (Ret true, s') =>
                  {| module_state := s'; suspended := S (suspended x) |}
              | (_, s') => {| module_state := s'; suspended := suspended x |}
              end
          | _ => x
          end
      | None => x
      end
  | Answers r =>
      match suspended x with
      | O => x
      | S n =>
          {| module_state := exec (proPollingTick_answer (callbacks e) r) (module_state x);
             suspended := n |}
      end
  end.

Fixpoint session_run (id : nat) (evs : list (session_event * env)) (x : session)
  : session :=
  match evs with
  | [] => x
  | (ev, e) :: rest => session_run id rest (session_step id ev e x)
  end.

(** What holds of the session with timer [id] started in [s1], whenever
    the answers arrive: it is still polling, after at most 24 attempts, or
    its timer is dead for good, with at most 24 probes sent and exhaustion
    reported at most once. *)
Definition bounded_session (s1 : state) (id : nat) (s : state) : Prop :=
  (exists a, (a <= 24)%nat /\ polling s1 id a s)
  \/ (retired id s
      /\ (probes s <= probes s1 + 24)%nat
      /\ (exhausted s <= exhausted s1 + 1)%nat).

(** The window of a user who has just paid: initialised, with a user id,
    not yet pro, the polling session started; and the answer of the
    backend once the payment is booked. *)
Definition customer_window : state :=
  enabled_window sample_context "k3x9f2" {[ USER_ID_KEY := VStr "0f8c2d1e" ]}.

Definition customer_polling : session :=
  {| module_state := exec startProPolling customer_window; suspended := 0 |}.

Definition licensed : response := Json (VStr "lifetime") (VBool true).

(** Both of the first two probes are answered, with a valid licence, only
    after the second fire. *)
Definition slow_backend : list (session_event * env) :=
  [ (Fires, at_time 5000); (Fires, at_time 10000);
    (Answers licensed, at_time 11000); (Answers licensed, at_time 11500) ].

(** Twenty-three probes fail in time; the twenty-fourth is answered, with
    a valid licence, only after the twenty-fifth fire. *)
Definition late_backend : list (session_event * env) :=
  mjoin (map (fun k : nat =>
                [ (Fires, at_time (5000 * (Z.of_nat k + 1)));
                  (Answers NetworkError, at_time (5000 * (Z.of_nat k + 1) + 200)) ])
             (seq 0 23))
  ++ [ (Fires, at_time 120000); (Fires, at_time 125000);
       (Answers licensed, at_time 126000) ].

(** The live fast-tick timers of a state. *)
Definition fast_timers (s : state) : list timer :=
  filter (fun t => timer_task t = FastTick) (timers s).

(** Trial-expiry notifications shown so far, and whether one may still be
    shown: the notified flag is not set. *)
Definition notices : state -> nat := count_effect (ShowInformation MsgTrialEnded).

Definition notified (s : state) : bool :=
  truthy (memento_get_or (globalState s) TRIAL_NOTIFIED_KEY (VBool false)).

Definition pending (s : state) : nat := if notified s then 0%nat else 1%nat.

(** A handler that shows no trial-expiry notification and does not touch
    the notified flag. *)
Definition quiet {A} (m : M A) : Prop :=
  (forall x, preserves (keeps TRIAL_NOTIFIED_KEY x) m) /\
  (forall n, preserves (fun s => notices s = n) m).

(** The background toggle as the specification words it: without
    entitlement the request is denied and nothing but the denial happens;
    with entitlement, turning background mode on while the debugging
    session is unreachable requests the setup flow and leaves the mode and
    the store as they were. *)
Definition background_toggle_as_specified : Prop :=
  forall (context : ExtensionContext) (e : env) (s : state),
    let s' := exec (handleBackgroundToggle context e) s in
    (truthy (access (now e) s) = false ->
     s' = log_effect (ShowInformation MsgBackgroundIsPro) s) /\
    (truthy (access (now e) s) = true ->
     truthy (backgroundModeEnabled s) = false ->
     (cdpHandler s = false \/ cdpAvailable e = false) ->
     backgroundModeEnabled s' = backgroundModeEnabled s
     /\ globalState s' = globalState s
     /\ EnsureCDPAndRelaunch ∈ effects s').

(** A paying user's window in which the CDP handler and the relauncher
    failed to load, and who ticked the dialog's do-not-show-again box. *)
Definition no_handlers_window : state :=
  {| globalState := {[ PRO_STATE_KEY := VBool true;
                       BACKGROUND_DONT_SHOW_KEY := VBool true ]};
     timers := []; next_timer := 0%nat; effects := [];
     _context := Some sample_context; _isPro := VBool true;
     _proPollingTimer := None; _proPollingAttempts := 0;
     INSTANCE_ID := "k3x9f2"; isEnabled := VBool true; isLockedOut := false;
     pollFrequency := VNum 1000; bannedCommands := [];
     backgroundModeEnabled := VBool false; pollTimer := None;
     commandPollTimer := None; currentIDE := "Cursor";
     globalContext := Some sample_context; cdpHandler := false; relauncher := false |}.

(** The in-memory pro flag agrees with the stored one, as far as
    [hasProAccess] can tell, and the module is initialised. *)
Definition synced (s : state) : Prop :=
  is_null (_context s) = false /\
  let stored := memento_get_or (globalState s) PRO_STATE_KEY (VBool false) in
  _isPro s = stored \/ (truthy (_isPro s) = false /\ truthy stored = false).

(** The module variables of the payment handler that entitlement reads. *)
Definition entitlement_vars (p : value) (c : option ExtensionContext) : state -> Prop :=
  fun s => _isPro s = p /\ _context s = c.

(** The ticks of a schedule that ended with the window as leader. *)
Fixpoint leader_reports (sched : list (nat * Z)) (sys : system) : list (nat * Z) :=
  match sched with
  | [] => []
  | (i, t) :: rest =>
      let sys' := tick_window i t sys in
      (if leads i sys' then [(i, t)] else []) ++ leader_reports rest sys'
  end.

(** Times that never go back, from [lo] on. *)
Fixpoint monotone (lo : Z) (sched : list (nat * Z)) : Prop :=
  match sched with
  | [] => True
  | (_, t) :: rest => lo <= t /\ monotone t rest
  end.

(** Windows of one IDE, all enabled, whose contexts carry non-empty,
    pairwise distinct identifiers. *)
Definition window_ok (ide : string) (w : state) : Prop :=
  truthy (isEnabled w) = true /\ currentIDE w = ide /\
  exists c, globalContext w = Some c /\ extension_id c <> "".

Definition distinct_windows (ide : string) (ws : list state) : Prop :=
  Forall (window_ok ide) ws /\
  forall i j w w', ws !! i = Some w -> ws !! j = Some w' ->
                   globalContext w = globalContext w' -> i = j.

(** Windows of one IDE, all enabled, whose contexts are the same. *)
Definition same_id_windows (ide : string) (c : ExtensionContext) (ws : list state) : Prop :=
  Forall (fun w => truthy (isEnabled w) = true /\ currentIDE w = ide
                   /\ globalContext w = Some c) ws.

(** Leader reports of different windows are at least [gap] apart. *)
Definition apart (gap : Z) (hist : list (nat * Z)) : Prop :=
  forall i t j t', (i, t) ∈ hist -> (j, t') ∈ hist -> i <> j -> gap <= Z.abs (t - t').

(** The store names the window of the latest leader report as holder. *)
Definition held_by_latest (ide : string) (sys : system) (hist : list (nat * Z)) : Prop :=
  hist = [] \/
  exists i t w c,
    (i, t) ∈ hist /\ windows sys !! i = Some w /\ globalContext w = Some c
    /\ durable sys !! lock_key ide = Some (VStr (extension_id c))
    /\ durable sys !! ping_key ide = Some (VNum t)
    /\ 0 < t /\ forall j t', (j, t') ∈ hist -> t' <= t.

(** A store with a trial started at time 1000 and an initialised module
    over it. *)
Definition trial_store : gmap string value := {[ TRIAL_START_KEY := VNum 1000 ]}.
Definition trial_state : state :=
  set__context (Some sample_context) (loaded trial_store "k3x9f2").

(** What the [end] listener leaves in the store for an answer [r]. *)
Definition store_plan (r : response) (s : state) : state :=
  match r with
  | Json plan _ =>
      if truthy plan && negb (is_null (_context s))
      then set_globalState (fun m => memento_update m PLAN_KEY plan) s
      else s
  | _ => s
  end.

(** [payment.verifyLicense ().then (isValid => ...)] of [activate], with
    nothing else running between the answer and the continuation. *)
Definition reverify (r : response) (e : env) : M unit :=
  isValid ← verifyLicense r;
  licenseReverified isValid e.

(** The timer table after [clearInterval (h)]. *)
Definition cleared (h : option nat) (l : list timer) : list timer :=
  match h with
  | Some id => filter (fun t => timer_id t <> id) l
  | None => l
  end.

(** The two timers that [startPolling] registers in a state [s]. *)
Definition fast_timer (s : state) : timer :=
  {| timer_id := next_timer s; timer_task := FastTick;
     timer_interval := pollFrequency s |}.
Definition maintenance_timer (s : state) : timer :=
  {| timer_id := S (next_timer s); timer_task := MaintenanceTick;
     timer_interval := VNum 5000 |}.

(** Every live timer was handed out by [setInterval]. *)
Definition timers_allocated (s : state) : Prop :=
  forall t, t ∈ timers s -> (timer_id t < next_timer s)%nat.

(** [s'] differs from [s] at most in the timer table, the two polling
    handles and the trace. *)
Definition same_settings (s s' : state) : Prop :=
  globalState s' = globalState s /\ _context s' = _context s /\ _isPro s' = _isPro s
  /\ _proPollingTimer s' = _proPollingTimer s
  /\ _proPollingAttempts s' = _proPollingAttempts s
  /\ INSTANCE_ID s' = INSTANCE_ID s /\ isEnabled s' = isEnabled s
  /\ isLockedOut s' = isLockedOut s /\ pollFrequency s' = pollFrequency s
  /\ bannedCommands s' = bannedCommands s
  /\ backgroundModeEnabled s' = backgroundModeEnabled s
  /\ currentIDE s' = currentIDE s /\ globalContext s' = globalContext s
  /\ cdpHandler s' = cdpHandler s /\ relauncher s' = relauncher s.

(** Requests of the setup-and-relaunch flow so far. *)
Definition relaunches : state -> nat := count_effect EnsureCDPAndRelaunch.

(** Calls of [cdpHandler.start] so far. *)
Definition is_start (e : effect) : bool :=
  match e with
  | CdpStart _ => true
  | _ => false
  end.
Definition cdp_starts (s : state) : nat :=
  length (filter (fun e => is_start e = true) (effects s)).

(** The event is not a fire of the maintenance timer. *)
Definition not_maintenance (ev : event) (s : state) : Prop :=
  forall id t, ev = TimerFired id -> find_timer id s = Some t ->
               timer_task t <> MaintenanceTick.

(** The durable copies of the enabled flag, of the background mode and of
    the banned commands are the values in memory. *)
Definition mirrored (s : state) : Prop :=
  memento_get_or (globalState s) GLOBAL_STATE_KEY (VBool false) = isEnabled s
  /\ memento_get_or (globalState s) BACKGROUND_MODE_KEY (VBool false)
     = backgroundModeEnabled s
  /\ memento_get_or (globalState s) BANNED_COMMANDS_KEY (VArr (bannedCommands s))
     = VArr (bannedCommands s).

(** The events whose handlers can ask for the setup-and-relaunch flow: the
    relaunch command, the background toggle, and the three ways into
    [handlePaidActivation]. *)
Definition may_relaunch (ev : event) (s : state) : Prop :=
  match ev with
  | Command CmdRelaunch | Command CmdToggleBackground
  | Command CmdActivatePro | Command CmdOnPaid => True
  | Command _ | LicenseReverified _ => False
  | TimerFired id =>
      exists t, find_timer id s = Some t /\ timer_task t = ProPollingTick
  end.

(** The flag stored under [k] is set. *)
Definition seen (k : string) (s : state) : bool :=
  truthy (memento_get_or (globalState s) k (VBool false)).

(** The first-time dialogs of the background toggle shown so far. *)
Definition confirmations : state -> nat :=
  count_effect (ShowInformation MsgTurnOnBackground).

(** * Reasoning about [M] *)

(** Unfolding of the monadic plumbing. *)
Ltac munfold :=
  unfold exec, eval, when, emit, gs_get, gs_get_or, gs_update, isPro, extension_of,
    mbind, M_bind, bind, mret, M_ret, ret, throw, gets, modify, try_catch in *.

Section Preservation.

Context {A B : Type} (P : state -> Prop).

Lemma preserves_pure (m : M A) : pure m -> preserves P m.
  Proof. intros Hm s HP. by rewrite Hm. Qed.

Lemma preserves_ret (a : A) : preserves P (ret a).
  Proof. by intros s HP. Qed.

Lemma preserves_throw : preserves P (@throw A).
  Proof. by intros s HP. Qed.

Lemma preserves_gets (f : state -> A) : preserves P (gets f).
  Proof. by intros s HP. Qed.

Lemma preserves_bind (m : M A) (k : A -> M B) :
    preserves P m -> (forall a, preserves P (k a)) -> preserves P (m ≫= k).
  Proof.
    intros Hm Hk s HP. specialize (Hm s HP). munfold.
    destruct (m s) as [[a|] s']; simpl in *; [by apply Hk | done].
  Qed.

Lemma preserves_try_catch (m h : M A) :
    preserves P m -> preserves P h -> preserves P (try_catch m h).
  Proof.
    intros Hm Hh s HP. specialize (Hm s HP). munfold.
    destruct (m s) as [[a|] s']; simpl in *; [done | by apply Hh].
  Qed.

End Preservation.

(** Binding a read whose answer is known in the states of interest. *)
Lemma preserves_bind_known {A B} (P : state -> Prop) (m : M A) (k : A -> M B)
    (f : state -> A) :
  (forall s, P s -> m s = (Ret (f s), s)) ->
  (forall s, P s -> P (snd (k (f s) s))) ->
  preserves P (m ≫= k).
Proof. intros Hm Hk s HP. munfold. rewrite (Hm s HP). by apply Hk. Qed.

Lemma preserves_bind_at {A B} (P : state -> Prop) (m : M A) (k : A -> M B) s :
  P (snd (m s)) -> (forall a, preserves P (k a)) -> P (snd ((m ≫= k) s)).
Proof.
  intros Hm Hk. munfold. destruct (m s) as [[a|] s']; simpl in *; [by apply Hk | done].
Qed.

Lemma preserves_try_catch_at {A} (P : state -> Prop) (m h : M A) s :
  P (snd (m s)) -> preserves P h -> P (snd (try_catch m h s)).
Proof.
  intros Hm Hh. munfold. destruct (m s) as [[a|] s']; simpl in *; [done | by apply Hh].
Qed.

Lemma bind_run {A B} (m : M A) (k : A -> M B) s a s' :
  m s = (Ret a, s') -> (m ≫= k) s = k a s'.
Proof. intros Hm. munfold. by rewrite Hm. Qed.

Lemma preserves_when (P : state -> Prop) (b : bool) (m : M unit) :
  preserves P m -> preserves P (when b m).
Proof. intros Hm. destruct b; [done | apply preserves_ret]. Qed.

Lemma pure_bind {A B} (m : M A) (k : A -> M B) :
  pure m -> (forall a, pure (k a)) -> pure (m ≫= k).
Proof.
  intros Hm Hk s. specialize (Hm s). munfold.
  destruct (m s) as [[a|] s']; simpl in *; subst; [apply Hk | done].
Qed.

Lemma pure_ret {A} (a : A) : pure (ret a).
Proof. done. Qed.

Lemma pure_gets {A} (f : state -> A) : pure (gets f).
Proof. done. Qed.

Lemma pure_gs_get c k : pure (gs_get c k).
Proof. by destruct c. Qed.

Lemma pure_gs_get_or c k d : pure (gs_get_or c k d).
Proof. by destruct c. Qed.

Lemma pure_extension_of c : pure (extension_of c).
Proof. by destruct c. Qed.

Create HintDb purity.

Ltac head_of t :=
  lazymatch t with
  | ?f _ => head_of f
  | _ => t
  end.

(** One syntax-directed step on a goal [pure m]. *)
Ltac pure_step :=
  lazymatch goal with
  | |- pure (mbind _ _) => apply pure_bind; [| intros ?]
  | |- pure (bind _ _) => apply pure_bind; [| intros ?]
  | |- pure (ret _) => apply pure_ret
  | |- pure (mret _) => apply pure_ret
  | |- pure (gets _) => apply pure_gets
  | |- pure (gs_get _ _) => apply pure_gs_get
  | |- pure (gs_get_or _ _ _) => apply pure_gs_get_or
  | |- pure (if ?b then _ else _) => destruct b
  | |- pure (match ?x with _ => _ end) => destruct x
  | |- pure ?m =>
      first [ solve [auto with purity] | let h := head_of m in unfold h ]
  end.

Lemma isPro_pure : pure isPro.
Proof. repeat pure_step. Qed.

Lemma isTrialActive_pure now : pure (isTrialActive now).
Proof. repeat pure_step. Qed.

Lemma hasTrialStarted_pure : pure hasTrialStarted.
Proof. repeat pure_step. Qed.

#[export] Hint Resolve isPro_pure isTrialActive_pure hasTrialStarted_pure : purity.

Lemma hasProAccess_pure now : pure (hasProAccess now).
Proof. unfold hasProAccess. repeat pure_step. Qed.

Lemma getTrialDaysLeft_pure now : pure (getTrialDaysLeft now).
Proof. repeat pure_step. Qed.

Lemma isPlanRecurring_pure : pure isPlanRecurring.
Proof. repeat pure_step. Qed.

#[export] Hint Resolve hasProAccess_pure getTrialDaysLeft_pure isPlanRecurring_pure
  : purity.

Lemma getPollFrequency_pure now : pure (getPollFrequency now).
Proof. unfold getPollFrequency. repeat pure_step. Qed.

Lemma getAcceptCommandsForIDE_pure : pure getAcceptCommandsForIDE.
Proof. repeat pure_step. Qed.

#[export] Hint Resolve getPollFrequency_pure getAcceptCommandsForIDE_pure : purity.

(** ** Invariants across handlers *)

Create HintDb preservation.

(** One syntax-directed step on a goal [preserves P m]; [leaf] settles the
    primitive writes for the invariant at hand. *)
Ltac preserve_step leaf :=
  lazymatch goal with
  | |- preserves _ (mbind _ _) => apply preserves_bind; [| intros ?]
  | |- preserves _ (bind _ _) => apply preserves_bind; [| intros ?]
  | |- preserves _ (ret _) => apply preserves_ret
  | |- preserves _ (mret _) => apply preserves_ret
  | |- preserves _ throw => apply preserves_throw
  | |- preserves _ (gets _) => apply preserves_gets
  | |- preserves _ (try_catch _ _) => apply preserves_try_catch
  | |- preserves _ (when false _) => apply preserves_ret
  | |- preserves _ (when _ _) => apply preserves_when
  | |- preserves _ (gs_get _ _) => apply preserves_pure, pure_gs_get
  | |- preserves _ (gs_get_or _ _ _) => apply preserves_pure, pure_gs_get_or
  | |- preserves _ (extension_of _) => apply preserves_pure, pure_extension_of
  | |- preserves _ (modify _) => leaf
  | |- preserves _ (emit _) => leaf
  | |- preserves _ (setInterval _ _) => leaf
  | |- preserves _ (clearInterval _) => leaf
  | |- preserves _ (gs_update _ _ _) => leaf
  | |- preserves _ (if ?b then _ else _) => destruct b
  | |- preserves _ (match ?x with _ => _ end) => destruct x
  | |- preserves _ (let _ := _ in _) => cbv zeta
  | |- preserves _ ?m =>
      first [ solve [auto with preservation]
            | solve [apply preserves_pure; auto with purity]
            | let h := head_of m in unfold h ]
  end.

(** Leaves of invariants that do not read the store or the trace. *)
Ltac frame_leaf :=
  intros ? ?;
  repeat match goal with
    | |- context [clearInterval ?h] => is_var h; destruct h
    | |- context [gs_update ?c] => is_var c; destruct c
    end;
  first [ assumption | done ].

(** ** Computations that never throw *)

Lemma returns_ret {A} (a : A) : returns (ret a).
Proof. intros s. by exists a. Qed.

Lemma returns_gets {A} (f : state -> A) : returns (gets f).
Proof. intros s. by eexists. Qed.

Lemma returns_modify f : returns (modify f).
Proof. intros s. by eexists. Qed.

Lemma returns_bind {A B} (m : M A) (k : A -> M B) :
  returns m -> (forall a, returns (k a)) -> returns (m ≫= k).
Proof.
  intros Hm Hk s. destruct (Hm s) as [a Ha]. munfold.
  destruct (m s) as [[a'|] s']; simpl in *; [|done]. apply Hk.
Qed.

Lemma returns_try_catch {A} (m h : M A) : returns h -> returns (try_catch m h).
Proof.
  intros Hh s. munfold. destruct (m s) as [[a|] s']; simpl; [by eexists | apply Hh].
Qed.

Lemma returns_when b m : returns m -> returns (when b m).
Proof. intros Hm. destruct b; [done | apply returns_ret]. Qed.

Lemma returns_setInterval t i : returns (setInterval t i).
Proof. intros s. by eexists. Qed.

Lemma returns_clearInterval h : returns (clearInterval h).
Proof. destruct h; [apply returns_modify | apply returns_ret]. Qed.

Create HintDb totality.

Ltac returns_step :=
  lazymatch goal with
  | |- returns (mbind _ _) => apply returns_bind; [| intros ?]
  | |- returns (bind _ _) => apply returns_bind; [| intros ?]
  | |- returns (ret _) => apply returns_ret
  | |- returns (mret _) => apply returns_ret
  | |- returns (gets _) => apply returns_gets
  | |- returns (modify _) => apply returns_modify
  | |- returns (emit _) => apply returns_modify
  | |- returns (when _ _) => apply returns_when
  | |- returns (try_catch _ _) => apply returns_try_catch
  | |- returns (setInterval _ _) => apply returns_setInterval
  | |- returns (clearInterval _) => apply returns_clearInterval
  | |- returns (gs_get (Some _) _) => apply returns_gets
  | |- returns (gs_get_or (Some _) _ _) => apply returns_gets
  | |- returns (gs_update (Some _) _ _) => apply returns_modify
  | |- returns (if is_null ?c then _ else _) => destruct c; simpl
  | |- returns (if ?b then _ else _) => destruct b
  | |- returns (match ?x with _ => _ end) => destruct x
  | |- returns ?m =>
      first [ solve [auto with totality] | let h := head_of m in unfold h ]
  end.

Lemma isTrialActive_total now : returns (isTrialActive now).
Proof. repeat returns_step. Qed.

#[export] Hint Resolve isTrialActive_total : totality.

Lemma hasProAccess_total now : returns (hasProAccess now).
Proof. repeat returns_step. Qed.

#[export] Hint Resolve hasProAccess_total : totality.

Lemma getPollFrequency_total now : returns (getPollFrequency now).
Proof. repeat returns_step. Qed.

Lemma syncSessions_total now : returns (syncSessions now).
Proof. repeat returns_step. Qed.

Lemma executeAcceptCommandsForIDE_total : returns executeAcceptCommandsForIDE.
Proof. repeat returns_step. Qed.

#[export] Hint Resolve getPollFrequency_total syncSessions_total
  executeAcceptCommandsForIDE_total : totality.

Lemma startPolling_total now : returns (startPolling now).
Proof. repeat returns_step. Qed.

Lemma ensureCDPOrPrompt_total b a : returns (ensureCDPOrPrompt b a).
Proof. repeat returns_step. Qed.

#[export] Hint Resolve startPolling_total ensureCDPOrPrompt_total : totality.

Lemma handlePaidActivation_total now a : returns (handlePaidActivation now a).
Proof. repeat returns_step. Qed.

#[export] Hint Resolve handlePaidActivation_total : totality.

Lemma onProActivated_total now a : returns (onProActivated now a).
Proof. repeat returns_step. Qed.

(** * Properties *)

(** ** TrialClock and the entitlement queries *)

Section TrialClock.

Lemma isTrialActive_recorded now s c ts :
    _context s = Some c ->
    globalState s !! TRIAL_START_KEY = Some (VNum ts) ->
    ts <> 0 ->
    isTrialActive now s
    = (Ret (VBool (bool_decide (now - ts < TRIAL_DURATION_MS))), s).
  Proof.
    intros Hc Hs Hts. unfold isTrialActive. munfold. simpl.
    rewrite Hc. simpl. unfold memento_get. rewrite Hs. simpl.
    destruct (Z.eqb_spec ts 0) as [|_]; [done|]. simpl.
    do 3 f_equal. unfold js_lt. simpl.
    destruct (Z.ltb_spec (now - ts) TRIAL_DURATION_MS);
      [rewrite bool_decide_eq_true_2 | rewrite bool_decide_eq_false_2]; auto; lia.
  Qed.

Lemma isTrialActive_unrecorded now s :
    globalState s !! TRIAL_START_KEY = None ->
    isTrialActive now s = (Ret (VBool false), s).
  Proof.
    intros Hs. unfold isTrialActive. munfold. simpl.
    destruct (_context s); simpl; [|done].
    unfold memento_get. by rewrite Hs.
  Qed.

Lemma isTrialActive_no_context now s :
    _context s = None -> isTrialActive now s = (Ret (VBool false), s).
  Proof. intros Hc. unfold isTrialActive. munfold. simpl. by rewrite Hc. Qed.

  (** C6: with a trial start [ts] recorded, [isTrialActive] at time [now]
      is true exactly when [now - ts < TRIAL_DURATION_MS], three days; it
      is true one millisecond before the end of the trial and false one
      millisecond after it; with no trial start recorded it is false. *)
Theorem isTrialActive_iff_within_duration (s : state) (now : Z) :
    TRIAL_DURATION_MS = 3 * DAY_MS /\
    (forall c ts,
        _context s = Some c ->
        globalState s !! TRIAL_START_KEY = Some (VNum ts) ->
        ts <> 0 ->
        isTrialActive now s
        = (Ret (VBool (bool_decide (now - ts < TRIAL_DURATION_MS))), s)
        /\ isTrialActive (ts + TRIAL_DURATION_MS - 1) s = (Ret (VBool true), s)
        /\ isTrialActive (ts + TRIAL_DURATION_MS + 1) s = (Ret (VBool false), s)) /\
    (globalState s !! TRIAL_START_KEY = None ->
     isTrialActive now s = (Ret (VBool false), s)).
  Proof.
    split; [reflexivity|]. split.
    - intros c ts Hc Hs Hts. repeat split.
      + by eapply isTrialActive_recorded.
      + erewrite isTrialActive_recorded by eauto.
        rewrite bool_decide_eq_true_2; [done | lia].
      + erewrite isTrialActive_recorded by eauto.
        rewrite bool_decide_eq_false_2; [done | lia].
    - apply isTrialActive_unrecorded.
  Qed.

  (** C9: in a module that was never initialised (no context, the pro flag
      at its initial value) every entitlement query returns its default
      without throwing: [false] for [isTrialActive], [hasTrialStarted] and
      [hasProAccess], [0] for [getTrialDaysLeft], [300] for
      [getPollFrequency], and [verifyLicense] resolves [false] without a
      request and without a write. *)
Theorem uninitialized_queries_total (s : state) (now : Z) (r : response) :
    _context s = None ->
    _isPro s = VBool false ->
    isTrialActive now s = (Ret (VBool false), s) /\
    hasTrialStarted s = (Ret (VBool false), s) /\
    hasProAccess now s = (Ret (VBool false), s) /\
    getTrialDaysLeft now s = (Ret (VNum 0), s) /\
    getPollFrequency now s = (Ret (VNum 300), s) /\
    verifyLicense r s
    = (Ret (VBool false), set_effects (fun l => l ++ [VerifyLicenseCalled]) s).
  Proof.
    intros Hc Hp. repeat split.
    - by apply isTrialActive_no_context.
    - unfold hasTrialStarted. munfold. simpl. by rewrite Hc.
    - unfold hasProAccess. munfold. simpl. rewrite Hp. simpl.
      by apply isTrialActive_no_context.
    - unfold getTrialDaysLeft. munfold. simpl. by rewrite Hc.
    - unfold getPollFrequency. munfold. simpl. by rewrite Hc.
    - unfold verifyLicense. munfold. simpl. by rewrite Hc.
  Qed.

End TrialClock.

Lemma isTrialActive_iff_within_duration_witness :
  isTrialActive 5000 trial_state = (Ret (VBool true), trial_state)
  /\ isTrialActive (1000 + TRIAL_DURATION_MS - 1) trial_state
     = (Ret (VBool true), trial_state)
  /\ isTrialActive (1000 + TRIAL_DURATION_MS + 1) trial_state
     = (Ret (VBool false), trial_state).
Proof.
  apply (proj1 (proj2 (isTrialActive_iff_within_duration trial_state 5000))
           sample_context 1000); [reflexivity | reflexivity | lia].
Defined.

Lemma uninitialized_queries_total_witness :
  hasProAccess 5000 (loaded trial_store "k3x9f2")
  = (Ret (VBool false), loaded trial_store "k3x9f2").
Proof.
  apply (uninitialized_queries_total (loaded trial_store "k3x9f2") 5000 NetworkError);
    reflexivity.
Defined.

(** ** Keys of the durable store *)

Lemma last_char_app (x y : string) :
  y <> "" -> last_char (x +:+ y) = last_char y.
Proof.
  intros Hy. induction x as [|c x IH]; [done|].
  simpl. rewrite IH. destruct (x +:+ y) eqn:E; [|done].
  destruct x; simpl in E; [done | discriminate].
Qed.

Lemma lock_key_last ide : last_char (lock_key ide) = Some "k"%char.
Proof. unfold lock_key. by rewrite last_char_app. Qed.

Lemma ping_key_last ide : last_char (ping_key ide) = Some "g"%char.
Proof. unfold ping_key. by rewrite last_char_app. Qed.

Lemma lock_key_ne_ping_key ide ide' : lock_key ide <> ping_key ide'.
Proof.
  intros E. pose proof (lock_key_last ide) as H. rewrite E, ping_key_last in H.
  discriminate.
Qed.

Lemma not_lease_key_lock k ide : not_lease_key k -> lock_key ide <> k.
Proof. intros [H _] E. apply H. rewrite <- E. apply lock_key_last. Qed.

Lemma not_lease_key_ping k ide : not_lease_key k -> ping_key ide <> k.
Proof. intros [_ H] E. apply H. rewrite <- E. apply ping_key_last. Qed.

Lemma memento_update_ne m k k' v :
  k <> k' -> memento_update m k v !! k' = m !! k'.
Proof.
  intros Hk. unfold memento_update.
  destruct v; by rewrite ?lookup_insert_ne, ?lookup_delete_ne.
Qed.

(** ** Invariants of the durable store across handlers *)

(** Handlers other than [startTrial] never write a key [k] that is neither
    a lease key nor one of the keys in [written]. *)
Section StoreFrame.

Variable k : string.
Variable x : option value.

Lemma keeps_gs_update c k' v : k' <> k -> preserves (keeps k x) (gs_update c k' v).
Proof.
  intros Hk s Hs. destruct c; [|done]. unfold keeps in *. simpl.
  by rewrite memento_update_ne.
Qed.

End StoreFrame.

Ltac keeps_leaf :=
  first
    [ apply keeps_gs_update;
      first [ by apply not_lease_key_lock | by apply not_lease_key_ping | done ]
    | by intros ? ?
    | intros ? ?;
      match goal with |- keeps _ _ (snd (clearInterval ?h _)) => destruct h end;
      assumption ].

(** What the handlers keep of the store: every key that is not a lease key
    and not one of the keys a handler is written to update.  [startTrial],
    [setProStatus] and [checkTrialExpiration] are treated apart. *)
Section Frame.

Variable k : string.
Variable x : option value.
Hypothesis not_lease : not_lease_key k.
Hypothesis not_pro : PRO_STATE_KEY <> k.
Hypothesis not_freq : FREQ_STATE_KEY <> k.
Hypothesis not_plan : PLAN_KEY <> k.
Hypothesis not_enabled : GLOBAL_STATE_KEY <> k.
Hypothesis not_banned : BANNED_COMMANDS_KEY <> k.
Hypothesis not_dont_show : BACKGROUND_DONT_SHOW_KEY <> k.
Hypothesis not_background : BACKGROUND_MODE_KEY <> k.

Let P := keeps k x.

Lemma syncSessions_keeps now : preserves P (syncSessions now).
Proof using Type. unfold P. repeat preserve_step keeps_leaf. Qed.

Lemma executeAcceptCommandsForIDE_keeps : preserves P executeAcceptCommandsForIDE.
Proof using Type. unfold P. repeat preserve_step keeps_leaf. Qed.

#[local] Hint Resolve syncSessions_keeps executeAcceptCommandsForIDE_keeps : preservation.

Lemma startPolling_keeps now : preserves P (startPolling now).
Proof using Type. unfold P. repeat preserve_step keeps_leaf. Qed.

Lemma stopPolling_keeps : preserves P stopPolling.
Proof using Type. unfold P. repeat preserve_step keeps_leaf. Qed.

Lemma fastTick_keeps : preserves P fastTick.
Proof using Type. unfold P. repeat preserve_step keeps_leaf. Qed.

Lemma maintenanceTick_keeps now : preserves P (maintenanceTick now).
Proof using not_lease. unfold P. repeat preserve_step keeps_leaf. Qed.

Lemma ensureCDPOrPrompt_keeps b a : preserves P (ensureCDPOrPrompt b a).
Proof using Type. unfold P. repeat preserve_step keeps_leaf. Qed.

#[local] Hint Resolve startPolling_keeps stopPolling_keeps fastTick_keeps
  maintenanceTick_keeps ensureCDPOrPrompt_keeps : preservation.

Lemma handlePaidActivation_keeps now a : preserves P (handlePaidActivation now a).
Proof using Type. unfold P. repeat preserve_step keeps_leaf. Qed.

#[local] Hint Resolve handlePaidActivation_keeps : preservation.

Lemma onProActivated_keeps now a : preserves P (onProActivated now a).
Proof using Type. unfold P. repeat preserve_step keeps_leaf. Qed.

Lemma resolveLicense_keeps r : preserves P (resolveLicense r).
Proof using not_plan. unfold P. repeat preserve_step keeps_leaf. Qed.

#[local] Hint Resolve onProActivated_keeps resolveLicense_keeps : preservation.

Lemma verifyLicense_keeps r : preserves P (verifyLicense r).
Proof using not_plan. unfold P. repeat preserve_step keeps_leaf. Qed.

Lemma startProPolling_keeps : preserves P startProPolling.
Proof using Type. unfold P. repeat preserve_step keeps_leaf. Qed.

Lemma run_callback_keeps e : preserves P (run_callback (callbacks e)).
Proof using Type. apply onProActivated_keeps. Qed.

#[local] Hint Resolve verifyLicense_keeps startProPolling_keeps run_callback_keeps
  : preservation.

Lemma proPollingTick_keeps e r : preserves P (proPollingTick (callbacks e) r).
Proof using not_plan not_pro. unfold P. repeat preserve_step keeps_leaf. Qed.

Lemma activatePro_keeps e r : preserves P (activatePro (callbacks e) r).
Proof using not_plan not_pro not_freq. unfold P. repeat preserve_step keeps_leaf. Qed.

Lemma handleRelaunch_keeps e : preserves P (handleRelaunch e).
Proof using Type. unfold P. repeat preserve_step keeps_leaf. Qed.

Lemma handleFrequencyUpdate_keeps c f e : preserves P (handleFrequencyUpdate c f e).
Proof using not_freq. unfold P. repeat preserve_step keeps_leaf. Qed.

Lemma handleBannedCommandsUpdate_keeps c v e :
  preserves P (handleBannedCommandsUpdate c v e).
Proof using not_banned. unfold P. repeat preserve_step keeps_leaf. Qed.

Lemma handleBackgroundToggle_keeps c e : preserves P (handleBackgroundToggle c e).
Proof using not_dont_show not_background. unfold P. repeat preserve_step keeps_leaf. Qed.

End Frame.

#[export] Hint Resolve syncSessions_keeps executeAcceptCommandsForIDE_keeps
  startPolling_keeps stopPolling_keeps fastTick_keeps maintenanceTick_keeps
  ensureCDPOrPrompt_keeps handlePaidActivation_keeps onProActivated_keeps
  resolveLicense_keeps verifyLicense_keeps startProPolling_keeps run_callback_keeps
  proPollingTick_keeps activatePro_keeps handleRelaunch_keeps
  handleFrequencyUpdate_keeps handleBannedCommandsUpdate_keeps
  handleBackgroundToggle_keeps : preservation.
#[export] Hint Extern 1 (_ <> _) => discriminate : preservation.
#[export] Hint Extern 1 (not_lease_key _) => by split : preservation.

(** ** The trial start is written once *)

Lemma trial_start_not_lease_key : not_lease_key TRIAL_START_KEY.
Proof. by split. Qed.

Lemma hasTrialStarted_stored s v :
  v <> VUndef ->
  globalState s !! TRIAL_START_KEY = Some v ->
  hasTrialStarted s = (Ret (VBool (negb (is_null (_context s)))), s).
Proof.
  intros Hv Hs. unfold hasTrialStarted. munfold. simpl.
  destruct (_context s); simpl; [|done].
  unfold memento_get. rewrite Hs. by destruct v.
Qed.

Section TrialStartFrame.

Variable v : value.
Hypothesis stored : v <> VUndef.

Let P := keeps TRIAL_START_KEY (Some v).

#[local] Hint Resolve trial_start_not_lease_key : core.

Lemma setProStatus_keeps_trial val : preserves P (setProStatus val).
Proof using Type. unfold P. repeat preserve_step keeps_leaf. Qed.

Lemma checkTrialExpiration_keeps_trial now : preserves P (checkTrialExpiration now).
Proof using Type. unfold P. repeat preserve_step keeps_leaf. Qed.

#[local] Hint Resolve setProStatus_keeps_trial checkTrialExpiration_keeps_trial
  : preservation.

Lemma licenseReverified_keeps_trial isValid e : preserves P (licenseReverified isValid e).
Proof using Type. unfold P. repeat preserve_step keeps_leaf. Qed.

Lemma fire_keeps_trial id e : preserves P (fire id e).
Proof using Type. unfold P. repeat preserve_step keeps_leaf. Qed.

(** The guard of [handleToggle]: with a trial start stored, either
    [hasTrialStarted] answers [true] and [startTrial] is skipped, or the
    module has no context and [startTrial] writes nothing. *)
Lemma handleToggle_keeps_trial c e : preserves P (handleToggle c e).
Proof using stored.
  unfold P, handleToggle. apply preserves_try_catch; [|apply preserves_ret].
  apply preserves_bind; [apply preserves_gets | intros en].
  apply preserves_bind; [apply preserves_pure, isPro_pure | intros p].
  apply (preserves_bind_known _ _ _ (fun s => VBool (negb (is_null (_context s))))).
  { intros s Hs. by eapply hasTrialStarted_stored. }
  intros s Hs. apply preserves_bind_at.
  - destruct (_context s) eqn:Hc; simpl.
    + by rewrite !andb_false_r.
    + destruct (_ && _); simpl; [|done].
      unfold startTrial. munfold. simpl. by rewrite Hc.
  - intros _. repeat preserve_step keeps_leaf.
Qed.

#[local] Hint Resolve licenseReverified_keeps_trial fire_keeps_trial
  handleToggle_keeps_trial : preservation.

Lemma step_keeps_trial c ev e : preserves P (step c ev e).
Proof using stored. unfold P. repeat preserve_step keeps_leaf. Qed.

Lemma run_keeps_trial c evs s : P s -> P (run c evs s).
Proof using stored.
  revert s. induction evs as [|[ev e] evs IH]; intros s Hs; [done|].
  simpl. apply IH. by apply step_keeps_trial.
Qed.

End TrialStartFrame.

Lemma handleToggle_fresh_trial context e s c :
  _context s = Some c ->
  truthy (isEnabled s) = false ->
  truthy (_isPro s) = false ->
  globalState s !! TRIAL_START_KEY = None ->
  globalState (exec (handleToggle context e) s) !! TRIAL_START_KEY
  = Some (VNum (now e)).
Proof.
  intros Hc Hen Hp Hs.
  change (keeps TRIAL_START_KEY (Some (VNum (now e)))
            (snd (handleToggle context e s))).
  unfold handleToggle. apply preserves_try_catch_at; [| apply preserves_ret].
  rewrite (bind_run _ _ s (isEnabled s) s) by done.
  rewrite (bind_run _ _ s (_isPro s) s) by done.
  rewrite (bind_run _ _ s (VBool false) s).
  2:{ unfold hasTrialStarted. munfold. simpl. rewrite Hc. simpl.
      unfold memento_get. by rewrite Hs. }
  rewrite Hen, Hp. unfold when at 1. cbn [negb andb truthy].
  apply preserves_bind_at.
  - unfold startTrial, keeps. munfold. simpl. rewrite Hc. simpl.
    by rewrite lookup_insert_eq.
  - intros _.
    pose proof trial_start_not_lease_key.
    repeat preserve_step keeps_leaf.
Qed.

(** C10: once a trial start is stored, no command, timer callback or
    licence re-verification changes it; and the enable toggle is where it
    is written: on a disabled, non-pro, initialised module with no trial
    start stored, it records the current time. *)
Theorem trial_start_written_once (context : ExtensionContext) :
  (forall (evs : list (event * env)) (s : state) (v : value),
      v <> VUndef ->
      globalState s !! TRIAL_START_KEY = Some v ->
      globalState (run context evs s) !! TRIAL_START_KEY = Some v) /\
  (forall (s : state) (e : env) (v : value),
      v <> VUndef ->
      globalState s !! TRIAL_START_KEY = Some v ->
      globalState (exec (handleToggle context e) s) !! TRIAL_START_KEY = Some v) /\
  (forall (s : state) (e : env) (c : ExtensionContext),
      _context s = Some c ->
      truthy (isEnabled s) = false ->
      truthy (_isPro s) = false ->
      globalState s !! TRIAL_START_KEY = None ->
      globalState (exec (handleToggle context e) s) !! TRIAL_START_KEY
      = Some (VNum (now e))).
Proof.
  split; [|split].
  - intros evs s v Hv Hs. by apply (run_keeps_trial v Hv).
  - intros s e v Hv Hs. by apply (handleToggle_keeps_trial v Hv).
  - intros s e c. apply handleToggle_fresh_trial.
Qed.

Lemma trial_start_written_once_witness :
  globalState (run sample_context [(Command CmdToggle, at_time 5000)] trial_state)
    !! TRIAL_START_KEY
  = Some (VNum 1000).
Proof.
  apply (proj1 (trial_start_written_once sample_context)
           [(Command CmdToggle, at_time 5000)] trial_state (VNum 1000));
    [discriminate | reflexivity].
Defined.

(** ** What the queries and [syncSessions] compute *)

Lemma isTrialActive_returns now s :
  exists b, isTrialActive now s = (Ret (VBool b), s).
Proof.
  unfold isTrialActive. munfold. simpl.
  destruct (_context s); simpl; [|by eexists].
  destruct (truthy _); by eexists.
Qed.

Lemma hasProAccess_returns now s : hasProAccess now s = (Ret (access now s), s).
Proof.
  unfold access, hasProAccess. munfold. simpl.
  destruct (truthy (_isPro s)); [done|].
  by destruct (isTrialActive_returns now s) as [b ->].
Qed.

Lemma syncSessions_run now s :
  syncSessions now s
  = (Ret tt, if cdpHandler s && negb (isLockedOut s)
             then log_effect (CdpStart (sync_config now s)) s else s).
Proof.
  unfold syncSessions. munfold. simpl.
  destruct (cdpHandler s && negb (isLockedOut s)); [|done].
  by rewrite hasProAccess_returns.
Qed.

(** ** LeaseManager: the maintenance tick *)

(** What one maintenance tick of an enabled instance does to the lease
    keys and to the standby flag. *)
Lemma maintenanceTick_lease s c now :
  truthy (isEnabled s) = true ->
  globalContext s = Some c ->
  let ide := currentIDE s in
  let holder := memento_get (globalState s) (lock_key ide) in
  let ping := memento_get (globalState s) (ping_key ide) in
  let me := VStr (extension_id c) in
  let standby :=
    truthy holder && strict_ne holder me
    && (truthy ping && js_lt (js_sub (VNum now) ping) (VNum 15000)) in
  fst (maintenanceTick now s) = Ret tt /\
  isLockedOut (exec (maintenanceTick now) s) = standby /\
  globalState (exec (maintenanceTick now) s)
  = if standby then globalState s
    else <[ping_key ide := VNum now]> (<[lock_key ide := me]> (globalState s)).
Proof.
  intros He Hc. unfold maintenanceTick. munfold. simpl.
  rewrite He. simpl. rewrite Hc. simpl.
  destruct (truthy (memento_get (globalState s) (lock_key (currentIDE s)))
            && strict_ne _ _) eqn:Hh; simpl.
  - destruct (truthy (memento_get (globalState s) (ping_key (currentIDE s)))
              && js_lt _ _) eqn:Hp; simpl.
    + destruct (isLockedOut s) eqn:Hl; simpl; auto.
    + destruct (isLockedOut s) eqn:Hl; unfold updateStatusBar; munfold; simpl;
        rewrite syncSessions_run; simpl; rewrite ?Hl;
        destruct (cdpHandler s); simpl; auto.
  - destruct (isLockedOut s) eqn:Hl; unfold updateStatusBar; munfold; simpl;
      rewrite syncSessions_run; simpl; rewrite ?Hl;
      destruct (cdpHandler s); simpl; auto.
Qed.

Lemma strict_ne_str (a : value) (x : string) :
  strict_ne a (VStr x) = negb (bool_decide (a = VStr x)).
Proof.
  unfold strict_ne, strict_eq. by destruct a.
Qed.

(** C1, as the code has it: an enabled instance that finds no holder, or
    itself as holder, or no heartbeat, or a heartbeat at least fifteen
    seconds old, writes its own identifier and the current time to the two
    lease keys and leaves standby; an instance that finds another holder
    with a heartbeat less than fifteen seconds old enters standby and
    leaves the store as it found it. *)
Theorem lease_check_fifteen_seconds (s : state) (c : ExtensionContext) (now : Z) :
  truthy (isEnabled s) = true ->
  globalContext s = Some c ->
  let self := VStr (extension_id c) in
  let holder := memento_get (globalState s) (lock_key (currentIDE s)) in
  let lastPing := memento_get (globalState s) (ping_key (currentIDE s)) in
  let s' := exec (maintenanceTick now) s in
  (truthy holder = false \/ holder = self \/ truthy lastPing = false
   \/ (exists p, lastPing = VNum p /\ 15000 <= now - p) ->
   globalState s'
   = <[ping_key (currentIDE s) := VNum now]>
       (<[lock_key (currentIDE s) := self]> (globalState s))
   /\ isLockedOut s' = false) /\
  (truthy holder = true /\ holder <> self
   /\ (exists p, lastPing = VNum p /\ p <> 0 /\ now - p < 15000) ->
   globalState s' = globalState s /\ isLockedOut s' = true).
Proof.
  intros He Hc self holder lastPing s'.
  destruct (maintenanceTick_lease s c now He Hc) as (_ & Hl & Hg).
  fold self holder lastPing s' in Hl, Hg. rewrite Hl, Hg.
  unfold self. rewrite strict_ne_str. fold self.
  split.
  - intros [H | [H | [H | (p & Hp & Hlt)]]].
    + by rewrite H.
    + rewrite (bool_decide_eq_true_2 _ H). simpl. by rewrite andb_false_r.
    + rewrite H. simpl. by rewrite andb_false_r.
    + rewrite Hp. unfold js_lt. simpl.
      destruct (Z.ltb_spec (now - p) 15000); [lia|].
      by rewrite !andb_false_r.
  - intros (Hh & Hne & p & Hp & Hp0 & Hlt).
    rewrite Hh, (bool_decide_eq_false_2 _ Hne), Hp. unfold js_lt. simpl.
    destruct (Z.eqb_spec p 0); [done|].
    destruct (Z.ltb_spec (now - p) 15000); [done | lia].
Qed.

Lemma lease_check_fifteen_seconds_witness :
  let s' := exec (maintenanceTick 12500) (enabled_window window_A "k3x9f2" held_by_B) in
  globalState s' = held_by_B /\ isLockedOut s' = true.
Proof.
  apply (proj2 (lease_check_fifteen_seconds
                  (enabled_window window_A "k3x9f2" held_by_B) window_A 12500
                  eq_refl eq_refl)).
  split; [reflexivity|]. split; [discriminate|].
  exists 1000. split; [reflexivity|]. split; [discriminate | reflexivity].
Defined.

(** C1 as stated does not hold: with window B's heartbeat 11.5 s old,
    more than the ten seconds of the specification, window A still
    stands by and writes nothing. *)
Lemma lease_check_as_specified_fails : ~ lease_check_as_specified.
Proof.
  intros H.
  destruct (H (enabled_window window_A "k3x9f2" held_by_B) window_A 12500 1000
              (VStr "window-B") eq_refl eq_refl eq_refl eq_refl)
    as [H1 _].
  destruct H1 as [_ Hl]; [right; unfold LEASE_TTL; lia|].
  vm_compute in Hl. discriminate.
Qed.

(** ** LeaseManager: several windows *)

(** A window whose identifier is the one the store names as holder, or
    that finds no holder, takes the lease whatever the heartbeat says. *)
Lemma maintenanceTick_own_or_free s c now :
  truthy (isEnabled s) = true ->
  globalContext s = Some c ->
  (globalState s !! lock_key (currentIDE s) = None
   \/ globalState s !! lock_key (currentIDE s) = Some (VStr (extension_id c))) ->
  isLockedOut (exec (maintenanceTick now) s) = false
  /\ globalState (exec (maintenanceTick now) s) !! lock_key (currentIDE s)
     = Some (VStr (extension_id c)).
Proof.
  intros He Hc Hs.
  destruct (maintenanceTick_lease s c now He Hc) as (_ & Hl & Hg).
  rewrite Hl, Hg. clear Hl Hg. rewrite strict_ne_str.
  assert (E : truthy (memento_get (globalState s) (lock_key (currentIDE s)))
              && negb (bool_decide
                   (memento_get (globalState s) (lock_key (currentIDE s))
                    = VStr (extension_id c))) = false).
  { unfold memento_get. destruct Hs as [-> | ->]; [done|].
    rewrite bool_decide_eq_true_2 by done. apply andb_false_r. }
  rewrite E. simpl. split; [done|].
  rewrite lookup_insert_ne by (apply not_eq_sym, lock_key_ne_ping_key).
  apply lookup_insert_eq.
Qed.

(** C2 fails on the code when the windows carry the same
    [context.extension.id]: over eight alternating ticks spanning sixteen
    seconds, with no two ticks overlapping, both windows report
    themselves leader at every one of their ticks. *)
Theorem same_extension_id_two_leaders :
  reports alternating two_windows
  = [ (0%nat, 1000, true); (1%nat, 2000, true); (0%nat, 6000, true);
      (1%nat, 7000, true); (0%nat, 11000, true); (1%nat, 12000, true);
      (0%nat, 16000, true); (1%nat, 17000, true) ].
Proof. vm_compute. reflexivity. Qed.

(** ** LeaseManager: windows with distinct identifiers *)

Lemma maintenanceTick_window now s :
  let s' := exec (maintenanceTick now) s in
  isEnabled s' = isEnabled s /\ currentIDE s' = currentIDE s
  /\ globalContext s' = globalContext s.
Proof.
  assert (H : preserves (fun s' => isEnabled s' = isEnabled s
                                   /\ currentIDE s' = currentIDE s
                                   /\ globalContext s' = globalContext s)
                (maintenanceTick now)).
  { repeat preserve_step frame_leaf. }
  by apply H.
Qed.

Lemma window_ok_tick ide now store w :
  window_ok ide w ->
  window_ok ide (exec (maintenanceTick now) (set_globalState (fun _ => store) w)).
Proof.
  intros (He & Hi & c & Hc & Hne).
  destruct (maintenanceTick_window now (set_globalState (fun _ => store) w))
    as (He' & Hi' & Hc').
  unfold window_ok. rewrite He', Hi', Hc'. simpl. eauto.
Qed.

Lemma distinct_windows_tick ide now store ws i w :
  distinct_windows ide ws ->
  ws !! i = Some w ->
  distinct_windows ide
    (<[i := exec (maintenanceTick now) (set_globalState (fun _ => store) w)]> ws).
Proof.
  intros [Hok Hd] Hi.
  set (w' := exec (maintenanceTick now) (set_globalState (fun _ => store) w)).
  assert (Hc' : globalContext w' = globalContext w).
  { by destruct (maintenanceTick_window now (set_globalState (fun _ => store) w))
      as (_ & _ & ?). }
  split.
  - apply Forall_insert; [done|]. apply window_ok_tick.
    by eapply Forall_lookup_1 in Hok.
  - intros j1 j2 w1 w2 H1 H2 Hc.
    assert (Hat : forall j v, <[i := w']> ws !! j = Some v ->
                  exists u, ws !! j = Some u /\ globalContext u = globalContext v).
    { intros j v Hj. destruct (decide (i = j)) as [<-|Hne].
      - rewrite list_lookup_insert_eq in Hj by (by eapply lookup_lt_Some).
        injection Hj as <-. by exists w.
      - rewrite list_lookup_insert_ne in Hj by done. by exists v. }
    destruct (Hat _ _ H1) as (u1 & Hu1 & E1).
    destruct (Hat _ _ H2) as (u2 & Hu2 & E2).
    apply (Hd j1 j2 u1 u2 Hu1 Hu2). congruence.
Qed.

(** One tick of a window of a well-formed system. *)
Lemma tick_window_lease ide sys i t w :
  window_ok ide w ->
  windows sys !! i = Some w ->
  exists c,
    globalContext w = Some c /\
    let holder := memento_get (durable sys) (lock_key ide) in
    let ping := memento_get (durable sys) (ping_key ide) in
    let standby :=
      truthy holder && strict_ne holder (VStr (extension_id c))
      && (truthy ping && js_lt (js_sub (VNum t) ping) (VNum 15000)) in
    leads i (tick_window i t sys) = negb standby /\
    durable (tick_window i t sys)
    = if standby then durable sys
      else <[ping_key ide := VNum t]>
             (<[lock_key ide := VStr (extension_id c)]> (durable sys)).
Proof.
  intros (He & Hi & c & Hc & Hne) Hw. exists c. split; [done|].
  unfold tick_window, leads. rewrite Hw. simpl.
  rewrite list_lookup_insert_eq by (by eapply lookup_lt_Some).
  destruct (maintenanceTick_lease (set_globalState (fun _ => durable sys) w) c t)
    as (_ & Hl & Hg); [done | done |].
  simpl in Hl, Hg. rewrite Hi in Hl, Hg. by rewrite Hl, Hg.
Qed.

Lemma context_eq (c c' : ExtensionContext) : extension_id c = extension_id c' -> c = c'.
Proof. destruct c, c'; simpl; congruence. Qed.

Lemma tick_window_windows sys i t w :
  windows sys !! i = Some w ->
  windows (tick_window i t sys)
  = <[i := exec (maintenanceTick t) (set_globalState (fun _ => durable sys) w)]>
      (windows sys).
Proof. intros Hw. unfold tick_window. by rewrite Hw. Qed.

Lemma tick_window_context sys i t j w :
  windows sys !! j = Some w ->
  exists w', windows (tick_window i t sys) !! j = Some w'
             /\ globalContext w' = globalContext w.
Proof.
  intros Hj. destruct (windows sys !! i) as [wi|] eqn:Hi.
  - rewrite (tick_window_windows sys i t wi Hi).
    destruct (decide (i = j)) as [<-|Hne].
    + rewrite list_lookup_insert_eq by (by eapply lookup_lt_Some).
      eexists; split; [done|].
      assert (wi = w) as -> by congruence.
      by destruct (maintenanceTick_window t (set_globalState (fun _ => durable sys) w))
        as (_ & _ & ?).
    + rewrite list_lookup_insert_ne by done. by exists w.
  - unfold tick_window. rewrite Hi. by exists w.
Qed.

(** A window that takes the lease while another one is the latest leader
    does so at least fifteen seconds after that leader's heartbeat. *)
Lemma takeover_is_late ide sys hist i t w c :
  distinct_windows ide (windows sys) ->
  held_by_latest ide sys hist ->
  windows sys !! i = Some w ->
  globalContext w = Some c ->
  truthy (memento_get (durable sys) (lock_key ide))
  && strict_ne (memento_get (durable sys) (lock_key ide)) (VStr (extension_id c))
  && (truthy (memento_get (durable sys) (ping_key ide))
      && js_lt (js_sub (VNum t) (memento_get (durable sys) (ping_key ide)))
           (VNum 15000)) = false ->
  hist = [] \/
  exists i0 t0, (i0, t0) ∈ hist /\ (forall j t', (j, t') ∈ hist -> t' <= t0)
                /\ (i0 = i \/ 15000 <= t - t0).
Proof.
  intros [Hok Hd] [-> | (i0 & t0 & w0 & c0 & Hin & Hw0 & Hc0 & Hl & Hp & Ht0 & Hmax)]
    Hw Hc Hs; [by left|].
  right. exists i0, t0. split; [done|]. split; [done|].
  unfold memento_get in Hs. rewrite Hl, Hp in Hs. rewrite strict_ne_str in Hs.
  assert (Hne : extension_id c0 <> "").
  { eapply Forall_lookup_1 in Hok; [|exact Hw0].
    destruct Hok as (_ & _ & c' & Hc' & ?). congruence. }
  simpl in Hs.
  assert (E1 : String.eqb (extension_id c0) "" = false) by by apply String.eqb_neq.
  assert (E2 : (t0 =? 0) = false) by (apply Z.eqb_neq; lia).
  rewrite E1, E2 in Hs. simpl in Hs.
  destruct (decide (VStr (extension_id c0) = VStr (extension_id c))) as [Hid|Hid].
  - left. apply (Hd i0 i w0 w Hw0 Hw). rewrite Hc0, Hc. f_equal.
    apply context_eq. congruence.
  - right. rewrite (bool_decide_eq_false_2 _ Hid) in Hs.
    unfold js_lt in Hs. simpl in Hs.
    destruct (Z.ltb_spec (t - t0) 15000); [done | lia].
Qed.

Lemma leaders_apart_inv ide sched : forall lo hist sys,
  0 < lo ->
  distinct_windows ide (windows sys) ->
  (forall j t', (j, t') ∈ hist -> t' <= lo) ->
  apart 15000 hist ->
  held_by_latest ide sys hist ->
  monotone lo sched ->
  apart 15000 (hist ++ leader_reports sched sys).
Proof.
  induction sched as [|[i t] rest IH]; intros lo hist sys Hlo Hd Hle Hap Hheld Hmono.
  { simpl. by rewrite app_nil_r. }
  destruct Hmono as [Hlt Hrest]. simpl.
  destruct (windows sys !! i) as [w|] eqn:Hw.
  2:{ assert (Hsame : tick_window i t sys = sys) by (unfold tick_window; by rewrite Hw).
      rewrite Hsame. unfold leads. rewrite Hw. simpl.
      apply (IH t); try done; [lia|]. intros j t' Hin. specialize (Hle j t' Hin). lia. }
  assert (Hok : window_ok ide w).
  { destruct Hd as [Hok _]. by eapply Forall_lookup_1 in Hok. }
  destruct (tick_window_lease ide sys i t w Hok Hw) as (c & Hc & Hleads & Hdur).
  assert (Hd' : distinct_windows ide (windows (tick_window i t sys))).
  { rewrite (tick_window_windows sys i t w Hw). by apply distinct_windows_tick. }
  destruct (truthy (memento_get (durable sys) (lock_key ide)) && _ && _) eqn:Hs;
    rewrite Hleads; simpl in *.
  - (* standby: the store and the history are as before *)
    apply (IH t); try done; [lia | |].
    + intros j t' Hin. specialize (Hle j t' Hin). lia.
    + destruct Hheld as [-> | (i0 & t0 & w0 & c0 & Hin & Hw0 & Hc0 & Hl & Hp & Ht0 & Hmax)];
        [by left|].
      right. destruct (tick_window_context sys i t i0 w0 Hw0) as (w0' & Hw0' & Hc0').
      exists i0, t0, w0', c0. rewrite Hdur. repeat split; try done. congruence.
  - (* leader: one more report *)
    rewrite cons_middle, app_assoc.
    destruct (takeover_is_late ide sys hist i t w c Hd Hheld Hw Hc Hs) as [Hnil | Hlate].
    + subst hist. apply (IH t); try done; [lia | | |].
      * intros j t' Hin. apply list_elem_of_singleton in Hin. injection Hin as -> ->. lia.
      * intros i1 t1 i2 t2 H1 H2 Hne.
        apply list_elem_of_singleton in H1, H2. congruence.
      * right. destruct (tick_window_context sys i t i w Hw) as (w' & Hw' & Hc').
        exists i, t, w', c. rewrite Hdur.
        rewrite lookup_insert_ne by (apply not_eq_sym, lock_key_ne_ping_key).
        rewrite !lookup_insert_eq.
        repeat split; try done;
          [apply elem_of_app; right; by apply list_elem_of_singleton | congruence | lia |].
        intros j t' Hin. apply list_elem_of_singleton in Hin. injection Hin as -> ->. lia.
    + destruct Hlate as (i0 & t0 & Hin0 & Hmax & Hcase).
      assert (Hnew : forall j t', (j, t') ∈ hist -> j <> i -> 15000 <= t - t').
      { intros j t' Hin Hne. pose proof (Hmax j t' Hin) as Hm.
        pose proof (Hle i0 t0 Hin0) as Hl0.
        destruct Hcase as [Heq | Hgap]; [|lia].
        pose proof (Hap i0 t0 j t' Hin0 Hin ltac:(congruence)) as Habs. lia. }
      apply (IH t); try done; [lia | | |].
      * intros j t' Hin. apply elem_of_app in Hin as [Hin | Hin].
        -- specialize (Hle j t' Hin). lia.
        -- apply list_elem_of_singleton in Hin. injection Hin as -> ->. lia.
      * intros i1 t1 i2 t2 H1 H2 Hne.
        apply elem_of_app in H1 as [H1 | H1]; apply elem_of_app in H2 as [H2 | H2].
        -- by apply (Hap i1 t1 i2 t2).
        -- apply list_elem_of_singleton in H2. injection H2 as -> ->.
           pose proof (Hnew i1 t1 H1 Hne). lia.
        -- apply list_elem_of_singleton in H1. injection H1 as -> ->.
           pose proof (Hnew i2 t2 H2 ltac:(congruence)). lia.
        -- apply list_elem_of_singleton in H1, H2. congruence.
      * right. destruct (tick_window_context sys i t i w Hw) as (w' & Hw' & Hc').
        exists i, t, w', c. rewrite Hdur.
        rewrite lookup_insert_ne by (apply not_eq_sym, lock_key_ne_ping_key).
        rewrite !lookup_insert_eq.
        repeat split; try done;
          [apply elem_of_app; right; by apply list_elem_of_singleton | congruence | lia |].
        intros j t' Hin. apply elem_of_app in Hin as [Hin | Hin].
        -- specialize (Hle j t' Hin). lia.
        -- apply list_elem_of_singleton in Hin. injection Hin as -> ->. lia.
Qed.



(** ** LeaseManager: windows with the same identifier *)

(** X2: when every window carries the same identifier, and the lease is
    free or held under that identifier, then whatever the schedule every
    tick of every window ends as leader. *)
Lemma same_id_always_leads ide c sched : forall sys,
  same_id_windows ide c (windows sys) ->
  (durable sys !! lock_key ide = None
   \/ durable sys !! lock_key ide = Some (VStr (extension_id c))) ->
  (forall i t, (i, t) ∈ sched -> (i < length (windows sys))%nat) ->
  forall i t b, (i, t, b) ∈ reports sched sys -> b = true.
Proof.
  induction sched as [|[i t] rest IH]; intros sys Hws Hlock Hin j u b Hr; simpl in Hr.
  { by apply elem_of_nil in Hr. }
  destruct (lookup_lt_is_Some_2 (windows sys) i) as [w Hw].
  { apply (Hin i t). by left. }
  pose proof (Forall_lookup_1 _ _ _ _ Hws Hw) as (He & Hide & Hc).
  destruct (maintenanceTick_own_or_free (set_globalState (fun _ => durable sys) w) c t)
    as [Hl Hg]; [done | done | simpl; by rewrite Hide |].
  simpl in Hl, Hg. rewrite Hide in Hg.
  destruct (maintenanceTick_window t (set_globalState (fun _ => durable sys) w))
    as (He' & Hi' & Hc'). simpl in He', Hi', Hc'.
  apply elem_of_cons in Hr as [Hr | Hr].
  - injection Hr as -> -> ->. unfold leads, tick_window. rewrite Hw. simpl.
    rewrite list_lookup_insert_eq by (by eapply lookup_lt_Some). by rewrite Hl.
  - apply (IH (tick_window i t sys)) with (i := j) (t := u); [| | |done].
    + rewrite (tick_window_windows sys i t w Hw). apply Forall_insert; [done|].
      rewrite He', Hi', Hc'. auto.
    + unfold tick_window. rewrite Hw. simpl. by right.
    + intros i' t' Hin'. rewrite (tick_window_windows sys i t w Hw), length_insert.
      apply (Hin i' t'). by right.
Qed.

Lemma same_id_always_leads_witness :
  Forall (fun r => r.2 = true) (reports alternating two_windows).
Proof.
  apply Forall_forall. intros [[i t] b] Hr. simpl.
  apply (same_id_always_leads "Cursor" sample_context alternating two_windows)
    with (i := i) (t := t); [repeat constructor | by left | | exact Hr].
  intros i' t' Hin. simpl.
  repeat (apply elem_of_cons in Hin as [[= -> ->] | Hin]; [lia|]).
  by apply elem_of_nil in Hin.
Defined.

(** ** LeaseManager: the unused [checkInstanceLock] *)

(** X3: [checkInstanceLock], which no code calls, follows a ten-second
    protocol under [INSTANCE_ID] for a user who is not pro: with no holder
    recorded, or a heartbeat more than ten seconds old, it takes the lease
    and answers [true]; as the holder it renews the heartbeat and answers
    [true]; otherwise it answers [false] and writes nothing. *)
Lemma checkInstanceLock_ten_seconds s c now h :
  truthy (_isPro s) = false ->
  globalContext s = Some c ->
  memento_get_or (globalState s) HEARTBEAT_KEY (VNum 0) = VNum h ->
  let lockId := memento_get (globalState s) LOCK_KEY in
  let me := VStr (INSTANCE_ID s) in
  (truthy lockId = false \/ 10000 < now - h ->
   checkInstanceLock now s
   = (Ret true,
      set_globalState (fun m => <[HEARTBEAT_KEY := VNum now]> (<[LOCK_KEY := me]> m)) s))
  /\ (truthy lockId = true -> now - h <= 10000 -> lockId = me ->
      checkInstanceLock now s
      = (Ret true, set_globalState (fun m => <[HEARTBEAT_KEY := VNum now]> m) s))
  /\ (truthy lockId = true -> now - h <= 10000 -> lockId <> me ->
      checkInstanceLock now s = (Ret false, s)).
Proof.
  intros Hp Hc Hh lockId me. unfold checkInstanceLock. munfold. simpl.
  rewrite Hp, Hc. simpl. rewrite Hh. fold lockId. unfold js_gt, js_lt. simpl.
  repeat split.
  - intros [Hl | Hlt].
    + by rewrite Hl.
    + destruct (Z.ltb_spec 10000 (now - h)); [|lia]. by rewrite orb_true_r.
  - intros Hl Hle ->. simpl in *. rewrite Hl. simpl.
    destruct (Z.ltb_spec 10000 (now - h)); [lia|].
    unfold strict_eq. simpl. by rewrite bool_decide_eq_true_2.
  - intros Hl Hle Hne. rewrite Hl. simpl.
    destruct (Z.ltb_spec 10000 (now - h)); [lia|].
    assert (E : strict_eq lockId me = false).
    { unfold strict_eq. destruct lockId; try done. by rewrite bool_decide_eq_false_2. }
    unfold me in E. by rewrite E.
Qed.

Lemma checkInstanceLock_ten_seconds_witness :
  checkInstanceLock 12500 (enabled_window window_A "k3x9f2" ∅)
  = (Ret true,
     set_globalState
       (fun m => <[HEARTBEAT_KEY := VNum 12500]> (<[LOCK_KEY := VStr "k3x9f2"]> m))
       (enabled_window window_A "k3x9f2" ∅)).
Proof.
  destruct (checkInstanceLock_ten_seconds (enabled_window window_A "k3x9f2" ∅)
              window_A 12500 0) as (H & _); [reflexivity | reflexivity | reflexivity |].
  apply H. by left.
Defined.

Lemma checkInstanceLock_pro s now :
  truthy (_isPro s) = true -> checkInstanceLock now s = (Ret true, s).
Proof. intros Hp. unfold checkInstanceLock. munfold. simpl. by rewrite Hp. Qed.
(** ** VerificationRetryEngine: the polling session *)

Lemma count_effect_app e s l :
  count_effect e (set_effects (fun l0 => l0 ++ l) s)
  = (count_effect e s + length (filter (fun x => x = e) l))%nat.
Proof. unfold count_effect. simpl. by rewrite filter_app, length_app. Qed.

(** [verifyLicense] records the call, may send one request and may store
    the plan; nothing else changes. *)
Lemma verifyLicense_run r s :
  exists v l g,
    verifyLicense r s
    = (Ret v, set_globalState (fun _ => g)
                (set_effects (fun l0 => l0 ++ VerifyLicenseCalled :: l) s))
    /\ (l = [] \/ exists u, l = [HttpsGet "check-license" u])
    /\ (forall k, k <> PLAN_KEY -> g !! k = globalState s !! k).
Proof.
  pose (u := memento_get (globalState s) USER_ID_KEY).
  unfold verifyLicense. munfold. simpl.
  destruct (_context s) as [c|] eqn:Hc; simpl.
  2:{ exists (VBool false), [], (globalState s). split; [by destruct s|]. auto. }
  destruct (truthy (memento_get (globalState s) USER_ID_KEY)) eqn:Hu; simpl.
  2:{ exists (VBool false), [], (globalState s). split; [by destruct s|]. auto. }
  unfold resolveLicense. munfold.
  destruct r as [| |plan isPro]; simpl.
  - exists (VBool false), [HttpsGet "check-license" u], (globalState s).
    split; [|eauto]. unfold set_effects, set_globalState. simpl.
    do 2 f_equal. by rewrite <- app_assoc.
  - exists (VBool false), [HttpsGet "check-license" u], (globalState s).
    split; [|eauto]. unfold set_effects, set_globalState. simpl.
    do 2 f_equal. by rewrite <- app_assoc.
  - rewrite Hc. simpl. rewrite andb_true_r.
    destruct (truthy plan) eqn:Hp; simpl.
    + destruct plan eqn:Eplan; simpl in Hp; try done;
        (eexists _, [HttpsGet "check-license" u],
           (memento_update (globalState s) PLAN_KEY plan);
         split; [|split; [eauto | by intros k Hk; rewrite memento_update_ne]];
         unfold set_effects, set_globalState; subst plan; simpl;
         f_equal; f_equal; by rewrite <- app_assoc).
    + eexists _, [HttpsGet "check-license" u], (globalState s).
      split; [|eauto]. unfold set_effects, set_globalState. simpl.
      do 2 f_equal. by rewrite <- app_assoc.
Qed.

Lemma verifyLicense_value r s :
  fst (verifyLicense r s)
  = Ret (if is_null (_context s) then VBool false
         else if truthy (memento_get (globalState s) USER_ID_KEY)
              then license_value r else VBool false).
Proof.
  unfold verifyLicense. munfold. simpl.
  destruct (_context s) as [c|] eqn:Hc; simpl; [|done].
  destruct (truthy (memento_get (globalState s) USER_ID_KEY)); simpl; [|done].
  unfold resolveLicense. munfold.
  destruct r as [| |plan isPro]; simpl; [done | done |].
  rewrite Hc. simpl. rewrite andb_true_r.
  destruct (truthy plan) eqn:Hp; simpl; [|done].
  by destruct plan.
Qed.

Lemma probe_succeeds_same s s' r :
  _context s = _context s' ->
  globalState s !! USER_ID_KEY = globalState s' !! USER_ID_KEY ->
  probe_succeeds s r = probe_succeeds s' r.
Proof.
  intros Hc Hu. unfold probe_succeeds. rewrite !verifyLicense_value.
  unfold memento_get. by rewrite Hc, Hu.
Qed.

Lemma find_timer_cleared id s :
  find_timer id (set_timers (filter (fun t => timer_id t <> id)) s) = None.
Proof.
  unfold find_timer. simpl. induction (timers s) as [|t l IH]; [done|].
  rewrite filter_cons. case_decide; simpl; [|done].
  by rewrite bool_decide_eq_false_2.
Qed.

Lemma find_timer_cleared_other id id' s :
  id' <> id ->
  find_timer id' (set_timers (filter (fun t => timer_id t <> id)) s) = find_timer id' s.
Proof.
  unfold find_timer. simpl. intros Hne. induction (timers s) as [|t l IH]; [done|].
  rewrite filter_cons. case_decide; simpl; rewrite IH; [done|].
  rewrite bool_decide_eq_false_2; [done | congruence].
Qed.

Lemma find_timer_none_cleared id h s :
  find_timer id s = None -> find_timer id (exec (clearInterval h) s) = None.
Proof.
  intros H. destruct h as [id'|]; [|done]. unfold clearInterval. munfold. simpl.
  destruct (decide (id = id')) as [->|Hne]; [apply find_timer_cleared|].
  by rewrite find_timer_cleared_other.
Qed.

(** *** What the activation callback leaves alone *)

Lemma count_emit_ne e e' n :
  e' <> e -> preserves (fun s => count_effect e s = n) (emit e').
Proof.
  intros Hne s H. unfold emit. munfold. simpl.
  rewrite count_effect_app. simpl. rewrite filter_cons, decide_False by done.
  simpl. lia.
Qed.

Ltac count_leaf := first [ apply count_emit_ne; discriminate | frame_leaf ].

Lemma find_none_app {A} (p : A -> bool) (l l' : list A) :
  List.find p l = None -> List.find p (l ++ l') = List.find p l'.
Proof.
  induction l as [|x l IH]; simpl; [done|]. destruct (p x); [done | apply IH].
Qed.

Lemma retired_setInterval id t i : preserves (retired id) (setInterval t i).
Proof.
  intros s [Hf Hlt]. split; simpl; [|lia].
  unfold find_timer in *. simpl. rewrite find_none_app by done. simpl.
  rewrite bool_decide_eq_false_2; [done | lia].
Qed.

Lemma retired_clearInterval id h : preserves (retired id) (clearInterval h).
Proof.
  intros s [Hf Hlt]. split; [by apply find_timer_none_cleared | by destruct h].
Qed.

Ltac retired_leaf :=
  first [ apply retired_setInterval | apply retired_clearInterval | frame_leaf ].

Section Callback.

Variable e : effect.
Variable n : nat.
Variable id : nat.
Hypothesis not_start : forall cfg, e <> CdpStart cfg.
Hypothesis not_status : e <> UpdateStatusBar.
Hypothesis not_commands : forall l, e <> ExecuteCommands l.
Hypothesis not_cdp : forall v, e <> CdpSetProStatus v.
Hypothesis not_relaunch : e <> EnsureCDPAndRelaunch.

Let C : state -> Prop := fun s => count_effect e s = n.

Ltac callback_count_leaf :=
  first [ apply count_emit_ne; auto | frame_leaf ].

Lemma onProActivated_count now a : preserves C (onProActivated now a).
Proof using not_start not_status not_commands not_cdp not_relaunch.
  unfold C. repeat preserve_step callback_count_leaf.
Qed.

Lemma onProActivated_retired now a : preserves (retired id) (onProActivated now a).
Proof using Type. repeat preserve_step retired_leaf. Qed.

End Callback.

(** *** One fire of the session timer *)

Lemma fire_live id e s tm :
  find_timer id s = Some tm ->
  timer_task tm = ProPollingTick ->
  fire id e s = proPollingTick (callbacks e) (license e) s.
Proof. intros Hf Ht. unfold fire. munfold. simpl. by rewrite Hf, Ht. Qed.

Lemma fire_dead id e s : find_timer id s = None -> fire id e s = (Ret tt, s).
Proof. intros Hf. unfold fire. munfold. simpl. by rewrite Hf. Qed.

Lemma step_dead context id e s :
  find_timer id s = None -> exec (step context (TimerFired id) e) s = s.
Proof. intros Hf. unfold step. munfold. by rewrite fire_dead. Qed.

Lemma session_fires_dead context id envs s :
  find_timer id s = None -> session_fires context id envs s = s.
Proof.
  intros Hf. unfold session_fires. induction envs as [|e envs IH]; [done|].
  simpl. by rewrite step_dead.
Qed.

Lemma probe_succeeds_truthy r s v s' :
  verifyLicense r s = (Ret v, s') -> probe_succeeds s r = truthy v.
Proof. intros H. unfold probe_succeeds. by rewrite H. Qed.

Lemma count_effect_probe_log e s g l :
  (forall ep u, e <> HttpsGet ep u) ->
  (l = [] \/ exists u, l = [HttpsGet "check-license" u]) ->
  count_effect e (set_globalState g (set_effects (fun l0 => l0 ++ VerifyLicenseCalled :: l) s))
  = (count_effect e s + if bool_decide (e = VerifyLicenseCalled) then 1 else 0)%nat.
Proof.
  intros He Hl. unfold count_effect. simpl. rewrite filter_app, length_app.
  f_equal. rewrite filter_cons.
  assert (Hl' : filter (fun x => x = e) l = []).
  { destruct Hl as [-> | [u ->]]; [done|].
    rewrite filter_cons, decide_False; [done|]. intros E. by eapply He. }
  rewrite Hl'. by destruct (decide (VerifyLicenseCalled = e)) as [<-|Hne];
    rewrite ?bool_decide_eq_true_2, ?bool_decide_eq_false_2 by done.
Qed.

(** A failing probe leaves the session polling, one attempt later. *)
Lemma polling_fail context s1 id a e s :
  polling s1 id a s ->
  (a < 24)%nat ->
  probe_succeeds s1 (license e) = false ->
  polling s1 id (S a) (exec (step context (TimerFired id) e) s).
Proof.
  intros (Ht & (tm & Hf & Htask) & Hid & Ha & Hc & Hu & Hp & Hx & Hs) Hlt Hfail.
  unfold step, exec, try_catch. rewrite (fire_live id e s tm Hf Htask).
  unfold proPollingTick. munfold. simpl. rewrite Ha.
  unfold MAX_PRO_POLLING_ATTEMPTS.
  destruct (Z.gtb_spec (Z.of_nat a + 1) 24) as [|_]; [lia|].
  set (s2 := set__proPollingAttempts (Z.of_nat a + 1) s).
  destruct (verifyLicense_run (license e) s2) as (v & l & g & Hrun & Hl & Hg).
  rewrite Hrun.
  assert (Hv : truthy v = false).
  { rewrite <- (probe_succeeds_truthy _ _ _ _ Hrun), <- Hfail.
    apply probe_succeeds_same; simpl; congruence. }
  rewrite Hv. simpl.
  unfold polling, probes, exhausted, succeeded.
  rewrite !count_effect_probe_log by done. simpl.
  unfold probes, exhausted, succeeded in *.
  split; [done|]. split; [by exists tm|]. split; [done|]. split; [lia|].
  split; [done|]. split; [by rewrite Hg|].
  change (count_effect ?x s2) with (count_effect x s).
  repeat split; lia.
Qed.

(** After the twenty-fourth failure the next fire stops the session and
    reports it exhausted, without a probe. *)
Lemma polling_exhaust context s1 id e s :
  polling s1 id 24 s ->
  let s' := exec (step context (TimerFired id) e) s in
  stopped id s' /\ probes s' = (probes s1 + 24)%nat
  /\ exhausted s' = S (exhausted s1) /\ succeeded s' = succeeded s1.
Proof.
  intros (Ht & (tm & Hf & Htask) & Hid & Ha & Hc & Hu & Hp & Hx & Hs).
  unfold step, exec, try_catch. rewrite (fire_live id e s tm Hf Htask).
  unfold proPollingTick. munfold. simpl. rewrite Ha. simpl. rewrite Ht.
  unfold clearInterval. munfold. simpl.
  unfold stopped, probes, exhausted, succeeded in *.
  split; [split; [apply find_timer_cleared | done]|].
  unfold count_effect in *. simpl. rewrite !filter_app, !length_app. simpl.
  rewrite Hp, Hx, Hs. repeat split; lia.
Qed.

(** A succeeding probe stops the session and reports success. *)
Lemma polling_success context s1 id a e s :
  polling s1 id a s ->
  (a < 24)%nat ->
  probe_succeeds s1 (license e) = true ->
  let s' := exec (step context (TimerFired id) e) s in
  find_timer id s' = None /\ probes s' = (probes s1 + S a)%nat
  /\ exhausted s' = exhausted s1 /\ succeeded s' = S (succeeded s1).
Proof.
  intros (Ht & (tm & Hf & Htask) & Hid & Ha & Hc & Hu & Hp & Hx & Hs) Hlt Hok.
  unfold step, exec, try_catch. rewrite (fire_live id e s tm Hf Htask).
  unfold proPollingTick. munfold. simpl. rewrite Ha.
  unfold MAX_PRO_POLLING_ATTEMPTS.
  destruct (Z.gtb_spec (Z.of_nat a + 1) 24) as [|_]; [lia|].
  set (s2 := set__proPollingAttempts (Z.of_nat a + 1) s).
  destruct (verifyLicense_run (license e) s2) as (v & l & g & Hrun & Hl & Hg).
  rewrite Hrun.
  assert (Hsame : probe_succeeds s2 (license e) = true).
  { rewrite <- Hok. apply probe_succeeds_same; simpl; congruence. }
  assert (Hv : truthy v = true).
  { by rewrite <- (probe_succeeds_truthy _ _ _ _ Hrun). }
  assert (Hctx : exists c, _context s = Some c).
  { unfold probe_succeeds in Hsame. rewrite verifyLicense_value in Hsame.
    simpl in Hsame. destruct (_context s); [by eexists | done]. }
  destruct Hctx as [c Hctx].
  rewrite Hv. simpl. rewrite Ht. unfold clearInterval. munfold. simpl.
  rewrite Hctx.
  set (s3 := set_globalState _ _).
  assert (H3 : retired id s3
               /\ count_effect VerifyLicenseCalled s3 = (probes s1 + S a)%nat
               /\ count_effect (ShowWarning MsgVerificationSlow) s3 = exhausted s1
               /\ count_effect (ShowInformation MsgProActivated) s3 = succeeded s1).
  { split; [split; [apply find_timer_cleared | done]|].
    unfold s3, probes, exhausted, succeeded in *.
    change (count_effect ?x (set_globalState ?f (set__isPro ?p
              (set__proPollingTimer ?t (set_timers ?h ?s0)))))
      with (count_effect x s0).
    rewrite !count_effect_probe_log by done. simpl.
    change (count_effect ?x s2) with (count_effect x s).
    repeat split; lia. }
  destruct H3 as (Hr & H3p & H3x & H3s).
  destruct (onProActivated_total (now e) (cdpAvailable e) s3) as [[] Hret].
  pose proof (onProActivated_retired id (now e) (cdpAvailable e) s3 Hr) as Hr'.
  pose proof (onProActivated_count VerifyLicenseCalled _
                ltac:(done) ltac:(done) ltac:(done) ltac:(done) ltac:(done)
                (now e) (cdpAvailable e) s3 H3p) as Hp'.
  pose proof (onProActivated_count (ShowWarning MsgVerificationSlow) _
                ltac:(done) ltac:(done) ltac:(done) ltac:(done) ltac:(done)
                (now e) (cdpAvailable e) s3 H3x) as Hx'.
  pose proof (onProActivated_count (ShowInformation MsgProActivated) _
                ltac:(done) ltac:(done) ltac:(done) ltac:(done) ltac:(done)
                (now e) (cdpAvailable e) s3 H3s) as Hs'.
  unfold run_callback, callbacks.
  destruct (onProActivated (now e) (cdpAvailable e) s3) as [r s4] eqn:Hcb.
  simpl in *. subst r. simpl.
  unfold probes, exhausted, succeeded.
  split; [apply Hr'|].
  rewrite !count_effect_app. simpl. rewrite Hp', Hx', Hs'.
  unfold probes, exhausted, succeeded. repeat split; lia.
Qed.

(** *** The session from start to stop *)

Lemma find_fresh (l : list timer) (tm : timer) :
  (forall t, t ∈ l -> (timer_id t < timer_id tm)%nat) ->
  List.find (fun t => bool_decide (timer_id t = timer_id tm)) (l ++ [tm]) = Some tm.
Proof.
  intros Hlt. induction l as [|t l IH]; simpl.
  - by rewrite bool_decide_eq_true_2.
  - assert (timer_id t < timer_id tm)%nat by (apply Hlt; by left).
    rewrite bool_decide_eq_false_2 by lia. apply IH. intros; apply Hlt; by right.
Qed.

Lemma find_filtered (l : list timer) (old : nat) :
  List.find (fun t => bool_decide (timer_id t = old))
    (filter (fun t => timer_id t <> old) l) = None.
Proof.
  induction l as [|t l IH]; [done|].
  rewrite filter_cons. case_decide; simpl; [|done].
  by rewrite bool_decide_eq_false_2.
Qed.

Lemma startProPolling_polling s0 :
  handles_allocated s0 ->
  let s1 := exec startProPolling s0 in
  polling s1 (next_timer s0) 0 s1
  /\ (forall old, _proPollingTimer s0 = Some old -> find_timer old s1 = None).
Proof.
  intros [Hall Hold]. unfold startProPolling, setInterval, clearInterval.
  munfold. simpl.
  set (tm := {| timer_id := next_timer s0; timer_task := ProPollingTick;
                timer_interval := VNum 5000 |}).
  destruct (_proPollingTimer s0) as [old|] eqn:Ht; simpl.
  - split.
    + unfold polling; simpl. split; [done|]. split.
      { exists tm. split; [|done]. unfold find_timer; simpl.
        apply (find_fresh _ tm). intros t Hin. simpl.
        apply Hall. by apply list_elem_of_filter in Hin as [_ ?]. }
      repeat split; try done; lia.
    + intros old' [= <-]. unfold find_timer; simpl.
      rewrite find_none_app by apply find_filtered. simpl.
      specialize (Hold old eq_refl). rewrite bool_decide_eq_false_2; [done | lia].
  - split; [|done].
    unfold polling; simpl. split; [done|]. split.
    { exists tm. split; [|done]. unfold find_timer; simpl.
      apply (find_fresh _ tm). intros t Hin. simpl. by apply Hall. }
    repeat split; try done; lia.
Qed.

Lemma polling_fails context s1 id envs : forall a s,
  polling s1 id a s ->
  Forall (fun e => probe_succeeds s1 (license e) = false) envs ->
  (a + length envs <= 24)%nat ->
  polling s1 id (a + length envs) (session_fires context id envs s).
Proof.
  induction envs as [|e envs IH]; intros a s Hp Hall Hlen; simpl in *.
  - by rewrite Nat.add_0_r.
  - apply Forall_cons in Hall as [He Hall].
    replace (a + S (length envs))%nat with (S a + length envs)%nat by lia.
    apply IH; [|done|lia]. apply polling_fail; [done | lia | done].
Qed.

Lemma first_success (f : env -> bool) (n : nat) (envs : list env) :
  Forall (fun e => f e = false) (take n envs)
  \/ exists fails e later,
       envs = fails ++ e :: later /\ Forall (fun e => f e = false) fails
       /\ (length fails < n)%nat /\ f e = true.
Proof.
  revert envs. induction n as [|n IH]; intros envs; [left; by rewrite take_0|].
  destruct envs as [|e envs]; [by left|].
  destruct (f e) eqn:He.
  - right. exists [], e, envs. repeat split; [done | simpl; lia | done].
  - destruct (IH envs) as [H | (fails & e' & later & -> & Hf & Hlen & He')].
    + left. simpl. by constructor.
    + right. exists (e :: fails), e', later.
      repeat split; [by constructor | simpl; lia | done].
Qed.

Lemma session_fires_app context id l l' s :
  session_fires context id (l ++ l') s
  = session_fires context id l' (session_fires context id l s).
Proof.
  unfold session_fires. revert s. induction l as [|e l IH]; intros s; [done|].
  simpl. apply IH.
Qed.

Lemma session_fires_split n context id envs s :
  session_fires context id envs s
  = session_fires context id (drop n envs) (session_fires context id (take n envs) s).
Proof. by rewrite <- session_fires_app, take_drop. Qed.

Lemma session_never_succeeds context s0 envs :
  handles_allocated s0 ->
  let s1 := exec startProPolling s0 in
  let s' := session_fires context (next_timer s0) envs s1 in
  Forall (fun e => probe_succeeds s1 (license e) = false) (take 24 envs) ->
  probes s' = (probes s1 + Nat.min (length envs) 24)%nat
  /\ exhausted s' = (exhausted s1 + if (24 <? length envs)%nat then 1 else 0)%nat
  /\ succeeded s' = succeeded s1
  /\ ((24 < length envs)%nat -> stopped (next_timer s0) s').
Proof.
  intros Hall s1 s' Hfail.
  destruct (startProPolling_polling s0 Hall) as [Hp _]. fold s1 in Hp.
  destruct (Nat.ltb_spec 24 (length envs)) as [Hlen|Hlen].
  - unfold s'. rewrite (session_fires_split 24).
    pose proof (polling_fails context s1 _ (take 24 envs) 0 s1 Hp Hfail) as H24.
    rewrite length_take in H24.
    replace (0 + Nat.min 24 (length envs))%nat with 24%nat in H24 by lia.
    specialize (H24 ltac:(lia)).
    destruct (drop 24 envs) as [|e rest] eqn:Hd.
    { apply (f_equal length) in Hd. rewrite length_drop in Hd. simpl in Hd. lia. }
    change (e :: rest) with ([e] ++ rest). rewrite session_fires_app.
    destruct (polling_exhaust context s1 _ e _ H24) as ([Hdead Hnone] & Hpr & Hex & Hsu).
    change (session_fires context (next_timer s0) [e] ?s)
      with (exec (step context (TimerFired (next_timer s0)) e) s).
    rewrite session_fires_dead by done.
    rewrite Hpr, Hex, Hsu. repeat split; try done; lia.
  - rewrite take_ge in Hfail by lia.
    pose proof (polling_fails context s1 _ envs 0 s1 Hp Hfail ltac:(simpl; lia)) as H.
    destruct H as (_ & _ & _ & _ & _ & _ & Hpr & Hex & Hsu). fold s' in Hpr, Hex, Hsu.
    rewrite Hpr, Hex, Hsu. simpl. repeat split; lia.
Qed.

Lemma session_succeeds context s0 fails e later :
  handles_allocated s0 ->
  let s1 := exec startProPolling s0 in
  let s' := session_fires context (next_timer s0) (fails ++ e :: later) s1 in
  Forall (fun e => probe_succeeds s1 (license e) = false) fails ->
  (length fails < 24)%nat ->
  probe_succeeds s1 (license e) = true ->
  probes s' = (probes s1 + S (length fails))%nat
  /\ succeeded s' = S (succeeded s1)
  /\ exhausted s' = exhausted s1
  /\ find_timer (next_timer s0) s' = None.
Proof.
  intros Hall s1 s' Hfail Hlen Hok.
  destruct (startProPolling_polling s0 Hall) as [Hp _]. fold s1 in Hp.
  unfold s'. rewrite session_fires_app.
  change (e :: later) with ([e] ++ later). rewrite session_fires_app.
  pose proof (polling_fails context s1 _ fails 0 s1 Hp Hfail ltac:(simpl; lia)) as H.
  simpl in H.
  destruct (polling_success context s1 _ _ e _ H Hlen Hok) as (Hdead & Hpr & Hex & Hsu).
  change (session_fires context (next_timer s0) [e] ?s)
    with (exec (step context (TimerFired (next_timer s0)) e) s).
  rewrite session_fires_dead by done. by rewrite Hpr, Hex, Hsu.
Qed.

(** With every probe answered before the timer fires again: a session
    started by [startProPolling] cancels the timer of any earlier session
    and starts from zero attempts.  While the probe fails it is invoked
    once per fire, at most [MAX_PRO_POLLING_ATTEMPTS] = 24 times; the
    twenty-fifth fire invokes no probe, stops the timer and reports the
    session exhausted.  If the probe first succeeds on attempt [k <= 24]
    the session stops after exactly [k] probes and reports success.  No
    session reports more than one outcome. *)
Theorem bounded_retry_session (context : ExtensionContext) (s0 : state) :
  handles_allocated s0 ->
  let s1 := exec startProPolling s0 in
  let id := next_timer s0 in
  let failing := fun e => probe_succeeds s1 (license e) = false in
  max_attempts = 24%nat /\
  (_proPollingAttempts s1 = 0
   /\ _proPollingTimer s1 = Some id
   /\ forall old, _proPollingTimer s0 = Some old -> find_timer old s1 = None) /\
  (forall envs,
      Forall failing (take max_attempts envs) ->
      let s' := session_fires context id envs s1 in
      probes s' = (probes s1 + Nat.min (length envs) max_attempts)%nat
      /\ exhausted s'
         = (exhausted s1 + if (max_attempts <? length envs)%nat then 1 else 0)%nat
      /\ succeeded s' = succeeded s1
      /\ ((max_attempts < length envs)%nat -> stopped id s')) /\
  (forall failed e later,
      Forall failing failed ->
      (length failed < max_attempts)%nat ->
      probe_succeeds s1 (license e) = true ->
      let s' := session_fires context id (failed ++ e :: later) s1 in
      probes s' = (probes s1 + S (length failed))%nat
      /\ succeeded s' = S (succeeded s1)
      /\ exhausted s' = exhausted s1
      /\ find_timer id s' = None) /\
  (forall envs,
      let s' := session_fires context id envs s1 in
      (exhausted s' + succeeded s' <= exhausted s1 + succeeded s1 + 1)%nat).
Proof.
  intros Hall s1 id failing. change max_attempts with 24%nat.
  split; [done|]. split; [|split; [|split]].
  - destruct (startProPolling_polling s0 Hall) as [Hp Hold].
    destruct Hp as (Ht & _ & _ & Ha & _). auto.
  - intros envs Hf. by apply session_never_succeeds.
  - intros failed e later Hf Hlen Hok. by apply session_succeeds.
  - intros envs s'.
    destruct (first_success (fun e => probe_succeeds s1 (license e)) 24 envs)
      as [Hf | (failed & e & later & -> & Hf & Hlen & Hok)].
    + destruct (session_never_succeeds context s0 envs Hall Hf) as (_ & Hex & Hsu & _).
      fold s1 id s' in Hex, Hsu. rewrite Hex, Hsu. destruct (_ <? _)%nat; lia.
    + destruct (session_succeeds context s0 failed e later Hall Hf Hlen Hok)
        as (_ & Hsu & Hex & _).
      fold s1 id s' in Hex, Hsu. rewrite Hex, Hsu. lia.
Qed.

Lemma bounded_retry_session_witness :
  let s1 := exec startProPolling paid_window in
  _proPollingAttempts s1 = 0
  /\ _proPollingTimer s1 = Some 0%nat
  /\ forall old, _proPollingTimer paid_window = Some old -> find_timer old s1 = None.
Proof.
  assert (H : handles_allocated paid_window).
  { split; [intros t Ht; by apply elem_of_nil in Ht | intros old Ho; discriminate Ho]. }
  exact (proj1 (proj2 (bounded_retry_session sample_context paid_window H))).
Defined.

(** *** Answers that arrive after the next fire *)

Lemma resolveLicense_run r s :
  resolveLicense r s = (Ret (license_value r), store_plan r s).
Proof.
  unfold resolveLicense, store_plan. destruct r as [| |plan p]; [done|done|].
  munfold. simpl. destruct (_context s) as [c|]; simpl.
  - rewrite andb_true_r. destruct (truthy plan) eqn:Hp; simpl; [|done].
    by destruct plan.
  - rewrite andb_false_r. simpl. destruct (truthy plan) eqn:Hp; simpl; [|done].
    by destruct plan.
Qed.

(** A fire whose request is answered before anything else happens is
    [proPollingTick]. *)
Lemma proPollingTick_serial callback r s :
  proPollingTick callback r s
  = (waiting ← proPollingTick_request callback;
     if waiting : bool then proPollingTick_answer callback r else ret tt) s.
Proof.
  unfold proPollingTick, proPollingTick_request, proPollingTick_answer,
    proPollingTick_resume, verifyLicense, verifyLicense_request.
  munfold. simpl.
  destruct (_ >? _); simpl.
  { unfold clearInterval. by destruct (_proPollingTimer s). }
  destruct (_context s) as [c|] eqn:Hc; simpl; [|done].
  destruct (truthy (memento_get (globalState s) USER_ID_KEY)); simpl; [|done].
  done.
Qed.

Lemma session_serial context id e s :
  (forall tm, find_timer id s = Some tm -> timer_task tm = ProPollingTick) ->
  module_state (session_step id (Answers (license e)) e
                  (session_step id Fires e {| module_state := s; suspended := 0 |}))
  = exec (step context (TimerFired id) e) s.
Proof.
  intros Htask. unfold step, exec, try_catch. simpl.
  destruct (find_timer id s) as [tm|] eqn:Hf.
  - rewrite (Htask tm eq_refl), (fire_live id e s tm Hf (Htask tm eq_refl)).
    rewrite proPollingTick_serial. munfold.
    destruct (proPollingTick_request (callbacks e) s) as [[[]|] s']; simpl; try done.
    unfold exec. by destruct (proPollingTick_answer (callbacks e) (license e) s') as [[] ?].
  - by rewrite fire_dead.
Qed.

Lemma store_plan_polling s1 id a r s :
  polling s1 id a s -> polling s1 id a (store_plan r s).
Proof.
  intros Hp. unfold store_plan. destruct r as [| |plan p]; [done|done|].
  destruct (_ && _); [|done].
  destruct Hp as (Ht & Hf & Hid & Ha & Hc & Hu & Hpr & Hx & Hs).
  repeat split; try done. simpl. rewrite <- Hu.
  unfold memento_update. destruct plan; simpl;
    by rewrite ?lookup_insert_ne, ?lookup_delete_ne.
Qed.

Lemma store_plan_effects r s : effects (store_plan r s) = effects s.
Proof.
  unfold store_plan. destruct r as [| |plan p]; [done|done|]. by destruct (_ && _).
Qed.

Lemma store_plan_timers r s :
  timers (store_plan r s) = timers s /\ next_timer (store_plan r s) = next_timer s
  /\ _proPollingTimer (store_plan r s) = _proPollingTimer s.
Proof.
  unfold store_plan. destruct r as [| |plan p]; [done|done|]. by destruct (_ && _).
Qed.

(** A callback that resumes on a valid licence leaves the timer of the
    session dead, sends no probe and reports no exhaustion. *)
Lemma resume_retires e v id s :
  truthy v = true ->
  (id < next_timer s)%nat ->
  find_timer id s = None \/ _proPollingTimer s = Some id ->
  let s' := exec (proPollingTick_resume (callbacks e) v) s in
  retired id s' /\ probes s' = probes s /\ exhausted s' = exhausted s.
Proof.
  intros Hv Hid Ht. unfold proPollingTick_resume, exec. rewrite Hv. munfold. simpl.
  set (s2 := snd (clearInterval (_proPollingTimer s) s)).
  assert (H2 : retired id s2 /\ effects s2 = effects s /\ _context s2 = _context s).
  { unfold s2, clearInterval. destruct Ht as [Hn | ->].
    - destruct (_proPollingTimer s) as [h|]; simpl; [|done].
      split; [|done]. split; [|done].
      by apply (find_timer_none_cleared id (Some h)).
    - simpl. split; [|done]. split; [apply find_timer_cleared | done]. }
  destruct H2 as (Hr & He & Hc).
  assert (Hcl : clearInterval (_proPollingTimer s) s = (Ret tt, s2)).
  { unfold s2, clearInterval. by destruct (_proPollingTimer s). }
  rewrite Hcl. simpl.
  rewrite Hc.
  unfold probes, exhausted, count_effect.
  destruct (_context s) as [c|]; simpl; [|by rewrite He].
  set (s3 := set_globalState _ _).
  assert (Hr3 : retired id s3) by done.
  pose proof (onProActivated_retired id (now e) (cdpAvailable e) s3 Hr3) as Hr'.
  pose proof (onProActivated_count VerifyLicenseCalled _
                ltac:(done) ltac:(done) ltac:(done) ltac:(done) ltac:(done)
                (now e) (cdpAvailable e) s3 eq_refl) as Hp'.
  pose proof (onProActivated_count (ShowWarning MsgVerificationSlow) _
                ltac:(done) ltac:(done) ltac:(done) ltac:(done) ltac:(done)
                (now e) (cdpAvailable e) s3 eq_refl) as Hx'.
  unfold run_callback, callbacks.
  destruct (onProActivated (now e) (cdpAvailable e) s3) as [r s4] eqn:Hcb.
  unfold count_effect in Hp', Hx'. simpl in Hr', Hp', Hx'.
  destruct r; simpl.
  - split; [apply Hr'|]. rewrite !filter_app, !length_app. simpl.
    rewrite Hp', Hx'. simpl. rewrite He. lia.
  - split; [apply Hr'|]. rewrite Hp', Hx'. simpl. by rewrite He.
Qed.

Lemma answer_bounded s1 id e r s :
  bounded_session s1 id s ->
  bounded_session s1 id (exec (proPollingTick_answer (callbacks e) r) s).
Proof.
  intros Hs. unfold proPollingTick_answer, exec. munfold.
  rewrite resolveLicense_run. simpl.
  set (s2 := store_plan r s).
  assert (H2 : bounded_session s1 id s2).
  { destruct Hs as [(a & Hle & Hp) | (Hr & Hpr & Hx)].
    - left. exists a. split; [done | by apply store_plan_polling].
    - right. unfold probes, exhausted, count_effect, retired, find_timer in *.
      unfold s2. destruct (store_plan_timers r s) as (-> & -> & _).
      by rewrite store_plan_effects. }
  destruct (truthy (license_value r)) eqn:Hv.
  2:{ unfold proPollingTick_resume. by rewrite Hv. }
  right.
  assert (Hid : (id < next_timer s2)%nat
                /\ (find_timer id s2 = None \/ _proPollingTimer s2 = Some id)).
  { destruct H2 as [(a & _ & Ht & _ & Hid & _) | ([Hn Hid] & _)]; auto. }
  destruct Hid as [Hid Ht].
  destruct (resume_retires e _ id s2 Hv Hid Ht) as (Hr & Hp & Hx).
  unfold exec in Hr, Hp, Hx. split; [done|]. rewrite Hp, Hx.
  destruct H2 as [(a & Hle & _ & _ & _ & _ & _ & _ & Hpr & Hex & _) | (_ & ? & ?)];
    [rewrite Hpr, Hex; lia | done].
Qed.

Lemma request_bounded cb s1 id a s :
  polling s1 id a s ->
  (a <= 24)%nat ->
  bounded_session s1 id (snd (proPollingTick_request cb s)).
Proof.
  intros (Ht & (tm & Hf & Htask) & Hid & Ha & Hc & Hu & Hp & Hx & Hs) Hle.
  unfold proPollingTick_request. munfold. simpl. rewrite Ha.
  unfold MAX_PRO_POLLING_ATTEMPTS.
  destruct (Z.gtb_spec (Z.of_nat a + 1) 24) as [Hgt|Hgt].
  - assert (a = 24%nat) as -> by lia. simpl. rewrite Ht.
    unfold clearInterval. munfold. simpl. right.
    split; [split; [apply find_timer_cleared | done]|].
    unfold probes, exhausted, count_effect in *. simpl.
    rewrite !filter_app, !length_app. simpl. rewrite Hp, Hx. lia.
  - left. exists (S a). split; [lia|].
    unfold verifyLicense_request, proPollingTick_resume. munfold. simpl.
    assert (Hq : polling s1 id (S a)
                   (set_effects (fun l => l ++ [VerifyLicenseCalled])
                      (set__proPollingAttempts (Z.of_nat a + 1) s))).
    { unfold polling, probes, exhausted, succeeded, count_effect in *. simpl.
      rewrite !filter_app, !length_app. simpl.
      split; [done|]. split; [by exists tm|]. split; [done|]. split; [lia|].
      split; [done|]. split; [done|]. rewrite Hp, Hx, Hs. lia. }
    destruct (_context s) as [c|]; simpl; [|done].
    destruct (truthy (memento_get (globalState s) USER_ID_KEY)); simpl; [|done].
    destruct Hq as (q1 & q2 & q3 & q4 & q5 & q6 & q7 & q8 & q9).
    repeat split; try done;
      unfold probes, exhausted, succeeded in *; rewrite count_effect_app;
      rewrite filter_cons_False by done; simpl; lia.
Qed.

Lemma session_step_bounded s1 id ev e x :
  bounded_session s1 id (module_state x) ->
  bounded_session s1 id (module_state (session_step id ev e x)).
Proof.
  intros Hx. destruct ev as [|r]; simpl.
  - destruct (find_timer id (module_state x)) as [tm|] eqn:Hf; [|done].
    destruct (timer_task tm) eqn:Htask; try done.
    assert (Hr : bounded_session s1 id (snd (proPollingTick_request (callbacks e) (module_state x)))).
    { destruct Hx as [(a & Hle & Hp) | ([Hn _] & _)]; [|congruence].
      by eapply request_bounded. }
    destruct (proPollingTick_request _ _) as [[[]|] s']; done.
  - destruct (suspended x); [done|]. simpl. by apply answer_bounded.
Qed.

Lemma session_run_bounded s1 id evs : forall x,
  bounded_session s1 id (module_state x) ->
  bounded_session s1 id (module_state (session_run id evs x)).
Proof.
  induction evs as [|[ev e] evs IH]; intros x Hx; [done|].
  simpl. apply IH. by apply session_step_bounded.
Qed.

(** Whenever the answers arrive, a session sends at most 24 probes and
    reports exhaustion at most once. *)
Lemma late_answers_bounded (s0 : state) (n : nat) (evs : list (session_event * env)) :
  handles_allocated s0 ->
  let s1 := exec startProPolling s0 in
  let s' := module_state (session_run (next_timer s0) evs
                            {| module_state := s1; suspended := n |}) in
  (probes s' <= probes s1 + 24)%nat /\ (exhausted s' <= exhausted s1 + 1)%nat.
Proof.
  intros Hall s1 s'.
  destruct (startProPolling_polling s0 Hall) as [Hp _]. fold s1 in Hp.
  assert (H : bounded_session s1 (next_timer s0) s').
  { apply session_run_bounded. left. exists 0%nat. split; [lia | done]. }
  destruct H as [(a & Hle & _ & _ & _ & _ & _ & _ & Hpr & Hex & _) | (_ & ? & ?)];
    [rewrite Hpr, Hex; lia | done].
Qed.

(** C3: the interval callback of [startProPolling] is suspended at
    [await verifyLicense ()] while the 5 s interval keeps firing, and
    nothing bounds the time the backend takes to answer.  When a valid
    licence is confirmed only after the next fire, the session neither
    stops after the probe that succeeds nor reports one outcome: with the
    first two requests answered after the second fire, two probes are sent
    and success is reported twice; with the twenty-fourth request answered
    after the twenty-fifth fire, the session reports exhausted and then
    succeeded. *)
Theorem slow_probe_reports_twice :
  let slow := module_state (session_run 0 slow_backend customer_polling) in
  let late := module_state (session_run 0 late_backend customer_polling) in
  (probes slow = 2 /\ succeeded slow = 2 /\ exhausted slow = 0)%nat
  /\ (probes late = 24 /\ succeeded late = 1 /\ exhausted late = 1)%nat.
Proof. vm_compute. done. Qed.

(** ** PollScheduler: changing the cadence *)

Lemma filter_none {A} (P : A -> Prop) `{!forall x, Decision (P x)} (l : list A) :
  (forall x, x ∈ l -> ~ P x) -> filter P l = [].
Proof.
  induction l as [|x l IH]; intros Hl; [done|].
  rewrite filter_cons_False by (apply Hl; by left).
  apply IH. intros; apply Hl; by right.
Qed.

(** X4: the set-cadence command, for an entitled user with polling
    enabled, cancels the running fast timer and registers one with the
    new interval: afterwards there is one live fast timer, the new one,
    and the frequency is stored. *)
Lemma handleFrequencyUpdate_replaces context freq e s :
  truthy (access (now e) s) = true ->
  truthy (isEnabled s) = true ->
  (forall t, t ∈ fast_timers s -> commandPollTimer s = Some (timer_id t)) ->
  let s' := exec (handleFrequencyUpdate context freq e) s in
  let fresh := {| timer_id := next_timer s; timer_task := FastTick;
                  timer_interval := freq |} in
  pollFrequency s' = freq
  /\ commandPollTimer s' = Some (next_timer s)
  /\ fast_timers s' = [fresh]
  /\ globalState s' = memento_update (globalState s) FREQ_STATE_KEY freq.
Proof.
  intros Ha He Hfast s' fresh. unfold s', handleFrequencyUpdate.
  munfold. rewrite hasProAccess_returns. simpl. rewrite Ha. simpl. rewrite He.
  rewrite syncSessions_run. simpl.
  set (s2 := if cdpHandler s && negb (isLockedOut s) then _ else _).
  assert (H2 : timers s2 = timers s /\ next_timer s2 = next_timer s
               /\ commandPollTimer s2 = commandPollTimer s
               /\ pollFrequency s2 = freq
               /\ globalState s2 = memento_update (globalState s) FREQ_STATE_KEY freq).
  { unfold s2. by destruct (cdpHandler s && negb (isLockedOut s)). }
  destruct H2 as (Ht & Hn & Hc & Hp & Hg).
  unfold clearInterval, setInterval. munfold. rewrite Hc.
  assert (Hnone : forall l,
            l = match commandPollTimer s with
                | Some id => filter (fun t => timer_id t <> id) (timers s)
                | None => timers s
                end ->
            filter (fun t => timer_task t = FastTick) l = []).
  { intros l ->. apply filter_none. intros t Hin Htask.
    destruct (commandPollTimer s) as [id|] eqn:Hcp.
    - apply list_elem_of_filter in Hin as [Hne Hin].
      assert (Hx : t ∈ fast_timers s) by (by apply list_elem_of_filter).
      pose proof (Hfast t Hx) as E. rewrite ?Hcp in E. congruence.
    - assert (Hx : t ∈ fast_timers s) by (by apply list_elem_of_filter).
      pose proof (Hfast t Hx) as E. rewrite ?Hcp in E. congruence. }
  unfold fast_timers.
  destruct (commandPollTimer s) as [id|] eqn:Hcp; simpl;
    rewrite ?Hp, ?Hn, ?Hg, ?Ht, filter_app, (Hnone _ eq_refl); simpl;
    rewrite filter_cons_True by done; done.
Qed.

Lemma handleFrequencyUpdate_replaces_witness :
  fast_timers (exec (handleFrequencyUpdate sample_context (VNum 300) (at_time 9000))
                 paid_polling)
  = [ {| timer_id := 2; timer_task := FastTick; timer_interval := VNum 300 |} ].
Proof.
  destruct (handleFrequencyUpdate_replaces sample_context (VNum 300) (at_time 9000)
              paid_polling) as (_ & _ & H & _); [reflexivity | reflexivity | | exact H].
  intros t Ht. vm_compute in Ht. apply list_elem_of_singleton in Ht. by subst t.
Defined.

(** X5: the continuation of the licence re-verification never touches
    the timers: whatever it is given, the timer table and the handle of
    the fast timer are as before. *)
Lemma licenseReverified_keeps_timers isValid e s :
  timers (exec (licenseReverified isValid e) s) = timers s
  /\ commandPollTimer (exec (licenseReverified isValid e) s) = commandPollTimer s.
Proof.
  assert (H : preserves (fun s' => timers s' = timers s
                                   /\ commandPollTimer s' = commandPollTimer s)
                (licenseReverified isValid e)).
  { repeat preserve_step frame_leaf. }
  by apply H.
Qed.

(** C4 fails on the downgrade path: a paying user's window polls every
    second; the re-verification answers that the licence is gone;
    [pollFrequency] drops to the base 300 ms, and the one running fast
    timer is still the old one, with its one-second interval. *)
Theorem downgrade_keeps_old_fast_timer :
  let s' := exec (licenseReverified (VBool false) (at_time 9000)) paid_polling in
  pollFrequency paid_polling = VNum 1000
  /\ pollFrequency s' = VNum 300
  /\ fast_timers paid_polling
     = [ {| timer_id := 0; timer_task := FastTick; timer_interval := VNum 1000 |} ]
  /\ fast_timers s' = fast_timers paid_polling
  /\ commandPollTimer s' = commandPollTimer paid_polling.
Proof. vm_compute. repeat split; reflexivity. Qed.

(** ** Trial expiry: one notification per lifecycle *)

Section TrialNotice.

Variable n : nat.
Let C : state -> Prop := fun s => notices s = n.

Ltac notice_leaf := first [ apply count_emit_ne; discriminate | frame_leaf ].

Lemma syncSessions_notices now : preserves C (syncSessions now).
Proof. unfold C, notices. repeat preserve_step notice_leaf. Qed.

Lemma executeAcceptCommandsForIDE_notices : preserves C executeAcceptCommandsForIDE.
Proof. unfold C, notices. repeat preserve_step notice_leaf. Qed.

#[local] Hint Resolve syncSessions_notices executeAcceptCommandsForIDE_notices
  : preservation.

Lemma startPolling_notices now : preserves C (startPolling now).
Proof. unfold C, notices. repeat preserve_step notice_leaf. Qed.

Lemma stopPolling_notices : preserves C stopPolling.
Proof. unfold C, notices. repeat preserve_step notice_leaf. Qed.

Lemma fastTick_notices : preserves C fastTick.
Proof. unfold C, notices. repeat preserve_step notice_leaf. Qed.

Lemma maintenanceTick_notices now : preserves C (maintenanceTick now).
Proof. unfold C, notices. repeat preserve_step notice_leaf. Qed.

Lemma ensureCDPOrPrompt_notices b a : preserves C (ensureCDPOrPrompt b a).
Proof. unfold C, notices. repeat preserve_step notice_leaf. Qed.

#[local] Hint Resolve startPolling_notices stopPolling_notices fastTick_notices
  maintenanceTick_notices ensureCDPOrPrompt_notices : preservation.

Lemma handlePaidActivation_notices now a : preserves C (handlePaidActivation now a).
Proof. unfold C, notices. repeat preserve_step notice_leaf. Qed.

#[local] Hint Resolve handlePaidActivation_notices : preservation.

Lemma onProActivated_notices now a : preserves C (onProActivated now a).
Proof. unfold C, notices. repeat preserve_step notice_leaf. Qed.

Lemma run_callback_notices e : preserves C (run_callback (callbacks e)).
Proof. apply onProActivated_notices. Qed.

Lemma verifyLicense_notices r : preserves C (verifyLicense r).
Proof. unfold C, notices. repeat preserve_step notice_leaf. Qed.

Lemma startProPolling_notices : preserves C startProPolling.
Proof. unfold C, notices. repeat preserve_step notice_leaf. Qed.

#[local] Hint Resolve run_callback_notices verifyLicense_notices
  startProPolling_notices : preservation.

Lemma proPollingTick_notices e r : preserves C (proPollingTick (callbacks e) r).
Proof. unfold C, notices. repeat preserve_step notice_leaf. Qed.

Lemma activatePro_notices e r : preserves C (activatePro (callbacks e) r).
Proof. unfold C, notices. repeat preserve_step notice_leaf. Qed.

Lemma handleToggle_notices c e : preserves C (handleToggle c e).
Proof. unfold C, notices. repeat preserve_step notice_leaf. Qed.

Lemma handleRelaunch_notices e : preserves C (handleRelaunch e).
Proof. unfold C, notices. repeat preserve_step notice_leaf. Qed.

Lemma handleFrequencyUpdate_notices c f e : preserves C (handleFrequencyUpdate c f e).
Proof. unfold C, notices. repeat preserve_step notice_leaf. Qed.

Lemma handleBannedCommandsUpdate_notices c v e :
  preserves C (handleBannedCommandsUpdate c v e).
Proof. unfold C, notices. repeat preserve_step notice_leaf. Qed.

Lemma handleBackgroundToggle_notices c e : preserves C (handleBackgroundToggle c e).
Proof. unfold C, notices. repeat preserve_step notice_leaf. Qed.

#[local] Hint Resolve proPollingTick_notices activatePro_notices handleToggle_notices
  handleRelaunch_notices handleFrequencyUpdate_notices
  handleBannedCommandsUpdate_notices handleBackgroundToggle_notices : preservation.

Lemma runCommand_notices c cmd e : preserves C (runCommand c cmd e).
Proof. unfold C, notices. repeat preserve_step notice_leaf. Qed.

Lemma setProStatus_notices v : preserves C (setProStatus v).
Proof. unfold C, notices. repeat preserve_step notice_leaf. Qed.

#[local] Hint Resolve setProStatus_notices : preservation.

Lemma licenseReverified_notices v e : preserves C (licenseReverified v e).
Proof. unfold C, notices. repeat preserve_step notice_leaf. Qed.

End TrialNotice.

Lemma runCommand_keeps_notified x c cmd e :
  preserves (keeps TRIAL_NOTIFIED_KEY x) (runCommand c cmd e).
Proof. repeat preserve_step keeps_leaf. Qed.

Lemma runCommand_quiet c cmd e : quiet (runCommand c cmd e).
Proof. split; intros; [apply runCommand_keeps_notified | apply runCommand_notices]. Qed.

Lemma tick_quiet e t :
  t <> TrialCheckTick ->
  quiet (match t with
         | FastTick => fastTick
         | MaintenanceTick => maintenanceTick (now e)
         | ProPollingTick => proPollingTick (callbacks e) (license e)
         | TrialCheckTick => checkTrialExpiration (now e)
         end).
Proof.
  intros Ht. destruct t; try done; split; intros;
    first [ apply fastTick_notices | apply maintenanceTick_notices
          | apply proPollingTick_notices | repeat preserve_step keeps_leaf ].
Qed.

Lemma licenseReverified_quiet v e :
  v <> VBool true -> quiet (licenseReverified v e).
Proof.
  intros Hv. split; intros; [|apply licenseReverified_notices].
  assert (Hs : strict_eq v (VBool true) = false).
  { unfold strict_eq. destruct v; try done. by rewrite bool_decide_eq_false_2. }
  unfold licenseReverified, setProStatus. rewrite Hs.
  repeat preserve_step keeps_leaf.
Qed.

(** Between two states of a run: notifications are only added, and each
    one uses up the pending notification. *)
Lemma quiet_conserves {A} (m : M A) s :
  quiet m ->
  (notices s <= notices (snd (m s)))%nat
  /\ (notices (snd (m s)) + pending (snd (m s)) = notices s + pending s)%nat.
Proof.
  intros [Hk Hn].
  pose proof (Hk (globalState s !! TRIAL_NOTIFIED_KEY) s eq_refl) as Hk'.
  pose proof (Hn (notices s) s eq_refl) as Hn'.
  unfold keeps in Hk'. unfold pending, notified, memento_get_or.
  rewrite Hk', Hn'. lia.
Qed.

Lemma checkTrialExpiration_conserves now s :
  let s' := exec (checkTrialExpiration now) s in
  (notices s <= notices s')%nat
  /\ (notices s' + pending s' = notices s + pending s)%nat.
Proof.
  unfold checkTrialExpiration. munfold. simpl.
  destruct (is_null (_context s) || truthy (_isPro s)) eqn:Hg; simpl; [lia|].
  destruct (_context s) as [c|] eqn:Hc; [simpl|done].
  destruct (truthy (memento_get (globalState s) TRIAL_START_KEY)); simpl; [|lia].
  destruct (isTrialActive_returns now s) as [b ->]. simpl.
  destruct b; simpl; [lia|].
  fold (notified s). unfold pending.
  destruct (notified s) eqn:Hn; simpl; rewrite ?Hn; [lia|].
  unfold notices. rewrite count_effect_app. simpl.
  unfold notified, memento_get_or. simpl. rewrite lookup_insert_eq. simpl.
  unfold count_effect. simpl. lia.
Qed.

Lemma snd_try_catch_ret (m : M unit) s : snd (try_catch m (ret tt) s) = snd (m s).
Proof. munfold. by destruct (m s) as [[a|] s']. Qed.

Lemma step_conserves context ev e s :
  ev <> LicenseReverified (VBool true) ->
  let s' := exec (step context ev e) s in
  (notices s <= notices s')%nat
  /\ (notices s' + pending s' = notices s + pending s)%nat.
Proof.
  intros Hev. unfold step, exec. rewrite snd_try_catch_ret.
  destruct ev as [cmd|id|v].
  - apply quiet_conserves, runCommand_quiet.
  - unfold fire. munfold. simpl.
    destruct (find_timer id s) as [t|]; [|simpl; lia].
    destruct (decide (timer_task t = TrialCheckTick)) as [->|Ht].
    + apply checkTrialExpiration_conserves.
    + by apply quiet_conserves, tick_quiet.
  - apply quiet_conserves, licenseReverified_quiet. congruence.
Qed.

Lemma run_conserves context evs : forall s,
  (forall e, (LicenseReverified (VBool true), e) ∉ evs) ->
  (notices s <= notices (run context evs s))%nat
  /\ (notices (run context evs s) + pending (run context evs s)
      = notices s + pending s)%nat.
Proof.
  induction evs as [|[ev e] evs IH]; intros s Hno; simpl; [lia|].
  assert (Hev : ev <> LicenseReverified (VBool true)).
  { intros ->. apply (Hno e). by left. }
  destruct (step_conserves context ev e s Hev) as [H1 H2].
  destruct (IH (exec (step context ev e) s)) as [H3 H4].
  { intros e' Hin. apply (Hno e'). by right. }
  lia.
Qed.

Lemma checkTrialExpiration_first now s c ts :
  _context s = Some c ->
  truthy (_isPro s) = false ->
  globalState s !! TRIAL_START_KEY = Some (VNum ts) ->
  ts <> 0 ->
  TRIAL_DURATION_MS <= now - ts ->
  notified s = false ->
  let s' := exec (checkTrialExpiration now) s in
  notices s' = S (notices s) /\ notified s' = true.
Proof.
  intros Hc Hp Hs Hts Hexp Hn s'.
  assert (Hrun : s' = log_effect (ShowInformation MsgTrialEnded)
                        (set_globalState
                           (fun m => <[TRIAL_NOTIFIED_KEY := VBool true]> m) s)).
  { unfold s', checkTrialExpiration. munfold. simpl. rewrite Hc, Hp. simpl.
    unfold memento_get. rewrite Hs. simpl.
    destruct (Z.eqb_spec ts 0) as [|_]; [done|]. simpl.
    rewrite (isTrialActive_recorded now s c ts Hc Hs Hts).
    rewrite bool_decide_eq_false_2 by lia. simpl.
    fold (notified s). by rewrite Hn. }
  rewrite Hrun. unfold notices, notified, log_effect.
  rewrite count_effect_app. simpl.
  unfold memento_get_or. rewrite lookup_insert_eq. split; [|done].
  unfold count_effect. simpl. lia.
Qed.

Lemma setProStatus_run s c (b : bool) :
  _context s = Some c ->
  exec (setProStatus (VBool b)) s
  = (if b then set_globalState (fun m => <[TRIAL_NOTIFIED_KEY := VBool false]> m)
     else fun s' => s')
      (set_globalState (fun m => <[PRO_STATE_KEY := VBool b]> m)
         (set__isPro (VBool b) s)).
Proof.
  intros Hc. unfold setProStatus. munfold. simpl. rewrite Hc. by destruct b.
Qed.

Lemma setProStatus_true_clears s c :
  _context s = Some c -> notified (exec (setProStatus (VBool true)) s) = false.
Proof.
  intros Hc. rewrite (setProStatus_run s c true Hc).
  unfold notified, memento_get_or. simpl. by rewrite lookup_insert_eq.
Qed.



(** ** ModeController: the background toggle *)

Lemma handleBackgroundToggle_denied context e s :
  truthy (access (now e) s) = false ->
  handleBackgroundToggle context e s
  = (Ret tt, log_effect (ShowInformation MsgBackgroundIsPro) s).
Proof.
  intros Ha. unfold handleBackgroundToggle. munfold.
  rewrite hasProAccess_returns. simpl. by rewrite Ha.
Qed.

Lemma handleBackgroundToggle_deferred context e s :
  truthy (access (now e) s) = true ->
  truthy (backgroundModeEnabled s) = false ->
  (cdpHandler s = false \/ cdpAvailable e = false) ->
  relauncher s = true ->
  handleBackgroundToggle context e s = (Ret tt, log_effect EnsureCDPAndRelaunch s).
Proof.
  intros Ha Hbg Hcdp Hr. unfold handleBackgroundToggle. munfold.
  rewrite hasProAccess_returns. simpl. rewrite Ha. simpl. rewrite Hbg, Hr. simpl.
  destruct Hcdp as [-> | ->]; [done|]. by destruct (cdpHandler s).
Qed.

(** C7, as the code has it: a request without entitlement shows the
    denial and changes nothing else, neither the mode nor the store; a
    request with entitlement to turn background mode on while the
    debugging session is unreachable, in a window whose relauncher is
    loaded, requests the setup flow and changes nothing else. *)
Theorem background_toggle_gated (context : ExtensionContext) (e : env) (s : state) :
  let s' := exec (handleBackgroundToggle context e) s in
  (truthy (access (now e) s) = false ->
   s' = log_effect (ShowInformation MsgBackgroundIsPro) s
   /\ backgroundModeEnabled s' = backgroundModeEnabled s
   /\ globalState s' = globalState s) /\
  (truthy (access (now e) s) = true ->
   truthy (backgroundModeEnabled s) = false ->
   (cdpHandler s = false \/ cdpAvailable e = false) ->
   relauncher s = true ->
   s' = log_effect EnsureCDPAndRelaunch s
   /\ backgroundModeEnabled s' = backgroundModeEnabled s
   /\ globalState s' = globalState s).
Proof.
  intros s'. unfold s', exec. split.
  - intros Ha. by rewrite handleBackgroundToggle_denied.
  - intros Ha Hbg Hcdp Hr. by rewrite handleBackgroundToggle_deferred.
Qed.

Lemma background_toggle_gated_witness :
  let s := set__isPro (VBool false) no_handlers_window in
  exec (handleBackgroundToggle sample_context (at_time 9000)) s
  = log_effect (ShowInformation MsgBackgroundIsPro) s.
Proof.
  apply (proj1 (background_toggle_gated sample_context (at_time 9000)
                  (set__isPro (VBool false) no_handlers_window))).
  reflexivity.
Defined.

(** C7 as stated does not hold: in a window where the handlers failed to
    load the session is unreachable, yet the toggle of an entitled user
    goes through: background mode is turned on and persisted, and no
    setup flow is requested. *)
Lemma background_toggle_as_specified_fails : ~ background_toggle_as_specified.
Proof.
  intros H.
  destruct (H sample_context (at_time 9000) no_handlers_window) as [_ H2].
  destruct H2 as (Hbg & _); [reflexivity | reflexivity | by left |].
  vm_compute in Hbg. discriminate.
Qed.

(** ** Entitlement survives a restart *)

Lemma checkTrialExpiration_vars p c now :
  preserves (entitlement_vars p c) (checkTrialExpiration now).
Proof. repeat preserve_step frame_leaf. Qed.

Lemma synced_gs_update c k v :
  k <> PRO_STATE_KEY -> preserves synced (gs_update c k v).
Proof.
  intros Hk s Hs. destruct c; [|done]. unfold synced in *. simpl.
  unfold memento_get_or in *. by rewrite memento_update_ne.
Qed.

Ltac synced_leaf :=
  first [ apply synced_gs_update;
          first [ done
                | apply not_lease_key_lock; by split
                | apply not_lease_key_ping; by split ]
        | frame_leaf ].

(** [_isPro = true] followed by the update of the stored flag. *)
Lemma synced_set_pro {A} (rest : option ExtensionContext -> M A) :
  (forall c, preserves synced (rest c)) ->
  preserves synced
    (modify (set__isPro (VBool true)) ≫= fun _ =>
     gets _context ≫= fun c =>
     gs_update c PRO_STATE_KEY (VBool true) ≫= fun _ => rest c).
Proof.
  intros Hrest s [Hc _]. munfold. simpl.
  destruct (_context s) as [c|] eqn:Ec; [simpl | done].
  apply Hrest. split; simpl; [by rewrite Ec|].
  left. unfold memento_get_or. by rewrite lookup_insert_eq.
Qed.

Ltac synced_step :=
  first [ apply synced_set_pro; intros ? | preserve_step synced_leaf ].

Lemma syncSessions_synced now : preserves synced (syncSessions now).
Proof. repeat synced_step. Qed.

Lemma executeAcceptCommandsForIDE_synced : preserves synced executeAcceptCommandsForIDE.
Proof. repeat synced_step. Qed.

#[export] Hint Resolve syncSessions_synced executeAcceptCommandsForIDE_synced
  : preservation.

Lemma startPolling_synced now : preserves synced (startPolling now).
Proof. repeat synced_step. Qed.

Lemma stopPolling_synced : preserves synced stopPolling.
Proof. repeat synced_step. Qed.

Lemma fastTick_synced : preserves synced fastTick.
Proof. repeat synced_step. Qed.

Lemma maintenanceTick_synced now : preserves synced (maintenanceTick now).
Proof. repeat synced_step. Qed.

Lemma ensureCDPOrPrompt_synced b a : preserves synced (ensureCDPOrPrompt b a).
Proof. repeat synced_step. Qed.

#[export] Hint Resolve startPolling_synced stopPolling_synced fastTick_synced
  maintenanceTick_synced ensureCDPOrPrompt_synced : preservation.

Lemma handlePaidActivation_synced now a : preserves synced (handlePaidActivation now a).
Proof. repeat synced_step. Qed.

#[export] Hint Resolve handlePaidActivation_synced : preservation.

Lemma onProActivated_synced now a : preserves synced (onProActivated now a).
Proof. repeat synced_step. Qed.

Lemma run_callback_synced e : preserves synced (run_callback (callbacks e)).
Proof. apply onProActivated_synced. Qed.

Lemma verifyLicense_synced r : preserves synced (verifyLicense r).
Proof. repeat synced_step. Qed.

Lemma startProPolling_synced : preserves synced startProPolling.
Proof. repeat synced_step. Qed.

Lemma checkTrialExpiration_synced now : preserves synced (checkTrialExpiration now).
Proof. repeat synced_step. Qed.

#[export] Hint Resolve run_callback_synced verifyLicense_synced
  startProPolling_synced checkTrialExpiration_synced : preservation.

Lemma proPollingTick_synced e r : preserves synced (proPollingTick (callbacks e) r).
Proof. repeat synced_step. Qed.

Lemma activatePro_synced e r : preserves synced (activatePro (callbacks e) r).
Proof. repeat synced_step. Qed.

Lemma handleToggle_synced c e : preserves synced (handleToggle c e).
Proof. repeat synced_step. Qed.

Lemma handleRelaunch_synced e : preserves synced (handleRelaunch e).
Proof. repeat synced_step. Qed.

Lemma handleFrequencyUpdate_synced c f e : preserves synced (handleFrequencyUpdate c f e).
Proof. repeat synced_step. Qed.

Lemma handleBannedCommandsUpdate_synced c v e :
  preserves synced (handleBannedCommandsUpdate c v e).
Proof. repeat synced_step. Qed.

Lemma handleBackgroundToggle_synced c e : preserves synced (handleBackgroundToggle c e).
Proof. repeat synced_step. Qed.

#[export] Hint Resolve proPollingTick_synced activatePro_synced handleToggle_synced
  handleRelaunch_synced handleFrequencyUpdate_synced
  handleBannedCommandsUpdate_synced handleBackgroundToggle_synced : preservation.

Lemma setProStatus_synced v : preserves synced (setProStatus v).
Proof.
  intros s [Hc _]. unfold setProStatus. munfold. simpl.
  destruct (_context s) as [c|] eqn:Ec; [simpl | done].
  assert (Hv : synced (set_globalState (fun m => memento_update m PRO_STATE_KEY v)
                         (set__isPro v s))).
  { split; simpl; [by rewrite Ec|].
    unfold memento_get_or, memento_update.
    destruct v; rewrite ?lookup_insert_eq, ?lookup_delete_eq; auto. }
  destruct (strict_eq v (VBool true)); simpl; [|done].
  revert Hv. apply (synced_gs_update (Some c) TRIAL_NOTIFIED_KEY (VBool false)). done.
Qed.

#[export] Hint Resolve setProStatus_synced : preservation.

Lemma licenseReverified_synced v e : preserves synced (licenseReverified v e).
Proof. repeat synced_step. Qed.

Lemma step_synced context ev e : preserves synced (step context ev e).
Proof.
  pose proof licenseReverified_synced.
  unfold step. apply preserves_try_catch; [|apply preserves_ret].
  destruct ev as [cmd|id|v]; [| |done].
  - destruct cmd; simpl; auto with preservation. apply preserves_ret.
  - repeat synced_step.
Qed.

Lemma run_synced context evs s : synced s -> synced (run context evs s).
Proof.
  revert s. induction evs as [|[ev e] evs IH]; intros s Hs; [done|].
  simpl. apply IH. by apply step_synced.
Qed.

Lemma init_synced context t0 s : synced (exec (init context t0) s).
Proof.
  unfold init. munfold. simpl.
  set (s1 := set__isPro _ _).
  assert (H1 : synced s1) by (split; simpl; auto).
  pose proof (checkTrialExpiration_synced t0 s1 H1) as H.
  by destruct (checkTrialExpiration t0 s1) as [[[]|] s2].
Qed.

Lemma checkTrialExpiration_keeps_start x now :
  preserves (keeps TRIAL_START_KEY x) (checkTrialExpiration now).
Proof. repeat preserve_step keeps_leaf. Qed.

(** What [hasProAccess] reads of a state. *)
Lemma hasProAccess_reads now s s' :
  is_null (_context s) = is_null (_context s') ->
  globalState s !! TRIAL_START_KEY = globalState s' !! TRIAL_START_KEY ->
  (_isPro s = _isPro s' \/ (truthy (_isPro s) = false /\ truthy (_isPro s') = false)) ->
  eval (hasProAccess now) s = eval (hasProAccess now) s'.
Proof.
  intros Hc Ht Hp.
  assert (Ha : eval (isTrialActive now) s = eval (isTrialActive now) s').
  { unfold isTrialActive. munfold. simpl.
    destruct (_context s), (_context s'); try done; simpl.
    unfold memento_get. rewrite Ht.
    by destruct (negb (truthy _)). }
  unfold hasProAccess, eval in *. munfold. simpl.
  destruct Hp as [-> | [-> ->]]; [|done].
  by destruct (truthy (_isPro s')).
Qed.

(** C8: whatever the extension did since it was initialised, reloading
    the module from the durable store it left behind gives the same
    [hasProAccess] at the same instant. *)
Theorem entitlement_survives_restart
    (context : ExtensionContext) (store : gmap string value)
    (instance instance' : string) (t0 now : Z) (evs : list (event * env)) :
  let s := run context evs (exec (init context t0) (loaded store instance)) in
  let s' := exec (init context now) (loaded (globalState s) instance') in
  eval (hasProAccess now) s' = eval (hasProAccess now) s.
Proof.
  intros s s'.
  assert (Hs : synced s) by apply run_synced, init_synced.
  destruct Hs as [Hc Hp].
  assert (Hinit : _context s' = Some context
                  /\ _isPro s' = memento_get_or (globalState s) PRO_STATE_KEY (VBool false)
                  /\ globalState s' !! TRIAL_START_KEY = globalState s !! TRIAL_START_KEY).
  { unfold s', init. munfold. simpl.
    set (s1 := set__isPro _ _).
    pose proof (checkTrialExpiration_keeps_start
                  (globalState s !! TRIAL_START_KEY) now s1 eq_refl) as Hk.
    pose proof (checkTrialExpiration_vars (_isPro s1) (_context s1) now s1
                  (conj eq_refl eq_refl)) as [H1 H2].
    unfold keeps in Hk.
    destruct (checkTrialExpiration now s1) as [[[]|] s2]; simpl in *; auto. }
  destruct Hinit as (Hc' & Hp' & Ht').
  apply hasProAccess_reads; [| done |].
  - rewrite Hc', Hc. done.
  - rewrite Hp'. destruct Hp as [-> | [? ?]]; auto.
Qed.

(** * Further properties of the two modules *)

(** ** The days left of the trial *)

Lemma ceil_days x :
  - (- x / DAY_MS) <= 0 <-> x <= 0.
Proof.
  unfold DAY_MS. change (24 * 60 * 60 * 1000) with 86400000.
  split; intros H; Z.div_mod_to_equations; lia.
Qed.

(** X6: with a trial start recorded, [getTrialDaysLeft] answers a number of
    days that is never negative, is positive exactly when [isTrialActive]
    answers [true], and within the trial is three minus the number of whole
    days elapsed. *)
Theorem trial_days_left_agree (s : state) (c : ExtensionContext) (ts now : Z) :
  _context s = Some c ->
  globalState s !! TRIAL_START_KEY = Some (VNum ts) ->
  ts <> 0 ->
  exists d,
    getTrialDaysLeft now s = (Ret (VNum d), s)
    /\ 0 <= d
    /\ (0 < d <-> eval (isTrialActive now) s = Ret (VBool true))
    /\ (0 <= now - ts < TRIAL_DURATION_MS -> d = 3 - (now - ts) / DAY_MS).
Proof.
  intros Hc Hs Hts.
  exists (Z.max 0 (- (- (TRIAL_DURATION_MS - (now - ts)) / DAY_MS))).
  split; [|split; [lia|split]].
  - unfold getTrialDaysLeft. munfold. simpl. rewrite Hc. simpl.
    unfold memento_get. rewrite Hs. simpl.
    destruct (Z.eqb_spec ts 0) as [|_]; [done|]. reflexivity.
  - unfold eval. rewrite (isTrialActive_recorded now s c ts Hc Hs Hts). simpl.
    pose proof (ceil_days (TRIAL_DURATION_MS - (now - ts))) as Hd.
    split.
    + intros Hpos. do 2 f_equal. apply bool_decide_eq_true_2. lia.
    + intros [= Hb]. apply bool_decide_eq_true_1 in Hb. lia.
  - intros [Hlo Hhi].
    unfold TRIAL_DURATION_MS, DAY_MS in *.
    replace (- (3 * 24 * 60 * 60 * 1000 - (now - ts)))
      with ((now - ts) + (-3) * (24 * 60 * 60 * 1000)) by lia.
    rewrite Z.div_add by lia.
    assert (0 <= (now - ts) / (24 * 60 * 60 * 1000)) by (apply Z.div_pos; lia).
    assert ((now - ts) / (24 * 60 * 60 * 1000) < 3)
      by (apply Z.div_lt_upper_bound; lia).
    lia.
Qed.

Lemma trial_days_left_agree_witness :
  exists d, getTrialDaysLeft 90000000 trial_state = (Ret (VNum d), trial_state)
            /\ d = 3 - (90000000 - 1000) / DAY_MS.
Proof.
  destruct (trial_days_left_agree trial_state sample_context 1000 90000000)
    as (d & H1 & _ & _ & H4); [reflexivity | reflexivity | discriminate |].
  exists d. split; [exact H1 | apply H4; vm_compute; split; [discriminate | reflexivity]].
Defined.

(** ** The user identifier *)

Lemma getUserId_run fresh s c :
  _context s = Some c ->
  let stored := memento_get (globalState s) USER_ID_KEY in
  getUserId fresh s
  = (Ret (if truthy stored then stored else VStr fresh),
     if truthy stored then s
     else set_globalState (fun m => <[USER_ID_KEY := VStr fresh]> m) s).
Proof.
  intros Hc stored. unfold getUserId. munfold. simpl. rewrite Hc. simpl. fold stored.
  by destruct (truthy stored).
Qed.

(** X7: on an initialised module [getUserId] answers the stored identifier
    without writing, or stores the freshly generated one when none is
    stored; a second call answers the same identifier whatever the
    generator would produce, and writes nothing. *)
Theorem getUserId_stable (s : state) (c : ExtensionContext) (fresh other : string) :
  _context s = Some c ->
  fresh <> "" ->
  let stored := memento_get (globalState s) USER_ID_KEY in
  let u := if truthy stored then stored else VStr fresh in
  let s1 := exec (getUserId fresh) s in
  getUserId fresh s = (Ret u, s1)
  /\ s1 = (if truthy stored then s
           else set_globalState (fun m => <[USER_ID_KEY := VStr fresh]> m) s)
  /\ getUserId other s1 = (Ret u, s1).
Proof.
  intros Hc Hf stored u s1.
  pose proof (getUserId_run fresh s c Hc) as E. cbv zeta in E. fold stored in E.
  assert (E1 : s1 = if truthy stored then s
                    else set_globalState (fun m => <[USER_ID_KEY := VStr fresh]> m) s).
  { unfold s1, exec. by rewrite E. }
  split; [by rewrite E, E1 | split; [done|]].
  rewrite E1. unfold u.
  destruct (truthy stored) eqn:Hst.
  - pose proof (getUserId_run other s c Hc) as E2. cbv zeta in E2. fold stored in E2.
    by rewrite Hst in E2.
  - rewrite (getUserId_run other _ c) by done. cbv zeta. simpl.
    unfold memento_get. rewrite lookup_insert_eq. simpl.
    by destruct (String.eqb_spec fresh "").
Qed.

Lemma getUserId_stable_witness :
  getUserId "9b2e" trial_state
  = (Ret (VStr "9b2e"), exec (getUserId "9b2e") trial_state)
  /\ getUserId "51af" (exec (getUserId "9b2e") trial_state)
     = (Ret (VStr "9b2e"), exec (getUserId "9b2e") trial_state).
Proof.
  destruct (getUserId_stable trial_state sample_context "9b2e" "51af")
    as (H1 & _ & H3); [reflexivity | discriminate |].
  split; [exact H1 | exact H3].
Defined.

(** ** Licence verification *)

Lemma license_value_truthy r :
  truthy (license_value r) = true <->
  exists p, r = Json (VStr p) (VBool true)
            /\ (toLowerCase p = "lifetime" \/ toLowerCase p = "monthly").
Proof.
  split.
  - destruct r as [| |plan p]; simpl; [done|done|].
    destruct (truthy plan) eqn:Hp; simpl.
    + destruct plan as [| | | |n|q|l]; try done.
      unfold js_and. simpl.
      destruct (strict_eq p (VBool true)) eqn:Hs; simpl; [|done].
      intros Hv. exists q. split.
      * f_equal. unfold strict_eq in Hs. destruct p; try done.
        by apply bool_decide_eq_true_1 in Hs.
      * unfold validPlans_includes in Hv. apply orb_true_iff in Hv as [Hv|Hv].
        -- left. by apply String.eqb_eq.
        -- right. by apply String.eqb_eq.
    + unfold js_and. simpl.
      destruct (strict_eq p (VBool true)); simpl; [by rewrite Hp | done].
  - intros (p & -> & Hv). simpl.
    assert (Hq : p <> "").
    { intros ->. by destruct Hv. }
    destruct (String.eqb_spec p ""); [done|]. simpl.
    unfold validPlans_includes. destruct Hv as [-> | ->]; done.
Qed.

Lemma license_value_true r : truthy (license_value r) = true -> license_value r = VBool true.
Proof.
  destruct r as [| |plan p]; simpl; [done|done|].
  destruct (truthy plan) eqn:Hp; simpl.
  - destruct plan; try done. unfold js_and. simpl.
    destruct (strict_eq p (VBool true)); simpl; [|done]. by intros ->.
  - unfold js_and. simpl. destruct (strict_eq p (VBool true)); simpl; [by rewrite Hp|done].
Qed.


Lemma verifyLicense_exact r s :
  verifyLicense r s
  = if negb (is_null (_context s)) && truthy (memento_get (globalState s) USER_ID_KEY)
    then (Ret (license_value r),
          store_plan r
            (log_effect (HttpsGet "check-license" (memento_get (globalState s) USER_ID_KEY))
               (log_effect VerifyLicenseCalled s)))
    else (Ret (VBool false), log_effect VerifyLicenseCalled s).
Proof.
  unfold verifyLicense. munfold. simpl.
  destruct (_context s) as [c|] eqn:Hc; simpl; [|done].
  destruct (truthy (memento_get (globalState s) USER_ID_KEY)); simpl; [|done].
  by rewrite resolveLicense_run.
Qed.

Lemma checkProStatus_exact fresh r s c :
  _context s = Some c ->
  fresh <> "" ->
  let stored := memento_get (globalState s) USER_ID_KEY in
  let u := if truthy stored then stored else VStr fresh in
  checkProStatus fresh r s
  = (Ret (license_value r),
     store_plan r
       (log_effect (HttpsGet "verify" u)
          (if truthy stored then s
           else set_globalState (fun m => <[USER_ID_KEY := VStr fresh]> m) s))).
Proof.
  intros Hc Hf stored u.
  pose proof (getUserId_run fresh s c Hc) as E. cbv zeta in E. fold stored in E. fold u in E.
  unfold checkProStatus. rewrite (bind_run _ _ _ _ _ E).
  assert (Hu : truthy u = true).
  { unfold u. destruct (truthy stored) eqn:Hst; [done|].
    simpl. by destruct (String.eqb_spec fresh ""). }
  rewrite Hu. munfold. simpl. by rewrite resolveLicense_run.
Qed.

(** X9: [checkProStatus] resolves what the answer of the backend is worth.
    With a user identifier stored, [verifyLicense] resolves the same and
    leaves the same store, and the request goes to the other endpoint.
    With none stored, [verifyLicense] resolves [false] without a request,
    while [checkProStatus] first stores a fresh identifier and asks with
    it. *)
Theorem checkProStatus_agrees (s : state) (c : ExtensionContext) (fresh : string)
    (r : response) :
  _context s = Some c ->
  fresh <> "" ->
  let stored := memento_get (globalState s) USER_ID_KEY in
  eval (checkProStatus fresh r) s = Ret (license_value r)
  /\ (truthy stored = true ->
      eval (verifyLicense r) s = Ret (license_value r)
      /\ globalState (exec (checkProStatus fresh r) s)
         = globalState (exec (verifyLicense r) s)
      /\ HttpsGet "verify" stored ∈ effects (exec (checkProStatus fresh r) s))
  /\ (truthy stored = false ->
      eval (verifyLicense r) s = Ret (VBool false)
      /\ exec (verifyLicense r) s = log_effect VerifyLicenseCalled s
      /\ globalState (exec (checkProStatus fresh r) s) !! USER_ID_KEY = Some (VStr fresh)
      /\ HttpsGet "verify" (VStr fresh) ∈ effects (exec (checkProStatus fresh r) s)).
Proof.
  intros Hc Hf stored.
  pose proof (checkProStatus_exact fresh r s c Hc Hf) as E.
  fold stored in E. cbv zeta in E.
  unfold eval, exec. rewrite E, verifyLicense_exact, Hc. simpl. fold stored.
  split; [done|]. split; intros Hst; rewrite Hst; simpl.
  - split; [done|]. split.
    + destruct r as [| |plan p]; simpl; try done. by destruct (_ && _).
    + assert (H : HttpsGet "verify" stored ∈ effects (log_effect (HttpsGet "verify" stored) s)).
      { simpl. apply elem_of_app. right. by apply list_elem_of_singleton. }
      destruct r as [| |plan p]; simpl; try done. by destruct (_ && _).
  - split; [done|]. split; [done|].
    destruct r as [| |plan p]; simpl; rewrite ?Hc;
      try (split; [apply lookup_insert_eq
                  | apply elem_of_app; right; by apply list_elem_of_singleton]).
    destruct (truthy plan && negb (is_null (Some c))) eqn:Hp; simpl.
    + split; [| apply elem_of_app; right; by apply list_elem_of_singleton].
      assert (Hne : PLAN_KEY <> USER_ID_KEY) by done.
      unfold memento_update. destruct plan; try done;
        rewrite lookup_insert_ne by done; apply lookup_insert_eq.
    + split; [apply lookup_insert_eq
             | apply elem_of_app; right; by apply list_elem_of_singleton].
Qed.

Lemma checkProStatus_agrees_witness :
  eval (checkProStatus "9b2e" (Json (VStr "Monthly") (VBool true))) trial_state
  = Ret (VBool true).
Proof.
  destruct (checkProStatus_agrees trial_state sample_context "9b2e"
              (Json (VStr "Monthly") (VBool true))) as (H & _);
    [reflexivity | discriminate | exact H].
Defined.

(** ** The stored plan *)

(** X10: with no plan stored [isPlanRecurring] answers [false]; after a
    verification whose answer names a plan, that plan is stored as it
    came, and [isPlanRecurring] answers [true] exactly when it is the
    string [monthly] or [pro], compared letter for letter. *)
Theorem plan_recurring_after_verification (s : state) (c : ExtensionContext) :
  _context s = Some c ->
  (globalState s !! PLAN_KEY = None -> eval isPlanRecurring s = Ret (VBool false))
  /\ (forall p isPro,
        p <> "" ->
        truthy (memento_get (globalState s) USER_ID_KEY) = true ->
        let s' := exec (verifyLicense (Json (VStr p) isPro)) s in
        globalState s' !! PLAN_KEY = Some (VStr p)
        /\ eval isPlanRecurring s'
           = Ret (VBool (bool_decide (p = "monthly" \/ p = "pro")))).
Proof.
  intros Hc. split.
  - intros Hn. unfold eval, isPlanRecurring. munfold. simpl. rewrite Hc. simpl.
    unfold memento_get_or. by rewrite Hn.
  - intros p isPro Hp Hu s'.
    assert (Hg : globalState s' = <[PLAN_KEY := VStr p]> (globalState s)).
    { unfold s', exec. rewrite verifyLicense_exact, Hc, Hu. simpl. rewrite Hc.
      by destruct (String.eqb_spec p ""). }
    assert (Hc' : _context s' = Some c).
    { unfold s', exec. rewrite verifyLicense_exact, Hc, Hu. simpl. rewrite Hc.
      by destruct (String.eqb_spec p ""). }
    split; [rewrite Hg; apply lookup_insert_eq|].
    unfold eval, isPlanRecurring. munfold. simpl. rewrite Hc'. simpl.
    unfold memento_get_or. rewrite Hg, lookup_insert_eq. simpl.
    do 2 f_equal. unfold strict_eq.
    destruct (decide (p = "monthly")) as [->|H1]; [done|].
    destruct (decide (p = "pro")) as [->|H2]; [done|].
    rewrite !bool_decide_eq_false_2; [done | | |]; [tauto | congruence | congruence].
Qed.

Lemma plan_recurring_after_verification_witness :
  eval isPlanRecurring trial_state = Ret (VBool false).
Proof.
  destruct (plan_recurring_after_verification trial_state sample_context) as (H & _);
    [reflexivity | apply H; reflexivity].
Defined.

(** ** A re-verification that fails *)

Lemma isTrialActive_at now x s :
  _context x = _context s ->
  globalState x !! TRIAL_START_KEY = globalState s !! TRIAL_START_KEY ->
  isTrialActive now x = (eval (isTrialActive now) s, x).
Proof.
  intros Hx Hg. unfold eval, isTrialActive. munfold. simpl. rewrite Hx.
  destruct (_context s); simpl; [|done].
  unfold memento_get. rewrite Hg. by destruct (negb _).
Qed.

Lemma licenseReverified_revokes s c e :
  _context s = Some c ->
  _isPro s = VBool true ->
  let s' := exec (licenseReverified (VBool false) e) s in
  _isPro s' = VBool false
  /\ _context s' = Some c
  /\ globalState s' = <[PRO_STATE_KEY := VBool false]> (globalState s)
  /\ (eval (isTrialActive (now e)) s = Ret (VBool false) -> pollFrequency s' = VNum 300).
Proof.
  intros Hc Hp. unfold licenseReverified, setProStatus. munfold. simpl.
  rewrite Hp. simpl. rewrite Hc. simpl.
  set (s1 := set_globalState _ _).
  assert (Ht : forall x, _context x = _context s ->
                 globalState x = globalState s1 ->
                 isTrialActive (now e) x = (fst (isTrialActive (now e) s), x)).
  { intros x Hx Hg. apply isTrialActive_at; [done|]. rewrite Hg. simpl.
    by rewrite lookup_insert_ne. }
  destruct (cdpHandler s); simpl; (rewrite Ht; [|done|done]);
    destruct (isTrialActive_returns (now e) s) as [b Hb]; rewrite Hb; simpl;
    destruct b; simpl; repeat split; try done.
Qed.

(** X11: when the re-verification of [activate] meets a network error or an
    answer that is not JSON, a user who was pro is no longer pro, in
    memory and in the store; [hasProAccess] is then what the trial gives,
    and without an active trial [pollFrequency] drops to 300. *)
Theorem failed_reverification_revokes_pro (s : state) (c : ExtensionContext)
    (r : response) (e : env) :
  _context s = Some c ->
  _isPro s = VBool true ->
  r = NetworkError \/ r = Malformed ->
  let s' := exec (reverify r e) s in
  _isPro s' = VBool false
  /\ globalState s' = <[PRO_STATE_KEY := VBool false]> (globalState s)
  /\ eval (hasProAccess (now e)) s' = eval (isTrialActive (now e)) s
  /\ (eval (isTrialActive (now e)) s = Ret (VBool false) -> pollFrequency s' = VNum 300).
Proof.
  intros Hc Hp Hr s'.
  assert (E : exists s1, verifyLicense r s = (Ret (VBool false), s1)
                         /\ _context s1 = Some c /\ _isPro s1 = VBool true
                         /\ globalState s1 = globalState s).
  { rewrite verifyLicense_exact.
    destruct Hr as [-> | ->]; destruct (negb (is_null (_context s)) && _);
      eexists; (split; [reflexivity|]); done. }
  destruct E as (s1 & E & Hc1 & Hp1 & Hg1).
  assert (Es : s' = exec (licenseReverified (VBool false) e) s1).
  { unfold s', reverify, exec. by rewrite (bind_run _ _ _ _ _ E). }
  assert (Et : eval (isTrialActive (now e)) s1 = eval (isTrialActive (now e)) s).
  { unfold eval at 1. rewrite (isTrialActive_at _ _ s); [done | congruence | by rewrite Hg1]. }
  destruct (licenseReverified_revokes s1 c e Hc1 Hp1) as (H1 & H2 & H3 & H4).
  rewrite <- Es, Et in *. clear Es.
  split; [done|]. split; [by rewrite H3, Hg1|]. split; [|done].
  unfold eval, hasProAccess. munfold. simpl. rewrite H1. simpl.
  rewrite (isTrialActive_at _ _ s); [done | congruence |].
  rewrite H3, Hg1. by rewrite lookup_insert_ne.
Qed.

Lemma failed_reverification_revokes_pro_witness :
  _isPro (exec (reverify NetworkError (at_time 9000)) paid_polling) = VBool false.
Proof.
  destruct (failed_reverification_revokes_pro paid_polling sample_context NetworkError
              (at_time 9000)) as (H & _);
    [reflexivity | reflexivity | by left | exact H].
Defined.

(** ** The pro flag across a restart *)

Lemma memento_get_or_defined m k d : d <> VUndef -> memento_get_or m k d <> VUndef.
Proof. intros Hd. unfold memento_get_or. destruct (m !! k) as [[]|]; done. Qed.

Lemma memento_update_defined m k v : v <> VUndef -> memento_update m k v = <[k := v]> m.
Proof. by destruct v. Qed.

Lemma memento_get_or_insert m k v d :
  v <> VUndef -> memento_get_or (<[k := v]> m) k d = v.
Proof. intros Hv. unfold memento_get_or. rewrite lookup_insert_eq. by destruct v. Qed.

Lemma memento_get_or_insert_ne m k k' v d :
  k' <> k -> memento_get_or (<[k' := v]> m) k d = memento_get_or m k d.
Proof. intros Hk. unfold memento_get_or. by rewrite lookup_insert_ne. Qed.

(** X12: [setProStatus] sets the flag in memory; on a module that is not
    initialised it leaves the store alone; on an initialised one, a fresh
    process that runs [init] on the store reads the same flag back,
    [false] when the flag was [undefined]. *)
Theorem pro_status_round_trip (context : ExtensionContext) (val : value) (s : state)
    (instance : string) (now : Z) :
  let s1 := exec (setProStatus val) s in
  _isPro s1 = val
  /\ (is_null (_context s) = true -> globalState s1 = globalState s)
  /\ (is_null (_context s) = false ->
      _isPro (exec (init context now) (loaded (globalState s1) instance))
      = if decide (val = VUndef) then VBool false else val).
Proof.
  assert (Hinit : forall g, _isPro (exec (init context now) (loaded g instance))
                            = memento_get_or g PRO_STATE_KEY (VBool false)).
  { intros g.
    assert (P : preserves (fun x => _isPro x = memento_get_or g PRO_STATE_KEY (VBool false))
                  (checkTrialExpiration now)).
    { repeat preserve_step frame_leaf. }
    unfold init, exec. munfold. simpl. by apply P. }
  cbv zeta. rewrite Hinit.
  unfold setProStatus, exec. munfold. simpl.
  destruct (_context s) as [c|]; simpl.
  - split; [by destruct (strict_eq val (VBool true))|]. split; [done|]. intros _.
    assert (G : memento_get_or (memento_update (globalState s) PRO_STATE_KEY val)
                  PRO_STATE_KEY (VBool false)
                = if decide (val = VUndef) then VBool false else val).
    { destruct (decide (val = VUndef)) as [->|Hv].
      - unfold memento_get_or. simpl. by rewrite lookup_delete_eq.
      - rewrite memento_update_defined by done. by apply memento_get_or_insert. }
    destruct (strict_eq val (VBool true)) eqn:Hs; simpl.
    + assert (val = VBool true) as ->.
      { unfold strict_eq in Hs. destruct val; try done.
        by apply bool_decide_eq_true_1 in Hs. }
      simpl. rewrite memento_get_or_insert_ne by done.
      by rewrite memento_get_or_insert.
    + exact G.
  - by repeat split.
Qed.

(** ** The polling timers *)

Lemma executeAcceptCommandsForIDE_run s :
  exists l, executeAcceptCommandsForIDE s = (Ret tt, set_effects (fun l0 => l0 ++ l) s).
Proof.
  unfold executeAcceptCommandsForIDE, getAcceptCommandsForIDE. munfold. simpl.
  destruct (String.eqb _ "antigravity").
  { eexists [_]. reflexivity. }
  destruct (String.eqb _ "cursor").
  { eexists [_]. reflexivity. }
  exists []. simpl. destruct s. unfold set_effects. simpl. by rewrite app_nil_r.
Qed.

Lemma clearInterval_run h s :
  clearInterval h s = (Ret tt, set_timers (cleared h) s).
Proof. destruct h; [done|]. by destruct s. Qed.

Lemma startPolling_timers now s :
  let s' := exec (startPolling now) s in
  timers s' = cleared (commandPollTimer s) (cleared (pollTimer s) (timers s))
              ++ [fast_timer s; maintenance_timer s]
  /\ commandPollTimer s' = Some (next_timer s)
  /\ pollTimer s' = Some (S (next_timer s))
  /\ next_timer s' = S (S (next_timer s)).
Proof.
  unfold startPolling. munfold. simpl. rewrite !clearInterval_run. simpl.
  rewrite syncSessions_run. simpl.
  match goal with
  | |- context [executeAcceptCommandsForIDE ?x] =>
      destruct (executeAcceptCommandsForIDE_run x) as [l ->]
  end.
  unfold setInterval, fast_timer, maintenance_timer. simpl.
  destruct (cdpHandler s && negb (isLockedOut s)); simpl;
    by rewrite <- app_assoc.
Qed.

Lemma stopPolling_timers s :
  let s' := exec stopPolling s in
  timers s' = cleared (commandPollTimer s) (cleared (pollTimer s) (timers s))
  /\ commandPollTimer s' = None
  /\ pollTimer s' = None
  /\ next_timer s' = next_timer s.
Proof.
  unfold stopPolling. munfold. simpl.
  destruct (pollTimer s) as [pt|] eqn:Hp; simpl;
    destruct (commandPollTimer s) as [ct|] eqn:Hc; simpl;
    destruct (cdpHandler s) eqn:Hh; simpl; done.
Qed.

Lemma cleared_fresh h l n :
  (forall t, t ∈ l -> (timer_id t < n)%nat) ->
  (forall id, h = Some id -> (n <= id)%nat) ->
  cleared h l = l.
Proof.
  intros Hl Hh. destruct h as [id|]; [|done]. simpl.
  induction l as [|t l IH]; [done|].
  rewrite filter_cons_True.
  - f_equal. apply IH. intros t' Ht'. apply Hl. by right.
  - pose proof (Hl t (list_elem_of_here _ _)). pose proof (Hh id eq_refl). lia.
Qed.

Lemma cleared_app h l1 l2 : cleared h (l1 ++ l2) = cleared h l1 ++ cleared h l2.
Proof. destruct h; [apply filter_app | done]. Qed.

Lemma cleared_allocated h l n :
  (forall t, t ∈ l -> (timer_id t < n)%nat) ->
  forall t, t ∈ cleared h l -> (timer_id t < n)%nat.
Proof.
  intros Hl t Ht. apply Hl. destruct h; [|done].
  by apply list_elem_of_filter in Ht as [_ Ht].
Qed.

Lemma same_settings_refl s : same_settings s s.
Proof. by repeat split. Qed.

Ltac settings_leaf :=
  intros ? ?;
  repeat match goal with
    | |- context [clearInterval ?h] => is_var h; destruct h
    | |- context [gs_update ?c] => is_var c; destruct c
    end;
  first [ assumption | done ].

Lemma startPolling_settings now s0 : preserves (same_settings s0) (startPolling now).
Proof. repeat preserve_step settings_leaf. Qed.

Lemma stopPolling_settings s0 : preserves (same_settings s0) stopPolling.
Proof. repeat preserve_step settings_leaf. Qed.

Lemma ensureCDPOrPrompt_quiet a s : ensureCDPOrPrompt false a s = (Ret (cdpHandler s && a), s).
Proof.
  unfold ensureCDPOrPrompt. munfold. simpl.
  destruct (cdpHandler s); simpl; [|done]. by destruct a.
Qed.

Lemma stopPolling_total : returns stopPolling.
Proof. repeat returns_step. Qed.

Lemma deactivate_run s :
  exec deactivate s
  = (if cdpHandler (exec stopPolling s) then log_effect CdpStop (exec stopPolling s)
     else exec stopPolling s).
Proof.
  unfold deactivate, exec. destruct (stopPolling_total s) as [[] Hr].
  destruct (stopPolling s) as [r x] eqn:Hx. simpl in Hr. subst r.
  rewrite (bind_run _ _ _ _ _ Hx). munfold. simpl. by destruct (cdpHandler x).
Qed.

(** X13: [deactivate] after [startPolling] removes the two timers that
    [startPolling] registered, besides the two it had cleared, and leaves
    both handles empty; every other timer and every setting is as before,
    and when no polling was running the timer table is the one before
    [startPolling]. *)
Theorem deactivate_undoes_startPolling (now : Z) (s : state) :
  timers_allocated s ->
  let s' := exec deactivate (exec (startPolling now) s) in
  timers s' = cleared (commandPollTimer s) (cleared (pollTimer s) (timers s))
  /\ commandPollTimer s' = None
  /\ pollTimer s' = None
  /\ same_settings s s'
  /\ (commandPollTimer s = None -> pollTimer s = None -> timers s' = timers s).
Proof.
  intros Ha.
  destruct (startPolling_timers now s) as (Ht & Hc & Hp & Hn).
  pose proof (startPolling_settings now s s (same_settings_refl s)) as Hs1.
  set (s1 := exec (startPolling now) s) in *. fold s1 in Hs1.
  destruct (stopPolling_timers s1) as (Ht2 & Hc2 & Hp2 & Hn2).
  pose proof (stopPolling_settings s s1 Hs1) as Hs2.
  set (s2 := exec stopPolling s1) in *. fold s2 in Hs2.
  assert (E : exec deactivate s1 = if cdpHandler s2 then log_effect CdpStop s2 else s2)
    by apply deactivate_run.
  assert (Hl : timers s2 = cleared (commandPollTimer s) (cleared (pollTimer s) (timers s))).
  { rewrite Ht2, Hc, Hp, Ht, !cleared_app.
    set (l := cleared (commandPollTimer s) (cleared (pollTimer s) (timers s))).
    assert (Hl : forall t, t ∈ l -> (timer_id t < next_timer s)%nat).
    { unfold l. by do 2 apply cleared_allocated. }
    rewrite (cleared_fresh (Some (S (next_timer s))) l (next_timer s)); [|done|].
    2:{ intros id [= <-]. lia. }
    rewrite (cleared_fresh (Some (next_timer s)) l (next_timer s)); [|done|].
    2:{ intros id [= <-]. lia. }
    simpl. unfold fast_timer, maintenance_timer.
    rewrite !filter_cons, !filter_nil. simpl.
    repeat (case_decide; simpl; rewrite ?filter_cons, ?filter_nil; simpl);
      try done; try lia. by rewrite app_nil_r. }
  cbv zeta. rewrite E.
  assert (G : forall x : state,
             x = (if cdpHandler s2 then log_effect CdpStop s2 else s2) ->
             timers x = timers s2 /\ commandPollTimer x = commandPollTimer s2
             /\ pollTimer x = pollTimer s2 /\ same_settings s x).
  { intros x ->. destruct (cdpHandler s2); repeat split; try apply Hs2; done. }
  destruct (G _ eq_refl) as (G1 & G2 & G3 & G4).
  rewrite G1, G2, G3, Hl. repeat split; try done; try apply G4.
  intros -> ->. done.
Qed.

Lemma deactivate_undoes_startPolling_witness :
  timers (exec deactivate (exec (startPolling 5000) paid_window)) = timers paid_window.
Proof.
  destruct (deactivate_undoes_startPolling 5000 paid_window) as (_ & _ & _ & _ & H).
  - intros t Ht. by apply elem_of_nil in Ht.
  - apply H; reflexivity.
Defined.

(** ** The enable toggle *)

Lemma hasTrialStarted_returns s : exists b, hasTrialStarted s = (Ret (VBool b), s).
Proof.
  unfold hasTrialStarted. munfold. simpl.
  destruct (_context s); simpl; by eexists.
Qed.

Lemma startPolling_returns now s : startPolling now s = (Ret tt, exec (startPolling now) s).
Proof.
  destruct (startPolling_total now s) as [[] H]. unfold exec.
  destruct (startPolling now s) as [r x]. simpl in *. by subst.
Qed.

Lemma stopPolling_returns s : stopPolling s = (Ret tt, exec stopPolling s).
Proof.
  destruct (stopPolling_total s) as [[] H]. unfold exec.
  destruct (stopPolling s) as [r x]. simpl in *. by subst.
Qed.

(** The state in which [handleToggle] starts or stops the polling. *)
Lemma handleToggle_run context e s :
  let on := negb (truthy (isEnabled s)) in
  exists sa,
    timers sa = timers s /\ next_timer sa = next_timer s
    /\ pollTimer sa = pollTimer s /\ commandPollTimer sa = commandPollTimer s
    /\ pollFrequency sa = pollFrequency s
    /\ (forall k, k <> TRIAL_START_KEY -> globalState sa !! k = globalState s !! k)
    /\ let sb := log_effect UpdateStatusBar
                   (set_globalState (fun m => <[GLOBAL_STATE_KEY := VBool on]> m)
                      (set_isEnabled (VBool on) sa)) in
       exec (handleToggle context e) s
       = if on then exec (startPolling (now e)) sb else exec stopPolling sb.
Proof.
  intros on. unfold handleToggle.
  destruct (hasTrialStarted_returns s) as [b Hb].
  set (g := negb (truthy (isEnabled s)) && negb (truthy (_isPro s)) && negb (truthy (VBool b))).
  set (sa := exec (when g (startTrial (now e);; emit (ShowInformation MsgTrialActivated))) s).
  assert (Ea : when g (startTrial (now e);; emit (ShowInformation MsgTrialActivated)) s
               = (Ret tt, sa)).
  { unfold sa, exec, startTrial. munfold. destruct g; simpl; [|done].
    by destruct (_context s). }
  assert (Fa : timers sa = timers s /\ next_timer sa = next_timer s
               /\ pollTimer sa = pollTimer s /\ commandPollTimer sa = commandPollTimer s
               /\ pollFrequency sa = pollFrequency s /\ isEnabled sa = isEnabled s
               /\ (forall k, k <> TRIAL_START_KEY ->
                     globalState sa !! k = globalState s !! k)).
  { unfold sa, exec, startTrial. munfold. destruct g; simpl; [|done].
    destruct (_context s); simpl; repeat split; try done.
    intros k Hk. by rewrite lookup_insert_ne. }
  destruct Fa as (F1 & F2 & F3 & F4 & F5 & F6 & F7).
  exists sa. repeat split; try done.
  unfold exec. munfold. simpl. rewrite Hb. fold g. unfold when in Ea. rewrite Ea.
  simpl. rewrite F6. unfold js_not. fold on.
  destruct on; simpl.
  - rewrite startPolling_returns. simpl. by rewrite ensureCDPOrPrompt_quiet.
  - by rewrite stopPolling_returns.
Qed.


Lemma startPolling_first_effect now s :
  cdpHandler s && negb (isLockedOut s) = true ->
  CdpStart (sync_config now s) ∈ effects (exec (startPolling now) s).
Proof.
  intros Hh.
  assert (P : preserves (fun x => CdpStart (sync_config now s) ∈ effects x)
                (executeAcceptCommandsForIDE ≫= fun _ =>
                 gets pollFrequency ≫= fun pf =>
                 setInterval FastTick pf ≫= fun id =>
                 modify (set_commandPollTimer (Some id)) ≫= fun _ =>
                 setInterval MaintenanceTick (VNum 5000) ≫= fun id' =>
                 modify (set_pollTimer (Some id')))).
  { repeat preserve_step ltac:(first [ frame_leaf
                                     | intros ? ?; simpl; apply elem_of_app; by left ]). }
  unfold startPolling, exec. munfold. simpl. rewrite !clearInterval_run. simpl.
  rewrite syncSessions_run. simpl. rewrite Hh.
  apply P. simpl. apply elem_of_app. right. apply list_elem_of_singleton.
  f_equal. unfold sync_config. simpl. f_equal.
  unfold access.
  change (fst (hasProAccess now ?x)) with (eval (hasProAccess now) x).
  by rewrite (hasProAccess_reads now s
                (set_timers (cleared (commandPollTimer s))
                   (set_timers (cleared (pollTimer s)) s))); [ | | | left].
Qed.

(** X15: the first enable of a free user with no trial recorded starts the
    trial at the current time: [hasProAccess] is [true] from then until
    three days later and [false] afterwards, the trial message is shown,
    and the sessions that the same toggle starts are configured with
    [isPro] true. *)
Theorem first_enable_unlocks_trial (context c : ExtensionContext) (e : env) (s : state) :
  _context s = Some c ->
  truthy (isEnabled s) = false ->
  truthy (_isPro s) = false ->
  globalState s !! TRIAL_START_KEY = None ->
  now e <> 0 ->
  let s' := exec (handleToggle context e) s in
  (forall t, eval (hasProAccess t) s'
             = Ret (VBool (bool_decide (t - now e < TRIAL_DURATION_MS))))
  /\ ShowInformation MsgTrialActivated ∈ effects s'
  /\ (cdpHandler s && negb (isLockedOut s) = true ->
      exists cfg, CdpStart cfg ∈ effects s' /\ cfg_isPro cfg = VBool true).
Proof.
  intros Hc He Hp Ht Hnow s'.
  pose (sa := log_effect (ShowInformation MsgTrialActivated)
                (set_globalState (fun m => <[TRIAL_START_KEY := VNum (now e)]> m) s)).
  pose (sb := log_effect UpdateStatusBar
                (set_globalState (fun m => <[GLOBAL_STATE_KEY := VBool true]> m)
                   (set_isEnabled (VBool true) sa))).
  assert (E : s' = exec (startPolling (now e)) sb).
  { unfold s', handleToggle, exec. munfold. simpl.
    destruct (hasTrialStarted_returns s) as [b Hb].
    assert (b = false) as ->.
    { revert Hb. unfold hasTrialStarted. munfold. simpl. rewrite Hc. simpl.
      unfold memento_get. rewrite Ht. by intros [= <-]. }
    rewrite Hb. rewrite He, Hp. simpl. unfold startTrial. munfold. simpl.
    rewrite Hc. simpl. unfold js_not. simpl. rewrite He. simpl.
    rewrite startPolling_returns. simpl. by rewrite ensureCDPOrPrompt_quiet. }
  pose proof (startPolling_settings (now e) sb sb (same_settings_refl sb)) as Hs.
  fold (exec (startPolling (now e)) sb) in Hs. rewrite <- E in Hs.
  destruct Hs as (S1 & S2 & S3 & _).
  assert (Hacc : forall t x, _context x = Some c -> _isPro x = _isPro s ->
                   globalState x !! TRIAL_START_KEY = Some (VNum (now e)) ->
                   hasProAccess t x
                   = (Ret (VBool (bool_decide (t - now e < TRIAL_DURATION_MS))), x)).
  { intros t x Hx Hpx Hgx. unfold hasProAccess. munfold. simpl. rewrite Hpx, Hp.
    by apply (isTrialActive_recorded t x c (now e)). }
  assert (Gb : globalState sb !! TRIAL_START_KEY = Some (VNum (now e))).
  { unfold sb, sa. simpl. rewrite lookup_insert_ne by done. apply lookup_insert_eq. }
  split; [|split].
  - intros t. unfold eval. rewrite (Hacc t s'); [done | | |].
    + by rewrite S2.
    + by rewrite S3.
    + by rewrite S1.
  - rewrite E.
    assert (P : preserves (fun x => ShowInformation MsgTrialActivated ∈ effects x)
                  (startPolling (now e))).
    { repeat preserve_step ltac:(first [ frame_leaf
                                     | intros ? ?; simpl; apply elem_of_app; by left ]). }
    apply P. unfold sb, sa. simpl. apply elem_of_app. left.
    apply elem_of_app. right. by apply list_elem_of_singleton.
  - intros Hh. exists (sync_config (now e) sb). split.
    + rewrite E. by apply startPolling_first_effect.
    + unfold sync_config. simpl. unfold access.
      rewrite (Hacc (now e) sb); [| done | done | done]. simpl.
      do 1 f_equal. apply bool_decide_eq_true_2. unfold TRIAL_DURATION_MS. lia.
Qed.

Lemma first_enable_unlocks_trial_witness :
  eval (hasProAccess 86400000)
    (exec (handleToggle sample_context (at_time 5000))
       (exec (init sample_context 4000) (loaded ∅ "k3x9f2")))
  = Ret (VBool true).
Proof.
  destruct (first_enable_unlocks_trial sample_context sample_context (at_time 5000)
              (exec (init sample_context 4000) (loaded ∅ "k3x9f2")))
    as (H & _); [reflexivity | reflexivity | reflexivity | reflexivity | discriminate |].
  rewrite H. reflexivity.
Defined.

(** ** Resuming at activation *)

(** X16: [checkEnvironmentAndStart] changes no setting and writes nothing to
    the store; it registers the two polling timers when the extension is
    enabled, and leaves the timer table alone when it is not. *)
Theorem activation_resumes_polling (e : env) (s : state) :
  let s' := exec (checkEnvironmentAndStart e) s in
  same_settings s s'
  /\ (if truthy (isEnabled s)
      then commandPollTimer s' = Some (next_timer s)
           /\ pollTimer s' = Some (S (next_timer s))
           /\ timers s' = cleared (commandPollTimer s) (cleared (pollTimer s) (timers s))
                          ++ [fast_timer s; maintenance_timer s]
      else commandPollTimer s' = commandPollTimer s
           /\ pollTimer s' = pollTimer s
           /\ timers s' = timers s).
Proof.
  assert (E : exec (checkEnvironmentAndStart e) s
              = log_effect UpdateStatusBar
                  (if truthy (isEnabled s) then exec (startPolling (now e)) s else s)).
  { unfold checkEnvironmentAndStart, exec. munfold. simpl.
    destruct (truthy (isEnabled s)); simpl; [|done].
    rewrite startPolling_returns. simpl. by rewrite ensureCDPOrPrompt_quiet. }
  cbv zeta. rewrite E.
  destruct (truthy (isEnabled s)).
  - pose proof (startPolling_settings (now e) s s (same_settings_refl s)) as Hs.
    destruct (startPolling_timers (now e) s) as (Ht & Hc & Hp & _).
    split; [exact Hs | by repeat split].
  - split; [exact (same_settings_refl s) | by repeat split].
Qed.

(** ** Activation *)

Lemma getPollFrequency_exact now s :
  getPollFrequency now s
  = (Ret (if is_null (_context s) then VNum 300
          else if truthy (access now s)
               then memento_get_or (globalState s) FREQ_STATE_KEY (VNum 1000)
               else VNum 300), s).
Proof.
  unfold getPollFrequency. munfold. simpl.
  destruct (_context s); simpl; [|done].
  rewrite hasProAccess_returns. by destruct (truthy (access now s)).
Qed.

Lemma access_pro now s : truthy (_isPro s) = true -> access now s = _isPro s.
Proof.
  intros Hp. unfold access, hasProAccess. munfold. simpl. by rewrite Hp.
Qed.

Lemma onProActivated_returns now a s :
  onProActivated now a s = (Ret tt, exec (onProActivated now a) s).
Proof.
  destruct (onProActivated_total now a s) as [[] H]. unfold exec.
  destruct (onProActivated now a s) as [r x]. simpl in *. by subst.
Qed.

Lemma onProActivated_run now a s c :
  _context s = Some c ->
  truthy (_isPro s) = true ->
  let f := memento_get_or (globalState s) FREQ_STATE_KEY (VNum 1000) in
  exists sb,
    exec (onProActivated now a) s
    = (if truthy (isEnabled s) then exec (startPolling now) sb else sb)
    /\ pollFrequency sb = f /\ timers sb = timers s /\ next_timer sb = next_timer s
    /\ pollTimer sb = pollTimer s /\ commandPollTimer sb = commandPollTimer s
    /\ globalState sb = globalState s /\ _isPro sb = _isPro s
    /\ _proPollingTimer sb = _proPollingTimer s /\ isEnabled sb = isEnabled s.
Proof.
  intros Hc Hp f. unfold onProActivated, handlePaidActivation, ensureCDPOrPrompt, exec.
  munfold. simpl.
  destruct (cdpHandler s) eqn:Hh, (truthy (isEnabled s)) eqn:He, (isLockedOut s) eqn:Hl,
    (relauncher s) eqn:Hr, a;
    repeat (progress (simpl; rewrite ?Hc, ?Hh, ?He, ?Hp, ?Hl, ?Hr, ?syncSessions_run,
                        ?getPollFrequency_exact,
                        ?access_pro by done));
    fold f; (eexists; split; [reflexivity | by repeat split]).
Qed.

(** X17: [activatePro] with a valid licence makes the user pro in memory and
    in the store, keeps a stored frequency or stores the default 1000,
    sets [pollFrequency] to that frequency, starts no verification
    polling, shows the activation message, and, when the extension is
    enabled, restarts the fast timer at that frequency. *)
Theorem activation_applies_pro_cadence (s : state) (c : ExtensionContext) (e : env)
    (p : string) :
  _context s = Some c ->
  truthy (memento_get (globalState s) USER_ID_KEY) = true ->
  license e = Json (VStr p) (VBool true) ->
  toLowerCase p = "lifetime" \/ toLowerCase p = "monthly" ->
  let f := memento_get_or (globalState s) FREQ_STATE_KEY (VNum 1000) in
  let s' := exec (activatePro (callbacks e) (license e)) s in
  _isPro s' = VBool true
  /\ globalState s' !! PRO_STATE_KEY = Some (VBool true)
  /\ globalState s' !! FREQ_STATE_KEY = Some f
  /\ pollFrequency s' = f
  /\ _proPollingTimer s' = _proPollingTimer s
  /\ ShowInformation MsgProActivated ∈ effects s'
  /\ (truthy (isEnabled s) = true ->
      commandPollTimer s' = Some (next_timer s)
      /\ {| timer_id := next_timer s; timer_task := FastTick; timer_interval := f |}
         ∈ timers s').
Proof.
  intros Hc Hu Hr Hv f s'.
  assert (Hp : p <> "") by (intros ->; by destruct Hv).
  assert (Hval : license_value (license e) = VBool true).
  { apply license_value_true, license_value_truthy. eauto. }
  assert (Hf : f <> VUndef) by (by apply memento_get_or_defined).
  set (s1 := store_plan (license e)
               (log_effect (HttpsGet "check-license" (memento_get (globalState s) USER_ID_KEY))
                  (log_effect VerifyLicenseCalled s))).
  assert (E1 : verifyLicense (license e) s = (Ret (VBool true), s1)).
  { rewrite verifyLicense_exact, Hc, Hu. simpl. by rewrite Hval. }
  assert (G1 : globalState s1 = <[PLAN_KEY := VStr p]> (globalState s)).
  { unfold s1. rewrite Hr. simpl. rewrite Hc. by destruct (String.eqb_spec p ""). }
  assert (F1 : _context s1 = Some c /\ timers s1 = timers s /\ next_timer s1 = next_timer s
               /\ commandPollTimer s1 = commandPollTimer s
               /\ _proPollingTimer s1 = _proPollingTimer s /\ isEnabled s1 = isEnabled s).
  { unfold s1. rewrite Hr. simpl. rewrite Hc. by destruct (String.eqb_spec p ""). }
  destruct F1 as (C1 & T1 & N1 & K1 & P1 & I1).
  set (g2 := <[FREQ_STATE_KEY := f]> (<[PRO_STATE_KEY := VBool true]> (globalState s1))).
  set (s2 := set_globalState (fun _ => g2) (set__isPro (VBool true) s1)).
  assert (Ef : memento_get_or (<[PRO_STATE_KEY := VBool true]> (globalState s1))
                 FREQ_STATE_KEY (VNum 1000) = f).
  { rewrite memento_get_or_insert_ne by done. rewrite G1.
    by rewrite memento_get_or_insert_ne. }
  assert (E2 : exec (activatePro (callbacks e) (license e)) s
               = log_effect (ShowInformation MsgProActivated)
                   (exec (onProActivated (now e) (cdpAvailable e)) s2)).
  { unfold activatePro, exec. rewrite (bind_run _ _ _ _ _ E1). simpl.
    munfold. simpl. rewrite C1. simpl. rewrite Ef.
    unfold run_callback, callbacks.
    match goal with
    | |- context [onProActivated _ _ ?x] =>
        assert (Ex : x = s2)
          by (unfold s2, g2, set_globalState; simpl; f_equal;
              by apply memento_update_defined);
        rewrite Ex
    end.
    by rewrite onProActivated_returns. }
  destruct (onProActivated_run (now e) (cdpAvailable e) s2 c)
    as (sb & Eb & B1 & B2 & B3 & B4 & B5 & B6 & B7 & B8 & B9); [done | done |].
  assert (Ef2 : memento_get_or (globalState s2) FREQ_STATE_KEY (VNum 1000) = f).
  { simpl. unfold g2. by apply memento_get_or_insert. }
  rewrite Ef2 in B1. simpl in B2, B3, B4, B5, B6, B7, B8, B9.
  unfold s'. rewrite E2, Eb. simpl. rewrite I1.
  destruct (truthy (isEnabled s)) eqn:He.
  - pose proof (startPolling_settings (now e) sb sb (same_settings_refl sb)) as Hs.
    destruct (startPolling_timers (now e) sb) as (Ht & Hk & _).
    destruct Hs as (S1 & _ & S2 & S3 & _ & _ & _ & _ & S4 & _).
    fold (exec (startPolling (now e)) sb) in S1, S2, S3, S4.
    rewrite S1, S2, S3, S4, B1, B6, B7, B8, P1. unfold g2.
    split; [done|]. split; [by rewrite lookup_insert_ne, lookup_insert_eq|].
    split; [by rewrite lookup_insert_eq|]. split; [done|]. split; [done|].
    split; [apply elem_of_app; right; by apply list_elem_of_singleton|].
    intros _. rewrite Hk, Ht, B3, N1. split; [done|].
    apply elem_of_app. right. unfold fast_timer. rewrite B1, B3, N1. by left.
  - rewrite B1, B6, B7, B8, P1. unfold g2.
    split; [done|]. split; [by rewrite lookup_insert_ne, lookup_insert_eq|].
    split; [by rewrite lookup_insert_eq|]. split; [done|]. split; [done|].
    split; [apply elem_of_app; right; by apply list_elem_of_singleton|]. done.
Qed.

Lemma activation_applies_pro_cadence_witness :
  pollFrequency
    (exec (activatePro
             (callbacks {| now := 9000; cdpAvailable := true;
                           license := Json (VStr "Lifetime") (VBool true);
                           answer := Dismissed; settingsPanel := true |})
             (Json (VStr "Lifetime") (VBool true)))
       paid_polling)
  = VNum 1000.
Proof.
  destruct (activation_applies_pro_cadence paid_polling sample_context
              {| now := 9000; cdpAvailable := true;
                 license := Json (VStr "Lifetime") (VBool true);
                 answer := Dismissed; settingsPanel := true |} "Lifetime")
    as (_ & _ & _ & H & _);
    [reflexivity | reflexivity | reflexivity | by left | exact H].
Defined.

(** ** Settings behind the entitlement *)

(** X18: without pro access, [handleFrequencyUpdate] and
    [handleBannedCommandsUpdate] change nothing at all, and
    [handleRelaunch] does nothing but show one message: the error when no
    relauncher is loaded, otherwise the upgrade prompt of the settings
    panel, or, when the panel cannot be loaded, the plain invitation to
    upgrade.  It never starts the relaunch. *)
Theorem pro_settings_gated (context : ExtensionContext) (e : env) (s : state) :
  truthy (access (now e) s) = false ->
  (forall freq, exec (handleFrequencyUpdate context freq e) s = s)
  /\ (forall commands, exec (handleBannedCommandsUpdate context commands e) s = s)
  /\ exec (handleRelaunch e) s
     = log_effect (if relauncher s then
                     if settingsPanel e then ShowUpgradePrompt
                     else ShowInformation MsgUpgradeToUnlock
                   else ShowError MsgRelauncherMissing) s.
Proof.
  intros Ha. repeat split.
  - intros freq. unfold handleFrequencyUpdate, exec. munfold.
    rewrite hasProAccess_returns. simpl. by rewrite Ha.
  - intros commands. unfold handleBannedCommandsUpdate, exec. munfold.
    rewrite hasProAccess_returns. simpl. by rewrite Ha.
  - unfold handleRelaunch, exec. munfold. simpl.
    destruct (relauncher s); simpl; [|done].
    rewrite hasProAccess_returns. simpl. rewrite Ha. simpl.
    by destruct (settingsPanel e).
Qed.

Lemma pro_settings_gated_witness :
  exec (handleFrequencyUpdate sample_context (VNum 50) (at_time 5000))
    (loaded ∅ "k3x9f2")
  = loaded ∅ "k3x9f2".
Proof.
  destruct (pro_settings_gated sample_context (at_time 5000) (loaded ∅ "k3x9f2"))
    as (H & _); [reflexivity | apply H].
Defined.

Lemma handleFrequencyUpdate_frame context freq e s :
  truthy (access (now e) s) = true ->
  let s' := exec (handleFrequencyUpdate context freq e) s in
  _context s' = _context s /\ _isPro s' = _isPro s
  /\ globalState s' = memento_update (globalState s) FREQ_STATE_KEY freq
  /\ pollFrequency s' = freq.
Proof.
  intros Ha. unfold handleFrequencyUpdate, exec. munfold.
  rewrite hasProAccess_returns. simpl. rewrite Ha. simpl.
  destruct (truthy (isEnabled s)); simpl; [|done].
  rewrite syncSessions_run. simpl.
  destruct (cdpHandler s && negb (isLockedOut s)); simpl;
    by destruct (commandPollTimer s).
Qed.

(** X19: with pro access on an initialised module, after
    [handleFrequencyUpdate (freq)] the variable [pollFrequency] is [freq]
    and [getPollFrequency] answers [freq], or the default 1000 when
    [freq] is [undefined]. *)
Theorem frequency_round_trip (context c : ExtensionContext) (freq : value) (e : env)
    (s : state) :
  _context s = Some c ->
  truthy (access (now e) s) = true ->
  let s' := exec (handleFrequencyUpdate context freq e) s in
  pollFrequency s' = freq
  /\ eval (getPollFrequency (now e)) s'
     = Ret (if decide (freq = VUndef) then VNum 1000 else freq).
Proof.
  intros Hc Ha s'.
  destruct (handleFrequencyUpdate_frame context freq e s Ha) as (H1 & H2 & H3 & H4).
  fold s' in H1, H2, H3, H4. split; [done|].
  unfold eval. rewrite getPollFrequency_exact, H1, Hc. simpl.
  assert (Ha' : access (now e) s' = access (now e) s).
  { unfold access.
    change (fst (hasProAccess (now e) s')) with (eval (hasProAccess (now e)) s').
    change (fst (hasProAccess (now e) s)) with (eval (hasProAccess (now e)) s).
    rewrite (hasProAccess_reads (now e) s' s); [done | by rewrite H1 | | by left].
    rewrite H3. unfold memento_update.
    destruct freq; try (by rewrite lookup_insert_ne); by rewrite lookup_delete_ne. }
  rewrite Ha', Ha, H3. f_equal.
  destruct (decide (freq = VUndef)) as [->|Hf].
  - unfold memento_get_or. simpl. by rewrite lookup_delete_eq.
  - rewrite memento_update_defined by done. by apply memento_get_or_insert.
Qed.

Lemma frequency_round_trip_witness :
  eval (getPollFrequency 9000)
    (exec (handleFrequencyUpdate sample_context (VNum 50) (at_time 9000)) paid_polling)
  = Ret (VNum 50).
Proof.
  destruct (frequency_round_trip sample_context sample_context (VNum 50) (at_time 9000)
              paid_polling) as (_ & H); [reflexivity | reflexivity | exact H].
Defined.

(** X20: with pro access, [handleBannedCommandsUpdate] keeps in memory and in
    the store the list it was given, the empty list when it was given
    anything but an array; when the extension is enabled, the CDP handler
    is loaded and the window is not in standby, it starts the sessions
    once with that list, and otherwise calls nothing. *)
Theorem banned_commands_update (context : ExtensionContext) (commands : value)
    (e : env) (s : state) :
  truthy (access (now e) s) = true ->
  let s' := exec (handleBannedCommandsUpdate context commands e) s in
  let l := as_array commands in
  bannedCommands s' = l
  /\ globalState s' = <[BANNED_COMMANDS_KEY := VArr l]> (globalState s)
  /\ effects s'
     = effects s
       ++ (if truthy (isEnabled s) && (cdpHandler s && negb (isLockedOut s))
           then [CdpStart {| cfg_isPro := access (now e) s;
                             cfg_isBackgroundMode := backgroundModeEnabled s;
                             cfg_pollInterval := pollFrequency s;
                             cfg_ide := currentIDE s;
                             cfg_bannedCommands := l |}]
           else []).
Proof.
  intros Ha. unfold handleBannedCommandsUpdate, exec. munfold.
  rewrite hasProAccess_returns. simpl. rewrite Ha. simpl.
  destruct (truthy (isEnabled s)); simpl.
  - rewrite syncSessions_run. simpl.
    destruct (cdpHandler s && negb (isLockedOut s)); simpl.
    + repeat split. do 3 f_equal. unfold sync_config. simpl. f_equal.
      unfold access.
      change (fst (hasProAccess (now e) ?x)) with (eval (hasProAccess (now e)) x).
      rewrite (hasProAccess_reads (now e) _ s); [done | done | | by left].
      simpl. by rewrite lookup_insert_ne.
    + by rewrite app_nil_r.
  - by rewrite app_nil_r.
Qed.

Lemma banned_commands_update_witness :
  bannedCommands
    (exec (handleBannedCommandsUpdate sample_context (VStr "rm -rf /") (at_time 9000))
       paid_polling)
  = [].
Proof.
  destruct (banned_commands_update sample_context (VStr "rm -rf /") (at_time 9000)
              paid_polling) as (H & _); [reflexivity | exact H].
Defined.

(** ** The detected IDE *)

Lemma detectIDE_cases appName :
  detectIDE appName = "Cursor" \/ detectIDE appName = "Antigravity"
  \/ detectIDE appName = "Code".
Proof.
  unfold detectIDE. cbv zeta.
  destruct (includes "cursor" _); [by left|].
  destruct (includes "antigravity" _); [right; by left | right; by right].
Qed.

(** X21: the accept commands of a window are those of Cursor when the
    application name contains [cursor] in any case, else those of
    Antigravity when it contains [antigravity], else none: in any other
    IDE [executeAcceptCommandsForIDE] and the fast tick do nothing. *)
Theorem detected_ide_commands (appName : option string) (s : state) :
  currentIDE s = detectIDE appName ->
  let name := toLowerCase (default "" appName) in
  eval getAcceptCommandsForIDE s
  = Ret (if includes "cursor" name then ACCEPT_COMMANDS_CURSOR
         else if includes "antigravity" name then ACCEPT_COMMANDS_ANTIGRAVITY
         else [])
  /\ (includes "cursor" name = false -> includes "antigravity" name = false ->
      exec executeAcceptCommandsForIDE s = s /\ exec fastTick s = s).
Proof.
  intros Hs name.
  assert (E : getAcceptCommandsForIDE s
              = (Ret (if includes "cursor" name then ACCEPT_COMMANDS_CURSOR
                      else if includes "antigravity" name then ACCEPT_COMMANDS_ANTIGRAVITY
                      else []), s)).
  { unfold getAcceptCommandsForIDE. munfold. simpl. rewrite Hs. unfold detectIDE.
    cbv zeta. fold name. destruct (includes "cursor" name); [done|].
    by destruct (includes "antigravity" name). }
  split; [unfold eval; by rewrite E|].
  intros H1 H2. rewrite H1, H2 in E.
  assert (E' : exec executeAcceptCommandsForIDE s = s).
  { unfold executeAcceptCommandsForIDE, exec. by rewrite (bind_run _ _ _ _ _ E). }
  split; [done|].
  unfold fastTick, exec in *. munfold. simpl. by destruct (negb (truthy (isEnabled s))).
Qed.

Lemma detected_ide_commands_witness :
  eval getAcceptCommandsForIDE (enabled_window sample_context "k3x9f2" ∅)
  = Ret ACCEPT_COMMANDS_CURSOR.
Proof.
  destruct (detected_ide_commands (Some "Cursor") (enabled_window sample_context "k3x9f2" ∅))
    as (H & _); [reflexivity | exact H].
Defined.

(** The maintenance tick writes the two lease keys of its own IDE and no
    other key. *)
Lemma maintenanceTick_other_keys now s k :
  k <> lock_key (currentIDE s) ->
  k <> ping_key (currentIDE s) ->
  globalState (exec (maintenanceTick now) s) !! k = globalState s !! k.
Proof.
  intros Hl Hp.
  destruct (truthy (isEnabled s)) eqn:He.
  2:{ unfold maintenanceTick, exec. munfold. simpl. by rewrite He. }
  destruct (globalContext s) as [c|] eqn:Hc.
  2:{ unfold maintenanceTick, exec. munfold. simpl. rewrite He. simpl. by rewrite Hc. }
  destruct (maintenanceTick_lease s c now He Hc) as (_ & _ & Hg).
  rewrite Hg. destruct (_ && _ && _); [done|].
  by rewrite !lookup_insert_ne.
Qed.

(** X22: the maintenance tick of a window leaves the lease keys of every other
    detected IDE as they are: windows of different IDEs never contend for
    a lease. *)
Theorem lease_keys_per_ide (mine other : option string) (now : Z) (s : state) :
  currentIDE s = detectIDE mine ->
  detectIDE other <> detectIDE mine ->
  let s' := exec (maintenanceTick now) s in
  globalState s' !! lock_key (detectIDE other)
  = globalState s !! lock_key (detectIDE other)
  /\ globalState s' !! ping_key (detectIDE other)
     = globalState s !! ping_key (detectIDE other).
Proof.
  intros Hs Hne s'. unfold s'. rewrite !maintenanceTick_other_keys; [done | | | |];
    rewrite Hs;
    destruct (detectIDE_cases mine) as [Hm | [Hm | Hm]],
             (detectIDE_cases other) as [Ho | [Ho | Ho]];
    rewrite Hm, Ho in *; done.
Qed.

Lemma lease_keys_per_ide_witness :
  globalState (exec (maintenanceTick 5000) (enabled_window sample_context "k3x9f2" held_by_B))
    !! lock_key (detectIDE (Some "Antigravity"))
  = None.
Proof.
  destruct (lease_keys_per_ide (Some "Cursor") (Some "Antigravity") 5000
              (enabled_window sample_context "k3x9f2" held_by_B)) as (H & _);
    [reflexivity | discriminate | rewrite H; reflexivity].
Defined.

(** ** What never starts the relaunch flow *)

Lemma ensureCDPOrPrompt_false_pure a : pure (ensureCDPOrPrompt false a).
Proof. intros s. by rewrite ensureCDPOrPrompt_quiet. Qed.

#[export] Hint Resolve ensureCDPOrPrompt_false_pure : purity.

Section Relaunch.

Variable n : nat.
Let R : state -> Prop := fun s => relaunches s = n.

Ltac relaunch_leaf := first [ apply count_emit_ne; discriminate | frame_leaf ].

Lemma handleToggle_relaunches c e : preserves R (handleToggle c e).
Proof. unfold R, relaunches. repeat preserve_step relaunch_leaf. Qed.

Lemma checkEnvironmentAndStart_relaunches e : preserves R (checkEnvironmentAndStart e).
Proof. unfold R, relaunches. repeat preserve_step relaunch_leaf. Qed.

Lemma handleFrequencyUpdate_relaunches c f e : preserves R (handleFrequencyUpdate c f e).
Proof. unfold R, relaunches. repeat preserve_step relaunch_leaf. Qed.

Lemma handleBannedCommandsUpdate_relaunches c l e :
  preserves R (handleBannedCommandsUpdate c l e).
Proof. unfold R, relaunches. repeat preserve_step relaunch_leaf. Qed.

Lemma licenseReverified_relaunches v e : preserves R (licenseReverified v e).
Proof. unfold R, relaunches. repeat preserve_step relaunch_leaf. Qed.

Lemma maintenanceTick_relaunches now : preserves R (maintenanceTick now).
Proof. unfold R, relaunches. repeat preserve_step relaunch_leaf. Qed.

Lemma fastTick_relaunches : preserves R fastTick.
Proof. unfold R, relaunches. repeat preserve_step relaunch_leaf. Qed.

Lemma checkTrialExpiration_relaunches now : preserves R (checkTrialExpiration now).
Proof. unfold R, relaunches. repeat preserve_step relaunch_leaf. Qed.

Lemma deactivate_relaunches : preserves R deactivate.
Proof. unfold R, relaunches. repeat preserve_step relaunch_leaf. Qed.

End Relaunch.

Lemma fire_run id e s :
  fire id e s
  = match find_timer id s with
    | None => (Ret tt, s)
    | Some t =>
        match timer_task t with
        | FastTick => fastTick s
        | MaintenanceTick => maintenanceTick (now e) s
        | ProPollingTick => proPollingTick (callbacks e) (license e) s
        | TrialCheckTick => checkTrialExpiration (now e) s
        end
    end.
Proof.
  unfold fire. munfold. simpl. destruct (find_timer id s) as [t|]; [|done].
  by destruct (timer_task t).
Qed.

(** X23: only the relaunch command, the background toggle and the ways into
    [handlePaidActivation] ask for the setup-and-relaunch flow: no other
    command, timer or re-verification does, nor [checkEnvironmentAndStart]
    or [deactivate]. *)
Theorem only_requests_relaunch (context : ExtensionContext) (ev : event) (e : env)
    (s : state) :
  ~ may_relaunch ev s ->
  relaunches (exec (step context ev e) s) = relaunches s
  /\ relaunches (exec (checkEnvironmentAndStart e) s) = relaunches s
  /\ relaunches (exec deactivate s) = relaunches s.
Proof.
  intros Hev. split; [|split].
  - unfold step, exec. apply preserves_try_catch_at; [| by apply preserves_ret].
    destruct ev as [c | id | v].
    + destruct c; simpl in *; try tauto.
      * by apply handleToggle_relaunches.
      * by apply handleFrequencyUpdate_relaunches.
      * by apply handleBannedCommandsUpdate_relaunches.
    + rewrite fire_run. destruct (find_timer id s) as [t|] eqn:Ht; [|done].
      destruct (timer_task t) eqn:Hk.
      * by apply fastTick_relaunches.
      * by apply maintenanceTick_relaunches.
      * exfalso. apply Hev. simpl. eauto.
      * by apply checkTrialExpiration_relaunches.
    + by apply licenseReverified_relaunches.
  - by apply checkEnvironmentAndStart_relaunches.
  - by apply deactivate_relaunches.
Qed.

Lemma only_requests_relaunch_witness :
  relaunches (exec (step sample_context (Command CmdToggle) (at_time 5000)) paid_polling)
  = relaunches paid_polling.
Proof.
  destruct (only_requests_relaunch sample_context (Command CmdToggle) (at_time 5000)
              paid_polling) as (H & _); [by intros [] | exact H].
Defined.

(** ** A window in standby *)

Section Standby.

Variable n : nat.
Let Q : state -> Prop := fun s => isLockedOut s = true /\ cdp_starts s = n.

Lemma standby_emit e : is_start e = false -> preserves Q (emit e).
Proof.
  intros He s [Hl Hn]. split; [done|]. unfold cdp_starts in *. simpl.
  rewrite filter_app, length_app, filter_cons_False, filter_nil by (by rewrite He).
  simpl. lia.
Qed.

Ltac standby_leaf := first [ apply standby_emit; reflexivity | frame_leaf ].

Lemma syncSessions_standby now : preserves Q (syncSessions now).
Proof. intros s [Hl Hn]. rewrite syncSessions_run, Hl, andb_false_r. by split. Qed.

#[local] Hint Resolve syncSessions_standby : preservation.

Lemma startPolling_standby now : preserves Q (startPolling now).
Proof. unfold Q. repeat preserve_step standby_leaf. Qed.

Lemma stopPolling_standby : preserves Q stopPolling.
Proof. unfold Q. repeat preserve_step standby_leaf. Qed.

#[local] Hint Resolve startPolling_standby stopPolling_standby : preservation.

Lemma onProActivated_standby now a : preserves Q (onProActivated now a).
Proof. unfold Q. repeat preserve_step standby_leaf. Qed.

Lemma run_callback_standby e : preserves Q (run_callback (callbacks e)).
Proof. apply onProActivated_standby. Qed.

#[local] Hint Resolve onProActivated_standby run_callback_standby : preservation.

Lemma runCommand_standby c cmd e : preserves Q (runCommand c cmd e).
Proof. unfold Q. destruct cmd; simpl; repeat preserve_step standby_leaf. Qed.

Lemma licenseReverified_standby v e : preserves Q (licenseReverified v e).
Proof. unfold Q. repeat preserve_step standby_leaf. Qed.

Lemma fastTick_standby : preserves Q fastTick.
Proof. unfold Q. repeat preserve_step standby_leaf. Qed.

Lemma proPollingTick_standby e : preserves Q (proPollingTick (callbacks e) (license e)).
Proof. unfold Q. repeat preserve_step standby_leaf. Qed.

Lemma checkTrialExpiration_standby now : preserves Q (checkTrialExpiration now).
Proof. unfold Q. repeat preserve_step standby_leaf. Qed.

End Standby.

(** X24: while a window is in standby, no command, no re-verification and no
    timer other than the maintenance timer starts a CDP session or ends
    the standby. *)
Theorem standby_starts_no_session (context : ExtensionContext) (ev : event) (e : env)
    (s : state) :
  isLockedOut s = true ->
  not_maintenance ev s ->
  let s' := exec (step context ev e) s in
  isLockedOut s' = true /\ cdp_starts s' = cdp_starts s.
Proof.
  intros Hl Hev.
  change ((fun x => isLockedOut x = true /\ cdp_starts x = cdp_starts s)
            (snd (step context ev e s))).
  unfold step. apply preserves_try_catch_at; [| by apply preserves_ret].
  destruct ev as [c | id | v].
  - by apply runCommand_standby.
  - rewrite fire_run. destruct (find_timer id s) as [t|] eqn:Ht; [|done].
    destruct (timer_task t) eqn:Hk.
    + by apply fastTick_standby.
    + by destruct (Hev id t eq_refl Ht).
    + by apply proPollingTick_standby.
    + by apply checkTrialExpiration_standby.
  - by apply licenseReverified_standby.
Qed.

Lemma standby_starts_no_session_witness :
  cdp_starts (exec (step sample_context (Command (CmdUpdateFrequency (VNum 50)))
                      (at_time 9000)) (set_isLockedOut true paid_polling))
  = cdp_starts (set_isLockedOut true paid_polling).
Proof.
  destruct (standby_starts_no_session sample_context
              (Command (CmdUpdateFrequency (VNum 50))) (at_time 9000)
              (set_isLockedOut true paid_polling)) as (_ & H);
    [reflexivity | by intros id t [=] | exact H].
Defined.

(** ** The persisted settings *)

Lemma memento_get_or_update_ne m k k' v d :
  k' <> k -> memento_get_or (memento_update m k' v) k d = memento_get_or m k d.
Proof.
  intros Hk. unfold memento_get_or, memento_update.
  destruct v; by rewrite ?lookup_insert_ne, ?lookup_delete_ne.
Qed.

Lemma mirrored_gs_update c k v :
  k <> GLOBAL_STATE_KEY -> k <> BACKGROUND_MODE_KEY -> k <> BANNED_COMMANDS_KEY ->
  preserves mirrored (gs_update c k v).
Proof.
  intros H1 H2 H3 s (M1 & M2 & M3). destruct c; [|done]. unfold mirrored. simpl.
  by rewrite !memento_get_or_update_ne.
Qed.

Lemma not_lease_key_enabled : not_lease_key GLOBAL_STATE_KEY.
Proof. by split. Qed.

Lemma not_lease_key_background : not_lease_key BACKGROUND_MODE_KEY.
Proof. by split. Qed.

Lemma not_lease_key_banned : not_lease_key BANNED_COMMANDS_KEY.
Proof. by split. Qed.

Lemma mirrored_lock c ide v : preserves mirrored (gs_update c (lock_key ide) v).
Proof.
  apply mirrored_gs_update; apply not_lease_key_lock;
    [apply not_lease_key_enabled | apply not_lease_key_background
    | apply not_lease_key_banned].
Qed.

Lemma mirrored_ping c ide v : preserves mirrored (gs_update c (ping_key ide) v).
Proof.
  apply mirrored_gs_update; apply not_lease_key_ping;
    [apply not_lease_key_enabled | apply not_lease_key_background
    | apply not_lease_key_banned].
Qed.

Section Mirrored.

Context {A : Type}.

Lemma mirrored_flip_enabled c (k : value -> M A) :
  (forall a, preserves mirrored (k a)) ->
  preserves mirrored
    (modify (fun s => set_isEnabled (js_not (isEnabled s)) s) ≫= fun _ =>
     gets isEnabled ≫= fun en' =>
     gs_update (Some c) GLOBAL_STATE_KEY en' ≫= fun _ => k en').
Proof.
  intros Hk s (M1 & M2 & M3). munfold. simpl. apply Hk.
  unfold mirrored, js_not. simpl.
  rewrite memento_get_or_insert by done.
  by rewrite !memento_get_or_insert_ne.
Qed.

Lemma mirrored_flip_background c (k : value -> M A) :
  (forall a, preserves mirrored (k a)) ->
  preserves mirrored
    (modify (fun s => set_backgroundModeEnabled (js_not (backgroundModeEnabled s)) s)
       ≫= fun _ =>
     gets backgroundModeEnabled ≫= fun bg' =>
     gs_update (Some c) BACKGROUND_MODE_KEY bg' ≫= fun _ => k bg').
Proof.
  intros Hk s (M1 & M2 & M3). munfold. simpl. apply Hk.
  unfold mirrored, js_not. simpl.
  rewrite memento_get_or_insert by done.
  by rewrite !memento_get_or_insert_ne.
Qed.

Lemma mirrored_set_background c (k : M A) :
  preserves mirrored k ->
  preserves mirrored
    (modify (set_backgroundModeEnabled (VBool true)) ≫= fun _ =>
     gs_update (Some c) BACKGROUND_MODE_KEY (VBool true) ≫= fun _ => k).
Proof.
  intros Hk s (M1 & M2 & M3). munfold. simpl. apply Hk.
  unfold mirrored. simpl.
  rewrite memento_get_or_insert by done.
  by rewrite !memento_get_or_insert_ne.
Qed.

Lemma mirrored_set_banned c l (k : list string -> M A) :
  (forall a, preserves mirrored (k a)) ->
  preserves mirrored
    (modify (set_bannedCommands l) ≫= fun _ =>
     gets bannedCommands ≫= fun bc =>
     gs_update (Some c) BANNED_COMMANDS_KEY (VArr bc) ≫= fun _ => k bc).
Proof.
  intros Hk s (M1 & M2 & M3). munfold. simpl. apply Hk.
  unfold mirrored. simpl.
  rewrite memento_get_or_insert by done.
  by rewrite !memento_get_or_insert_ne.
Qed.

End Mirrored.

Ltac mirror_leaf :=
  idtac;
  lazymatch goal with
  | |- preserves _ (gs_update _ (lock_key _) _) => apply mirrored_lock
  | |- preserves _ (gs_update _ (ping_key _) _) => apply mirrored_ping
  | |- preserves _ (gs_update _ _ _) => apply mirrored_gs_update; done
  | |- _ => frame_leaf
  end.

Ltac mirror_step :=
  lazymatch goal with
  | |- preserves _ (mbind _ (modify (fun s => set_isEnabled (@?v s) s))) =>
      apply mirrored_flip_enabled; intros ?
  | |- preserves _ (mbind _ (modify (fun s => set_backgroundModeEnabled (@?v s) s))) =>
      apply mirrored_flip_background; intros ?
  | |- preserves _ (mbind _ (modify (set_backgroundModeEnabled _))) =>
      apply mirrored_set_background
  | |- preserves _ (mbind _ (modify (set_bannedCommands _))) =>
      apply mirrored_set_banned; intros ?
  | |- _ => preserve_step mirror_leaf
  end.

Lemma syncSessions_mirrored now : preserves mirrored (syncSessions now).
Proof. repeat mirror_step. Qed.

#[local] Hint Resolve syncSessions_mirrored : preservation.

Lemma startPolling_mirrored now : preserves mirrored (startPolling now).
Proof. repeat mirror_step. Qed.

Lemma stopPolling_mirrored : preserves mirrored stopPolling.
Proof. repeat mirror_step. Qed.

#[local] Hint Resolve startPolling_mirrored stopPolling_mirrored : preservation.

Lemma onProActivated_mirrored now a : preserves mirrored (onProActivated now a).
Proof. repeat mirror_step. Qed.

Lemma run_callback_mirrored e : preserves mirrored (run_callback (callbacks e)).
Proof. apply onProActivated_mirrored. Qed.

#[local] Hint Resolve onProActivated_mirrored run_callback_mirrored : preservation.

Lemma handleToggle_mirrored c e : preserves mirrored (handleToggle c e).
Proof. repeat mirror_step. Qed.

Lemma handleBannedCommandsUpdate_mirrored c l e :
  preserves mirrored (handleBannedCommandsUpdate c l e).
Proof. repeat mirror_step. Qed.

Lemma handleBackgroundToggle_mirrored c e : preserves mirrored (handleBackgroundToggle c e).
Proof. repeat mirror_step. Qed.

#[local] Hint Resolve handleToggle_mirrored handleBannedCommandsUpdate_mirrored
  handleBackgroundToggle_mirrored : preservation.

Lemma executeAcceptCommandsForIDE_mirrored : preserves mirrored executeAcceptCommandsForIDE.
Proof. repeat mirror_step. Qed.

Lemma ensureCDPOrPrompt_mirrored b a : preserves mirrored (ensureCDPOrPrompt b a).
Proof. repeat mirror_step. Qed.

#[local] Hint Resolve executeAcceptCommandsForIDE_mirrored ensureCDPOrPrompt_mirrored
  : preservation.

Lemma handlePaidActivation_mirrored now a : preserves mirrored (handlePaidActivation now a).
Proof. repeat mirror_step. Qed.

Lemma verifyLicense_mirrored r : preserves mirrored (verifyLicense r).
Proof. repeat mirror_step. Qed.

Lemma startProPolling_mirrored : preserves mirrored startProPolling.
Proof. repeat mirror_step. Qed.

#[local] Hint Resolve handlePaidActivation_mirrored verifyLicense_mirrored
  startProPolling_mirrored : preservation.

Lemma proPollingTick_mirrored e :
  preserves mirrored (proPollingTick (callbacks e) (license e)).
Proof. repeat mirror_step. Qed.

Lemma activatePro_mirrored e : preserves mirrored (activatePro (callbacks e) (license e)).
Proof. repeat mirror_step. Qed.

Lemma handleRelaunch_mirrored e : preserves mirrored (handleRelaunch e).
Proof. repeat mirror_step. Qed.

Lemma handleFrequencyUpdate_mirrored c f e : preserves mirrored (handleFrequencyUpdate c f e).
Proof. repeat mirror_step. Qed.

Lemma checkTrialExpiration_mirrored now : preserves mirrored (checkTrialExpiration now).
Proof. repeat mirror_step. Qed.

Lemma setProStatus_mirrored v : preserves mirrored (setProStatus v).
Proof. repeat mirror_step. Qed.

#[local] Hint Resolve proPollingTick_mirrored activatePro_mirrored handleRelaunch_mirrored
  handleFrequencyUpdate_mirrored checkTrialExpiration_mirrored setProStatus_mirrored
  : preservation.

Lemma licenseReverified_mirrored v e : preserves mirrored (licenseReverified v e).
Proof. repeat mirror_step. Qed.

Lemma fastTick_mirrored : preserves mirrored fastTick.
Proof. repeat mirror_step. Qed.

Lemma maintenanceTick_mirrored now : preserves mirrored (maintenanceTick now).
Proof. repeat mirror_step. Qed.

#[local] Hint Resolve licenseReverified_mirrored fastTick_mirrored maintenanceTick_mirrored
  : preservation.

Lemma step_mirrored c ev e : preserves mirrored (step c ev e).
Proof. repeat mirror_step. Qed.

Lemma checkEnvironmentAndStart_mirrored e : preserves mirrored (checkEnvironmentAndStart e).
Proof. repeat mirror_step. Qed.

Lemma deactivate_mirrored : preserves mirrored deactivate.
Proof. repeat mirror_step. Qed.

(** X25: the stored enabled flag, the stored background mode and the stored
    banned commands are the values in memory after every command, timer
    and re-verification, once they were so. *)
Theorem persisted_settings_mirror_memory (context : ExtensionContext)
    (evs : list (event * env)) (s : state) :
  mirrored s -> mirrored (run context evs s).
Proof.
  revert s. induction evs as [|[ev e] evs IH]; intros s Hs; [done|].
  simpl. apply IH. by apply step_mirrored.
Qed.

Lemma persisted_settings_mirror_memory_witness :
  mirrored (run sample_context
              [ (Command CmdToggle, at_time 5000);
                (Command CmdToggleBackground, at_time 6000);
                (Command (CmdUpdateBannedCommands (VArr ["rm -rf /"])), at_time 7000) ]
              (loaded ∅ "k3x9f2")).
Proof.
  apply (persisted_settings_mirror_memory sample_context). by repeat split.
Defined.

(** ** Keys that no handler writes *)

Section Unwritten.

Variable k : string.
Variable x : option value.
Hypothesis not_lease : not_lease_key k.
Hypothesis not_pro : PRO_STATE_KEY <> k.
Hypothesis not_freq : FREQ_STATE_KEY <> k.
Hypothesis not_plan : PLAN_KEY <> k.
Hypothesis not_enabled : GLOBAL_STATE_KEY <> k.
Hypothesis not_banned : BANNED_COMMANDS_KEY <> k.
Hypothesis not_dont_show : BACKGROUND_DONT_SHOW_KEY <> k.
Hypothesis not_background : BACKGROUND_MODE_KEY <> k.
Hypothesis not_trial : TRIAL_START_KEY <> k.
Hypothesis not_notified : TRIAL_NOTIFIED_KEY <> k.

Let P := keeps k x.

Lemma setProStatus_unwritten val : preserves P (setProStatus val).
Proof using not_pro not_notified. unfold P. repeat preserve_step keeps_leaf. Qed.

Lemma checkTrialExpiration_unwritten now : preserves P (checkTrialExpiration now).
Proof using not_notified. unfold P. repeat preserve_step keeps_leaf. Qed.

#[local] Hint Resolve setProStatus_unwritten checkTrialExpiration_unwritten : preservation.

Lemma licenseReverified_unwritten v e : preserves P (licenseReverified v e).
Proof using not_pro not_notified. unfold P. repeat preserve_step keeps_leaf. Qed.

Lemma handleToggle_unwritten c e : preserves P (handleToggle c e).
Proof using not_lease not_enabled not_trial. unfold P. repeat preserve_step keeps_leaf. Qed.

Lemma fire_unwritten id e : preserves P (fire id e).
Proof using not_lease not_pro not_notified not_plan.
  unfold P. repeat preserve_step keeps_leaf.
Qed.

#[local] Hint Resolve licenseReverified_unwritten handleToggle_unwritten fire_unwritten
  : preservation.

Lemma step_unwritten c ev e : preserves P (step c ev e).
Proof using All. unfold P. repeat preserve_step keeps_leaf. Qed.

Lemma run_unwritten c evs s : P s -> P (run c evs s).
Proof using All.
  revert s. induction evs as [|[ev e] evs IH]; intros s Hs; [done|].
  simpl. apply IH. by apply step_unwritten.
Qed.

End Unwritten.

(** ** Notices and their flags *)

Lemma seen_lookup k a b :
  globalState a !! k = globalState b !! k -> seen k a = seen k b.
Proof. intros H. unfold seen, memento_get_or. by rewrite H. Qed.

Lemma seen_set k s : seen k (set_globalState (fun m => <[k := VBool true]> m) s) = true.
Proof. unfold seen. simpl. by rewrite memento_get_or_insert. Qed.

Lemma seen_set_ne k k' v s :
  k' <> k -> seen k (set_globalState (fun m => <[k' := v]> m) s) = seen k s.
Proof. intros H. apply seen_lookup. simpl. by rewrite lookup_insert_ne. Qed.

Lemma run_seen_version_8_6 c evs s :
  seen VERSION_8_6_0_KEY (run c evs s) = seen VERSION_8_6_0_KEY s.
Proof. apply seen_lookup. by apply (run_unwritten VERSION_8_6_0_KEY). Qed.

Lemma run_seen_version_7_0 c evs s :
  seen VERSION_7_0_KEY (run c evs s) = seen VERSION_7_0_KEY s.
Proof. apply seen_lookup. by apply (run_unwritten VERSION_7_0_KEY). Qed.

Lemma showVersionNotification_exact c s :
  showVersionNotification c s
  = if negb (seen VERSION_8_6_0_KEY s)
    then (Ret (Some WhatsNew_8_6_0),
          set_globalState (fun m => <[VERSION_8_6_0_KEY := VBool true]> m) s)
    else if seen VERSION_7_0_KEY s then (Ret None, s)
    else (Ret (Some WhatsNew_7_0),
          set_globalState (fun m => <[VERSION_7_0_KEY := VBool true]> m) s).
Proof.
  unfold seen, showVersionNotification. munfold. simpl.
  destruct (negb (truthy (memento_get_or _ VERSION_8_6_0_KEY _))); [done|].
  by destruct (truthy (memento_get_or _ VERSION_7_0_KEY _)).
Qed.

Lemma showVersionNotification_run c s :
  let seen86 := seen VERSION_8_6_0_KEY s in
  let seen70 := seen VERSION_7_0_KEY s in
  let s' := exec (showVersionNotification c) s in
  eval (showVersionNotification c) s
  = Ret (if negb seen86 then Some WhatsNew_8_6_0
         else if seen70 then None else Some WhatsNew_7_0)
  /\ seen VERSION_8_6_0_KEY s' = true
  /\ seen VERSION_7_0_KEY s' = seen70 || seen86.
Proof.
  cbv zeta. unfold eval, exec. rewrite showVersionNotification_exact.
  destruct (seen VERSION_8_6_0_KEY s) eqn:H86; simpl.
  - destruct (seen VERSION_7_0_KEY s) eqn:H70; simpl.
    + by rewrite H86, H70.
    + rewrite seen_set, seen_set_ne by done. by rewrite H86.
  - rewrite seen_set, seen_set_ne by done. by rewrite orb_false_r.
Qed.

(** X26: whatever happens in between, [showVersionNotification] never shows
    the same release notes twice and shows nothing from its third call
    on; on a store with neither flag set, the first call shows the notes
    of 8.6.0 and the next one the notes of 7.0. *)
Theorem release_notes_shown_once (context : ExtensionContext) (s : state)
    (evs evs' : list (event * env)) :
  let s1 := run context evs (exec (showVersionNotification context) s) in
  let s2 := run context evs' (exec (showVersionNotification context) s1) in
  (forall n, eval (showVersionNotification context) s = Ret (Some n) ->
             eval (showVersionNotification context) s1 <> Ret (Some n))
  /\ eval (showVersionNotification context) s2 = Ret None
  /\ (seen VERSION_8_6_0_KEY s = false ->
      seen VERSION_7_0_KEY s = false ->
      eval (showVersionNotification context) s = Ret (Some WhatsNew_8_6_0)
      /\ eval (showVersionNotification context) s1 = Ret (Some WhatsNew_7_0)).
Proof.
  intros s1 s2.
  destruct (showVersionNotification_run context s) as (E0 & A0 & B0).
  destruct (showVersionNotification_run context s1) as (E1 & A1 & B1).
  destruct (showVersionNotification_run context s2) as (E2 & _).
  assert (A : seen VERSION_8_6_0_KEY s1 = true)
    by (unfold s1; by rewrite run_seen_version_8_6).
  assert (B : seen VERSION_7_0_KEY s1
              = seen VERSION_7_0_KEY s || seen VERSION_8_6_0_KEY s)
    by (unfold s1; by rewrite run_seen_version_7_0).
  assert (A' : seen VERSION_8_6_0_KEY s2 = true)
    by (unfold s2; by rewrite run_seen_version_8_6).
  assert (B' : seen VERSION_7_0_KEY s2 = true).
  { unfold s2. rewrite run_seen_version_7_0, B1, A. apply orb_true_r. }
  rewrite E0, E1, E2, A, B, A', B'. simpl.
  destruct (seen VERSION_8_6_0_KEY s), (seen VERSION_7_0_KEY s); simpl;
    repeat split; try done; intros n [= <-]; done.
Qed.

Lemma release_notes_shown_once_witness :
  eval (showVersionNotification sample_context) (loaded ∅ "k3x9f2")
  = Ret (Some WhatsNew_8_6_0)
  /\ eval (showVersionNotification sample_context)
       (run sample_context [(Command CmdToggle, at_time 5000)]
          (exec (showVersionNotification sample_context) (loaded ∅ "k3x9f2")))
     = Ret (Some WhatsNew_7_0).
Proof.
  destruct (release_notes_shown_once sample_context (loaded ∅ "k3x9f2")
              [(Command CmdToggle, at_time 5000)] []) as (_ & _ & H).
  apply H; reflexivity.
Defined.

(** X27: [showReleasyCrossPromo] shows its dialog exactly when the flag is not
    set, and never again afterwards, whatever happens in between. *)
Theorem cross_promo_shown_once (context : ExtensionContext) (s : state)
    (evs : list (event * env)) :
  eval (showReleasyCrossPromo context) s
  = Ret (negb (seen RELEASY_PROMO_KEY s))
  /\ eval (showReleasyCrossPromo context)
       (run context evs (exec (showReleasyCrossPromo context) s))
     = Ret false.
Proof.
  assert (E : forall x, showReleasyCrossPromo context x
                = (Ret (negb (seen RELEASY_PROMO_KEY x)),
                   if seen RELEASY_PROMO_KEY x then x
                   else set_globalState (fun m => <[RELEASY_PROMO_KEY := VBool true]> m) x)).
  { intros x. unfold showReleasyCrossPromo. munfold. simpl.
    fold (seen RELEASY_PROMO_KEY x). by destruct (seen RELEASY_PROMO_KEY x). }
  unfold eval, exec. rewrite !E. simpl. split; [done|]. do 2 f_equal.
  rewrite (seen_lookup _ _
             (if seen RELEASY_PROMO_KEY s then s
              else set_globalState (fun m => <[RELEASY_PROMO_KEY := VBool true]> m) s)).
  2:{ by apply (run_unwritten RELEASY_PROMO_KEY). }
  destruct (seen RELEASY_PROMO_KEY s) eqn:H; [by rewrite H | by rewrite seen_set].
Qed.

(** X28: once [showBackgroundModeUpsell] has shown its dialog at time [t], no
    call before [t] plus thirty minutes shows it again, whatever happens
    in between. *)
Theorem upsell_cooldown (context : ExtensionContext) (s : state)
    (evs : list (event * env)) (t t' : Z) :
  eval (showBackgroundModeUpsell context t) s = Ret true ->
  t' - t < UPSELL_COOLDOWN_MS ->
  eval (showBackgroundModeUpsell context t')
    (run context evs (exec (showBackgroundModeUpsell context t) s))
  = Ret false.
Proof.
  intros Hshown Hlt.
  assert (E : exec (showBackgroundModeUpsell context t) s
              = set_globalState (fun m => <[UPSELL_COOLDOWN_KEY := VNum t]> m) s).
  { revert Hshown. unfold showBackgroundModeUpsell, eval, exec. munfold. simpl.
    destruct (truthy (_isPro s)); [done|]. simpl.
    by destruct (js_lt _ _). }
  rewrite E.
  set (s1 := run context evs _).
  assert (K : globalState s1 !! UPSELL_COOLDOWN_KEY = Some (VNum t)).
  { apply (run_unwritten UPSELL_COOLDOWN_KEY); try done. unfold keeps. simpl.
    apply lookup_insert_eq. }
  unfold showBackgroundModeUpsell, eval. munfold. simpl.
  destruct (truthy (_isPro s1)); [done|]. simpl.
  unfold memento_get_or. rewrite K. unfold js_lt. simpl.
  destruct (Z.ltb_spec (t' - t) UPSELL_COOLDOWN_MS); [done | lia].
Qed.

Lemma upsell_cooldown_witness :
  eval (showBackgroundModeUpsell sample_context 9000000)
    (run sample_context [(Command CmdToggle, at_time 8500000)]
       (exec (showBackgroundModeUpsell sample_context 8000000) (loaded ∅ "k3x9f2")))
  = Ret false.
Proof.
  apply (upsell_cooldown sample_context (loaded ∅ "k3x9f2")
           [(Command CmdToggle, at_time 8500000)] 8000000 9000000);
    [reflexivity | reflexivity].
Defined.

(** ** The first-time dialog of the background toggle *)

Section DontShowAgain.

Variable n : nat.
Let D : state -> Prop := fun s =>
  keeps BACKGROUND_DONT_SHOW_KEY (Some (VBool true)) s /\ confirmations s = n.

Lemma final_emit e :
  e <> ShowInformation MsgTurnOnBackground -> preserves D (emit e).
Proof.
  intros He s [H1 H2]. split; [done|].
  by apply (count_emit_ne (ShowInformation MsgTurnOnBackground) e n).
Qed.

Lemma final_update c k v :
  k <> BACKGROUND_DONT_SHOW_KEY -> preserves D (gs_update c k v).
Proof.
  intros Hk s [H1 H2]. split.
  - by apply keeps_gs_update.
  - by destruct c.
Qed.

Lemma not_lease_key_dont_show : not_lease_key BACKGROUND_DONT_SHOW_KEY.
Proof. by split. Qed.

Ltac final_leaf :=
  idtac;
  lazymatch goal with
  | |- preserves _ (emit _) => apply final_emit; discriminate
  | |- preserves _ (gs_update _ (lock_key _) _) =>
      apply final_update, not_lease_key_lock, not_lease_key_dont_show
  | |- preserves _ (gs_update _ (ping_key _) _) =>
      apply final_update, not_lease_key_ping, not_lease_key_dont_show
  | |- preserves _ (gs_update _ _ _) => apply final_update; done
  | |- _ => frame_leaf
  end.

Lemma syncSessions_final now : preserves D (syncSessions now).
Proof. unfold D. repeat preserve_step final_leaf. Qed.

#[local] Hint Resolve syncSessions_final : preservation.

Lemma startPolling_final now : preserves D (startPolling now).
Proof. unfold D. repeat preserve_step final_leaf. Qed.

Lemma stopPolling_final : preserves D stopPolling.
Proof. unfold D. repeat preserve_step final_leaf. Qed.

#[local] Hint Resolve startPolling_final stopPolling_final : preservation.

Lemma onProActivated_final now a : preserves D (onProActivated now a).
Proof. unfold D. repeat preserve_step final_leaf. Qed.

Lemma run_callback_final e : preserves D (run_callback (callbacks e)).
Proof. apply onProActivated_final. Qed.

#[local] Hint Resolve onProActivated_final run_callback_final : preservation.

(** With the flag set the dialog branch is not taken. *)
Lemma handleBackgroundToggle_final c e : preserves D (handleBackgroundToggle c e).
Proof.
  unfold handleBackgroundToggle.
  apply preserves_bind; [apply preserves_pure, hasProAccess_pure | intros a].
  destruct (negb (truthy a)); [unfold D; final_leaf|].
  apply preserves_bind; [apply preserves_gets | intros bg].
  apply preserves_bind; [apply preserves_gets | intros h].
  apply preserves_bind; [apply preserves_gets | intros r].
  cbv zeta. destruct (negb (truthy bg) && _); [unfold D; final_leaf|].
  apply (preserves_bind_known _ _ _ (fun _ => VBool true)).
  { intros s [H1 H2]. unfold gs_get_or, gets, memento_get_or. unfold keeps in H1.
    by rewrite H1. }
  intros s Hs. simpl.
  assert (P : preserves D
    (modify (fun s0 => set_backgroundModeEnabled (js_not (backgroundModeEnabled s0)) s0)
       ≫= fun _ =>
     gets backgroundModeEnabled ≫= fun bg' =>
     gs_update (Some c) BACKGROUND_MODE_KEY bg' ≫= fun _ =>
     gets isEnabled ≫= fun en =>
     (if negb (truthy bg') && h && truthy en
      then emit CdpStop ≫= fun _ => syncSessions (now e)
      else if truthy bg' && h && truthy en then syncSessions (now e) else ret tt)
       ≫= fun _ =>
     when (negb (truthy bg') && h) (emit CdpHideBackgroundOverlay) ≫= fun _ =>
     updateStatusBar)).
  { unfold D. repeat preserve_step final_leaf. }
  by apply P.
Qed.

#[local] Hint Resolve handleBackgroundToggle_final : preservation.

Lemma step_final c ev e : preserves D (step c ev e).
Proof. unfold D. repeat preserve_step final_leaf. Qed.

Lemma run_final c evs s : D s -> D (run c evs s).
Proof.
  revert s. induction evs as [|[ev e] evs IH]; intros s Hs; [done|].
  simpl. apply IH. by apply step_final.
Qed.

End DontShowAgain.

(** X29: an entitled user who answers the first-time dialog of the
    background toggle with the do-not-show-again button turns background
    mode on and sets the flag; from then on the flag stays set and the
    dialog is never shown again, whatever commands, timers and
    re-verifications follow. *)
Theorem dont_show_again_is_final (context : ExtensionContext) (e : env) (s : state)
    (evs : list (event * env)) :
  truthy (access (now e) s) = true ->
  truthy (backgroundModeEnabled s) = false ->
  cdpHandler s && cdpAvailable e || negb (relauncher s) = true ->
  truthy (memento_get_or (globalState s) BACKGROUND_DONT_SHOW_KEY (VBool false)) = false ->
  answer e = ChooseDontShowAgain ->
  let s1 := exec (handleBackgroundToggle context e) s in
  let s2 := run context evs s1 in
  confirmations s1 = S (confirmations s)
  /\ backgroundModeEnabled s1 = VBool true
  /\ globalState s2 !! BACKGROUND_DONT_SHOW_KEY = Some (VBool true)
  /\ confirmations s2 = confirmations s1.
Proof.
  intros Ha Hbg Hcdp Hd Hans s1 s2.
  assert (E : s1 = log_effect UpdateStatusBar
                     (set_globalState (fun m => <[BACKGROUND_MODE_KEY := VBool true]> m)
                        (set_backgroundModeEnabled (VBool true)
                           (set_globalState
                              (fun m => <[BACKGROUND_DONT_SHOW_KEY := VBool true]> m)
                              (log_effect (ShowInformation MsgTurnOnBackground) s))))).
  { unfold s1, handleBackgroundToggle, exec. munfold.
    rewrite hasProAccess_returns. simpl. rewrite Ha. simpl. rewrite Hbg. simpl.
    assert (Hdefer : negb (if cdpHandler s then cdpAvailable e else false) && relauncher s
                     = false).
    { destruct (cdpHandler s), (cdpAvailable e), (relauncher s); done. }
    rewrite Hdefer. simpl. rewrite Hd. simpl. by rewrite Hans. }
  assert (H1 : keeps BACKGROUND_DONT_SHOW_KEY (Some (VBool true)) s1
               /\ confirmations s1 = S (confirmations s)).
  { rewrite E. split.
    - unfold keeps. simpl. rewrite lookup_insert_ne by done. apply lookup_insert_eq.
    - unfold confirmations, count_effect. simpl.
      rewrite !filter_app, !length_app, !filter_cons, !filter_nil.
      repeat case_decide; simpl; try done; lia. }
  destruct (run_final (S (confirmations s)) context evs s1 H1) as [K1 K2].
  destruct H1 as [_ H1]. fold s2 in K1, K2.
  repeat split; [done | by rewrite E | exact K1 | by rewrite K2, H1].
Qed.

Lemma dont_show_again_is_final_witness :
  confirmations
    (run sample_context
       [ (Command CmdToggleBackground, at_time 9500);
         (Command CmdToggleBackground, at_time 9600) ]
       (exec (handleBackgroundToggle sample_context
                {| now := 9000; cdpAvailable := true; license := NetworkError;
                   answer := ChooseDontShowAgain;
                 settingsPanel := true |}) paid_polling))
  = 1%nat.
Proof.
  destruct (dont_show_again_is_final sample_context
              {| now := 9000; cdpAvailable := true; license := NetworkError;
                 answer := ChooseDontShowAgain;
                 settingsPanel := true |} paid_polling
              [ (Command CmdToggleBackground, at_time 9500);
                (Command CmdToggleBackground, at_time 9600) ])
    as (H1 & _ & _ & H4);
    [reflexivity | reflexivity | reflexivity | reflexivity | reflexivity |].
  rewrite H4, H1. reflexivity.
Defined.
